(** * VFAT Analyzer front end: a shallow embedding of the client store,
      the progress-stream reader, the view-mode toggle and the 3D viewer.

    Sources embedded here:
    - [frontend/src/types/index.ts]      (record shapes)
    - [stores/appStore.ts], the second part of the same source file (the
      zustand store and its actions)
    - [frontend/src/services/api.ts]     (stream reader, legacy polling loop)
    - [frontend/src/components/ui/ViewModeToggle.tsx], [ActionButtons.tsx]
    - [frontend/src/components/viewers/ThreeDViewer.tsx] (the [Model] effect)

    Conventions.  A JS value that may be [null]/[undefined] is an [option];
    a JS [number] that is used as an index is a [Z], and a possibly-[NaN]
    number is an [option Z] ([None] is [NaN]).  A [Set<string>] is a
    [gset string]; [localStorage] is a [gmap string string] that may be
    unavailable.  An awaited request is an explicit input: the response the
    back end gave.  *)

From Stdlib Require Import ZArith QArith String Ascii List Lia.
From stdpp Require Import base option list gmap strings pretty.

Open Scope string_scope.
Open Scope Z_scope.

(** ** Record shapes ([types/index.ts]) *)

Record DicomSeries := mkSeries {
  series_uid : string;
  series_description : string;
  modality : string;
  image_count : Z;
  patient_name : option string;
  study_date : option string;
  rows : option Z;
  columns : option Z;
  pixel_spacing : option (list Q);
  slice_thickness : option Q
}.

Record DicomImage := mkImage {
  index : Z;
  instance_number : Z;
  slice_location : option Q
}.

Record SliceStats := mkSliceStats {
  ss_index : Z;
  visceral_fat_pixels : Z;
  subcutaneous_fat_pixels : Z;
  visceral_fat_area_cm2 : Q
}.

Record TissueStats := mkTissueStats {
  total_visceral_fat_volume : Q;
  total_subcutaneous_fat_volume : Q;
  visceral_fat_percentage : Q;
  slice_stats : list SliceStats
}.

Record AnalyzedImage := mkAnalyzedImage {
  ai_index : Z;
  colored_image_path : string;
  ai_stats : SliceStats
}.

Record AnalysisResult := mkAnalysisResult {
  ar_series_id : string;
  ar_image_count : Z;
  analyzed_images : list AnalyzedImage;
  tissue_stats : TissueStats
}.

Record TissueInfo := mkTissueInfo {
  ti_name : string;
  ti_color : string;
  ti_opacity : Q
}.

Record ModelInfo := mkModelInfo {
  mi_series_id : string;
  tissues : list TissueInfo;
  slice_count : Z;
  dimensions : list Z;
  voxel_spacing : list Q;
  glb_path : option string;
  obj_path : option string
}.

(** [ViewMode] is the union ['original' | 'analyzed' | '3d'] only at the type
    level: [loadViewState] casts whatever string the storage holds, so the
    run-time value is a string. *)
Definition ViewMode := string.
Definition vm_original : ViewMode := "original".
Definition vm_analyzed : ViewMode := "analyzed".
Definition vm_3d : ViewMode := "3d".

Inductive ProgressType := PStart | PProgress | PComplete | PError.

Record AnalysisProgress := mkProgress {
  ptype : ProgressType;
  message : string;
  progress : Z;
  total_images : option Z;
  current_image : option Z;
  step : option string;
  data : option AnalysisResult
}.

(** ** The store ([stores/appStore.ts], interface [AppStore]) *)

Record AppStore := mkStore {
  series : list DicomSeries;
  selectedSeries : option DicomSeries;
  analyzedSeriesIds : gset string;
  modelSeriesIds : gset string;
  images : list DicomImage;
  selectedImageIndex : Z;
  analysisResult : option AnalysisResult;
  isAnalyzing : bool;
  analysisProgress : option AnalysisProgress;
  modelInfo : option ModelInfo;
  isGeneratingModel : bool;
  viewMode : ViewMode;
  isLoading : bool;
  uploadMessage : option string;
  error : option string
}.

Definition initial_store : AppStore :=
  {| series := []; selectedSeries := None;
     analyzedSeriesIds := ∅; modelSeriesIds := ∅;
     images := []; selectedImageIndex := 0;
     analysisResult := None; isAnalyzing := false; analysisProgress := None;
     modelInfo := None; isGeneratingModel := false;
     viewMode := vm_original; isLoading := false;
     uploadMessage := None; error := None |}.

(** zustand's [set({ field: v })], one setter per field. *)
Definition with_series v (s : AppStore) : AppStore :=
  mkStore v (selectedSeries s) (analyzedSeriesIds s) (modelSeriesIds s) (images s)
    (selectedImageIndex s) (analysisResult s) (isAnalyzing s) (analysisProgress s)
    (modelInfo s) (isGeneratingModel s) (viewMode s) (isLoading s) (uploadMessage s) (error s).
Definition with_selectedSeries v (s : AppStore) : AppStore :=
  mkStore (series s) v (analyzedSeriesIds s) (modelSeriesIds s) (images s)
    (selectedImageIndex s) (analysisResult s) (isAnalyzing s) (analysisProgress s)
    (modelInfo s) (isGeneratingModel s) (viewMode s) (isLoading s) (uploadMessage s) (error s).
Definition with_analyzedSeriesIds v (s : AppStore) : AppStore :=
  mkStore (series s) (selectedSeries s) v (modelSeriesIds s) (images s)
    (selectedImageIndex s) (analysisResult s) (isAnalyzing s) (analysisProgress s)
    (modelInfo s) (isGeneratingModel s) (viewMode s) (isLoading s) (uploadMessage s) (error s).
Definition with_modelSeriesIds v (s : AppStore) : AppStore :=
  mkStore (series s) (selectedSeries s) (analyzedSeriesIds s) v (images s)
    (selectedImageIndex s) (analysisResult s) (isAnalyzing s) (analysisProgress s)
    (modelInfo s) (isGeneratingModel s) (viewMode s) (isLoading s) (uploadMessage s) (error s).
Definition with_images v (s : AppStore) : AppStore :=
  mkStore (series s) (selectedSeries s) (analyzedSeriesIds s) (modelSeriesIds s) v
    (selectedImageIndex s) (analysisResult s) (isAnalyzing s) (analysisProgress s)
    (modelInfo s) (isGeneratingModel s) (viewMode s) (isLoading s) (uploadMessage s) (error s).
Definition with_selectedImageIndex v (s : AppStore) : AppStore :=
  mkStore (series s) (selectedSeries s) (analyzedSeriesIds s) (modelSeriesIds s) (images s)
    v (analysisResult s) (isAnalyzing s) (analysisProgress s)
    (modelInfo s) (isGeneratingModel s) (viewMode s) (isLoading s) (uploadMessage s) (error s).
Definition with_analysisResult v (s : AppStore) : AppStore :=
  mkStore (series s) (selectedSeries s) (analyzedSeriesIds s) (modelSeriesIds s) (images s)
    (selectedImageIndex s) v (isAnalyzing s) (analysisProgress s)
    (modelInfo s) (isGeneratingModel s) (viewMode s) (isLoading s) (uploadMessage s) (error s).
Definition with_isAnalyzing v (s : AppStore) : AppStore :=
  mkStore (series s) (selectedSeries s) (analyzedSeriesIds s) (modelSeriesIds s) (images s)
    (selectedImageIndex s) (analysisResult s) v (analysisProgress s)
    (modelInfo s) (isGeneratingModel s) (viewMode s) (isLoading s) (uploadMessage s) (error s).
Definition with_analysisProgress v (s : AppStore) : AppStore :=
  mkStore (series s) (selectedSeries s) (analyzedSeriesIds s) (modelSeriesIds s) (images s)
    (selectedImageIndex s) (analysisResult s) (isAnalyzing s) v
    (modelInfo s) (isGeneratingModel s) (viewMode s) (isLoading s) (uploadMessage s) (error s).
Definition with_modelInfo v (s : AppStore) : AppStore :=
  mkStore (series s) (selectedSeries s) (analyzedSeriesIds s) (modelSeriesIds s) (images s)
    (selectedImageIndex s) (analysisResult s) (isAnalyzing s) (analysisProgress s)
    v (isGeneratingModel s) (viewMode s) (isLoading s) (uploadMessage s) (error s).
Definition with_isGeneratingModel v (s : AppStore) : AppStore :=
  mkStore (series s) (selectedSeries s) (analyzedSeriesIds s) (modelSeriesIds s) (images s)
    (selectedImageIndex s) (analysisResult s) (isAnalyzing s) (analysisProgress s)
    (modelInfo s) v (viewMode s) (isLoading s) (uploadMessage s) (error s).
Definition with_viewMode v (s : AppStore) : AppStore :=
  mkStore (series s) (selectedSeries s) (analyzedSeriesIds s) (modelSeriesIds s) (images s)
    (selectedImageIndex s) (analysisResult s) (isAnalyzing s) (analysisProgress s)
    (modelInfo s) (isGeneratingModel s) v (isLoading s) (uploadMessage s) (error s).
Definition with_isLoading v (s : AppStore) : AppStore :=
  mkStore (series s) (selectedSeries s) (analyzedSeriesIds s) (modelSeriesIds s) (images s)
    (selectedImageIndex s) (analysisResult s) (isAnalyzing s) (analysisProgress s)
    (modelInfo s) (isGeneratingModel s) (viewMode s) v (uploadMessage s) (error s).
Definition with_uploadMessage v (s : AppStore) : AppStore :=
  mkStore (series s) (selectedSeries s) (analyzedSeriesIds s) (modelSeriesIds s) (images s)
    (selectedImageIndex s) (analysisResult s) (isAnalyzing s) (analysisProgress s)
    (modelInfo s) (isGeneratingModel s) (viewMode s) (isLoading s) v (error s).
Definition with_error v (s : AppStore) : AppStore :=
  mkStore (series s) (selectedSeries s) (analyzedSeriesIds s) (modelSeriesIds s) (images s)
    (selectedImageIndex s) (analysisResult s) (isAnalyzing s) (analysisProgress s)
    (modelInfo s) (isGeneratingModel s) (viewMode s) (isLoading s) (uploadMessage s) v.

(** [s ▷ f ▷ g] applies the updates left to right, as successive fields of
    one [set({...})] call or as successive [set] calls. *)
Notation "s ▷ f" := (f s) (at level 45, left associativity, only parsing).

(** ** [localStorage] *)

(** [None]: the storage is unavailable and every access throws. *)
Definition Storage := option (gmap string string).

Definition key_selectedSeriesUid : string := "vfat_selectedSeriesUid".
Definition key_viewMode : string := "vfat_viewMode".
Definition key_selectedImageIndex : string := "vfat_selectedImageIndex".

(** JS truthiness of a string: the empty string is falsy. *)
Definition str_truthy (s : string) : bool :=
  match s with EmptyString => false | _ => true end.

(** [saveViewState]: the whole body is inside [try], so an unavailable
    storage is left as it is. *)
Definition saveViewState (seriesUid : option string) (mode : ViewMode) (imageIndex : Z)
    (ls : Storage) : Storage :=
  match ls with
  | None => None
  | Some m =>
      let m1 := match seriesUid with
                | Some u => if str_truthy u then <[key_selectedSeriesUid := u]> m
                            else delete key_selectedSeriesUid m
                | None => delete key_selectedSeriesUid m
                end in
      let m2 := <[key_viewMode := mode]> m1 in
      Some (<[key_selectedImageIndex := pretty imageIndex]> m2)
  end.

(** *** [parseInt(s, 10)] *)

(** White space that [parseInt] skips, as far as it is ASCII. *)
Definition is_js_space (c : ascii) : bool :=
  let n := nat_of_ascii c in
  ((9 <=? n)%nat && (n <=? 13)%nat) || (n =? 32)%nat.

Definition digit_of (c : ascii) : option Z :=
  let n := Z.of_nat (nat_of_ascii c) in
  if (48 <=? n) && (n <=? 57) then Some (n - 48) else None.

Fixpoint skip_space (s : string) : string :=
  match s with
  | String c rest => if is_js_space c then skip_space rest else s
  | EmptyString => EmptyString
  end.

(** Reads the longest prefix of decimal digits; [acc] is [None] until a
    digit has been seen. *)
Fixpoint read_digits (acc : option Z) (s : string) : option Z :=
  match s with
  | String c rest =>
      match digit_of c with
      | Some d => read_digits (Some (10 * default 0 acc + d)) rest
      | None => acc
      end
  | EmptyString => acc
  end.

(** [None] is [NaN].  The integer is kept exact where JS rounds to a double;
    the only consumer clamps it to an array length. *)
Definition parseInt10 (s : string) : option Z :=
  match skip_space s with
  | String "-" rest => Z.opp <$> read_digits None rest
  | String "+" rest => read_digits None rest
  | t => read_digits None t
  end.

Record ViewState := mkViewState {
  vs_seriesUid : option string;
  vs_viewMode : ViewMode;
  vs_imageIndex : option Z
}.

(** [x || d] on a string that may be [null]. *)
Definition str_or (o : option string) (d : string) : string :=
  match o with
  | Some s => if str_truthy s then s else d
  | None => d
  end.

Definition loadViewState (ls : Storage) : ViewState :=
  match ls with
  | Some m =>
      {| vs_seriesUid := m !! key_selectedSeriesUid;
         vs_viewMode := str_or (m !! key_viewMode) "original";
         vs_imageIndex := parseInt10 (str_or (m !! key_selectedImageIndex) "0") |}
  | None =>
      {| vs_seriesUid := None; vs_viewMode := "original"; vs_imageIndex := Some 0 |}
  end.

(** [Math.max], [Math.min] and [>= 0] on numbers that may be [NaN]. *)
Definition js_max (a b : option Z) : option Z :=
  match a, b with Some x, Some y => Some (Z.max x y) | _, _ => None end.
Definition js_min (a b : option Z) : option Z :=
  match a, b with Some x, Some y => Some (Z.min x y) | _, _ => None end.
Definition js_ge0 (a : option Z) : bool :=
  match a with Some x => 0 <=? x | None => false end.

(** ** The world: the store together with the browser storage *)

Record World := mkWorld {
  store : AppStore;
  storage : Storage
}.

Definition on_store (f : AppStore -> AppStore) (w : World) : World :=
  mkWorld (f (store w)) (storage w).

(** ** [initialize] *)

(** The body of [GET /api/dicom/init]. [ir_series] is [None] when the field
    is not an array; the id lists are [None] when absent. *)
Record InitResult := mkInitResult {
  ir_series : option (list DicomSeries);
  ir_analyzed_series : option (list string);
  ir_model_series : option (list string)
}.

(** What the back end answers during [initialize]; [None] for a request
    that throws (for the two artifact requests also a [null] body). *)
Record InitEnv := mkInitEnv {
  env_init : option InitResult;
  env_images : string -> option (list DicomImage);
  env_analysis : string -> option AnalysisResult;
  env_model : string -> option ModelInfo
}.

(** [a === b] on strings. *)
Definition str_eqb (a b : string) : bool := bool_decide (a = b).

Definition restoredViewMode (saved : ViewMode)
    (analysisResult : option AnalysisResult) (modelInfo : option ModelInfo) : ViewMode :=
  let viewMode := saved in
  let viewMode :=
    if str_eqb viewMode "analyzed" && negb (bool_decide (is_Some analysisResult))
    then "original" else viewMode in
  let viewMode :=
    if str_eqb viewMode "3d" && negb (bool_decide (is_Some modelInfo))
    then (if bool_decide (is_Some analysisResult) then "analyzed" else "original")
    else viewMode in
  viewMode.

Definition restoredImageIndex (saved : option Z) (images : list DicomImage) : Z :=
  let imageIndex := js_min (js_max (Some 0) saved) (Some (Z.of_nat (length images) - 1)) in
  if js_ge0 imageIndex then default 0 imageIndex else 0.

Definition initialize (env : InitEnv) (w : World) : World :=
  let s0 := store w ▷ with_isLoading true ▷ with_error None in
  match env_init env with
  | None => mkWorld (s0 ▷ with_isLoading false) (storage w)
  | Some result =>
      let seriesData := default [] (ir_series result) in
      let analyzedIds : gset string := list_to_set (default [] (ir_analyzed_series result)) in
      let modelIds : gset string := list_to_set (default [] (ir_model_series result)) in
      let s1 := s0 ▷ with_series seriesData ▷ with_analyzedSeriesIds analyzedIds
                   ▷ with_modelSeriesIds modelIds ▷ with_isLoading false in
      let savedState := loadViewState (storage w) in
      match vs_seriesUid savedState with
      | Some uid =>
          if str_truthy uid && (0 <? Z.of_nat (length seriesData)) then
            match List.find (fun s => str_eqb (series_uid s) uid) seriesData with
            | Some savedSeries =>
                let s2 := s1 ▷ with_isLoading true ▷ with_selectedSeries (Some savedSeries) in
                match env_images env (series_uid savedSeries) with
                | None => mkWorld (s2 ▷ with_isLoading false) (storage w)
                | Some images =>
                    let analysisResult := env_analysis env (series_uid savedSeries) in
                    let modelInfo := env_model env (series_uid savedSeries) in
                    let viewMode :=
                      restoredViewMode (vs_viewMode savedState) analysisResult modelInfo in
                    let imageIndex := restoredImageIndex (vs_imageIndex savedState) images in
                    mkWorld (s2 ▷ with_images images ▷ with_selectedImageIndex imageIndex
                                ▷ with_analysisResult analysisResult ▷ with_modelInfo modelInfo
                                ▷ with_viewMode viewMode ▷ with_isLoading false)
                            (storage w)
                end
            | None => mkWorld s1 (storage w)
            end
          else mkWorld s1 (storage w)
      | None => mkWorld s1 (storage w)
      end
  end.

(** ** Plain store actions *)

Definition selected_uid (s : AppStore) : option string :=
  series_uid <$> selectedSeries s.

(** [selectedSeries?.series_uid || null] keeps a non-empty uid only;
    [saveViewState] treats the empty uid and [null] alike. *)
Definition setViewMode (mode : ViewMode) (w : World) : World :=
  let s := store w in
  mkWorld (s ▷ with_viewMode mode)
          (saveViewState (selected_uid s) mode (selectedImageIndex s) (storage w)).

Definition setSelectedImageIndex (i : Z) (w : World) : World :=
  let s := store w in
  mkWorld (s ▷ with_selectedImageIndex i)
          (saveViewState (selected_uid s) (viewMode s) i (storage w)).

(** The outcome of an awaited request whose body is not read.  [ApiFail m]:
    the request threw; [m] is the message when the thrown value is an
    [Error]. *)
Inductive ApiResult := ApiOk | ApiFail (msg : option string).

(** ** [selectSeries] *)

Record SelectEnv := mkSelectEnv {
  sel_images : option (list DicomImage);
  sel_images_error : option string;
  sel_analysis : option AnalysisResult;
  sel_model : option ModelInfo
}.

Definition selectSeries (env : SelectEnv) (sel : DicomSeries) (w : World) : World :=
  let s0 := store w ▷ with_isLoading true ▷ with_error None
                    ▷ with_selectedSeries (Some sel) in
  match sel_images env with
  | None =>
      mkWorld (s0 ▷ with_error (Some (default "Failed to load series" (sel_images_error env)))
                  ▷ with_isLoading false) (storage w)
  | Some imgs =>
      let analysisResult := sel_analysis env in
      let modelInfo := sel_model env in
      let newAnalyzedIds :=
        if bool_decide (is_Some analysisResult)
        then analyzedSeriesIds s0 ∪ {[series_uid sel]} else analyzedSeriesIds s0 in
      let newModelIds :=
        if bool_decide (is_Some modelInfo)
        then modelSeriesIds s0 ∪ {[series_uid sel]} else modelSeriesIds s0 in
      let viewMode : ViewMode :=
        if bool_decide (is_Some analysisResult) then "analyzed" else "original" in
      mkWorld (s0 ▷ with_images imgs ▷ with_selectedImageIndex 0
                  ▷ with_analysisResult analysisResult ▷ with_modelInfo modelInfo
                  ▷ with_viewMode viewMode ▷ with_analyzedSeriesIds newAnalyzedIds
                  ▷ with_modelSeriesIds newModelIds ▷ with_isLoading false)
              (saveViewState (Some (series_uid sel)) viewMode 0 (storage w))
  end.

(** ** [analyzeSeries] *)

(** The synchronous prefix of [analyzeSeries]; the second component is the
    series captured by the progress callback, [None] after the early return. *)
Definition analyzeSeries_begin (w : World) : World * option DicomSeries :=
  let s := store w in
  match selectedSeries s with
  | None => (w, None)
  | Some sel =>
      let newModelIds := modelSeriesIds s ∖ {[series_uid sel]} in
      (mkWorld (s ▷ with_isAnalyzing true ▷ with_error None ▷ with_analysisProgress None
                  ▷ with_modelInfo None ▷ with_modelSeriesIds newModelIds)
               (storage w),
       Some sel)
  end.

(** The callback handed to [api.analyzeSeriesWithProgress].  The boolean is
    [true] when the callback ran one of the two branches that clear
    [isAnalyzing] and call [resolve]. *)
Definition analyze_onProgress (sel : DicomSeries) (p : AnalysisProgress) (w : World)
    : World * bool :=
  let s := store w ▷ with_analysisProgress (Some p) in
  match ptype p, data p with
  | PComplete, Some d =>
      let newAnalyzedIds := analyzedSeriesIds s ∪ {[series_uid sel]} in
      (mkWorld (s ▷ with_analysisResult (Some d) ▷ with_isAnalyzing false
                  ▷ with_analysisProgress None ▷ with_analyzedSeriesIds newAnalyzedIds
                  ▷ with_viewMode "analyzed")
               (saveViewState (Some (series_uid sel)) "analyzed" (selectedImageIndex s)
                              (storage w)),
       true)
  | PError, _ =>
      (mkWorld (s ▷ with_error (Some (message p)) ▷ with_isAnalyzing false
                  ▷ with_analysisProgress None)
               (storage w),
       true)
  | _, _ => (mkWorld s (storage w), false)
  end.

(** The callback applied to every event the stream reader delivers, in
    order; the number counts the clearing branches that ran. *)
Fixpoint analyze_events (sel : DicomSeries) (evs : list AnalysisProgress) (w : World)
    : World * nat :=
  match evs with
  | [] => (w, 0%nat)
  | p :: rest =>
      let '(w1, fired) := analyze_onProgress sel p w in
      let '(w2, n) := analyze_events sel rest w1 in
      (w2, ((if fired then 1 else 0) + n)%nat)
  end.

Definition analyzeSeries (evs : list AnalysisProgress) (w : World) : World * nat :=
  match analyzeSeries_begin w with
  | (w0, Some sel) => analyze_events sel evs w0
  | (w0, None) => (w0, 0%nat)
  end.

(** An event on which the callback concludes. *)
Definition is_terminal (p : AnalysisProgress) : bool :=
  match ptype p, data p with
  | PComplete, Some _ => true
  | PError, _ => true
  | _, _ => false
  end.

(** ** Model generation: the status endpoint and the two polling loops *)

Record ModelStatus := mkModelStatus {
  status : string;
  ms_progress : Z;
  ms_message : string;
  ms_data : option ModelInfo;
  ms_error : option string
}.

(** One answer of [getModelGenerationStatus]: a body, or a thrown error. *)
Inductive PollResp := PollOk (st : ModelStatus) | PollThrow (msg : string).

(** What a poll leaves behind: a timer for the next poll, or nothing. *)
Inductive PollOutcome := PollScheduled | PollStopped.

(** One run of the store's [pollStatus] closure. *)
Definition pollStatus_once (r : PollResp) (w : World) : World * PollOutcome :=
  let s := store w in
  match selectedSeries s with
  | None => (w, PollStopped)
  | Some currentSeries =>
      if negb (isGeneratingModel s) then (w, PollStopped) else
      match r with
      | PollThrow _ => (w, PollScheduled)
      | PollOk st =>
          match str_eqb (status st) "complete", ms_data st with
          | true, Some d =>
              let newModelIds := modelSeriesIds s ∪ {[series_uid currentSeries]} in
              (mkWorld (s ▷ with_modelInfo (Some d) ▷ with_isGeneratingModel false
                          ▷ with_modelSeriesIds newModelIds ▷ with_viewMode "3d")
                       (saveViewState (Some (series_uid currentSeries)) "3d"
                                      (selectedImageIndex s) (storage w)),
               PollStopped)
          | _, _ =>
              if str_eqb (status st) "error" then
                (mkWorld (s ▷ with_error
                               (Some (if str_truthy (ms_message st) then ms_message st
                                      else "Model generation failed"))
                            ▷ with_isGeneratingModel false)
                         (storage w),
                 PollStopped)
              else if str_eqb (status st) "generating" then (w, PollScheduled)
              else (w, PollStopped)
          end
      end
  end.

(** The timer chain: each scheduled poll consumes the next answer.  When the
    answers run out a poll is still scheduled. *)
Fixpoint pollStatus (rs : list PollResp) (w : World) : World * PollOutcome :=
  match rs with
  | [] => (w, PollScheduled)
  | r :: rest =>
      match pollStatus_once r w with
      | (w', PollScheduled) => pollStatus rest w'
      | (w', PollStopped) => (w', PollStopped)
      end
  end.

(** The store action [generateModel]. *)
Definition generateModel (start : ApiResult) (rs : list PollResp) (w : World)
    : World * PollOutcome :=
  let s := store w in
  match selectedSeries s with
  | None => (w, PollStopped)
  | Some _ =>
      let s1 := s ▷ with_isGeneratingModel true ▷ with_error None in
      match start with
      | ApiOk => pollStatus rs (mkWorld s1 (storage w))
      | ApiFail m =>
          (mkWorld (s1 ▷ with_error (Some (default "Failed to start model generation" m))
                       ▷ with_isGeneratingModel false)
                   (storage w),
           PollStopped)
      end
  end.

(** [ApiService.generateModel], the legacy blocking loop of [services/api.ts]. *)
Inductive LegacyResult :=
  | LReturned (m : ModelInfo)
  | LThrown (msg : string)
  | LPolling.

Fixpoint api_generateModel_loop (rs : list PollResp) : LegacyResult :=
  match rs with
  | [] => LPolling
  | PollThrow msg :: _ => LThrown msg
  | PollOk st :: rest =>
      match str_eqb (status st) "complete", ms_data st with
      | true, Some d => LReturned d
      | _, _ =>
          if str_eqb (status st) "error"
          then LThrown (if str_truthy (ms_message st) then ms_message st
                        else "Model generation failed")
          else api_generateModel_loop rest
      end
  end.

Definition api_generateModel (start : ApiResult) (rs : list PollResp) : LegacyResult :=
  match start with
  | ApiOk => api_generateModel_loop rs
  | ApiFail m => LThrown (default "" m)
  end.

(** ** The clear actions *)

Definition clearAnalysisAndModels (r : ApiResult) (w : World) : World :=
  let s0 := store w ▷ with_isLoading true ▷ with_error None in
  match r with
  | ApiOk =>
      mkWorld (s0 ▷ with_analysisResult None ▷ with_modelInfo None
                  ▷ with_analyzedSeriesIds ∅ ▷ with_modelSeriesIds ∅
                  ▷ with_viewMode "original" ▷ with_isLoading false
                  ▷ with_uploadMessage (Some "Analysis and models cleared!"))
              (storage w)
  | ApiFail m =>
      mkWorld (s0 ▷ with_error (Some (default "Failed to clear data" m))
                  ▷ with_isLoading false)
              (storage w)
  end.

Definition clearSeriesResults (r : ApiResult) (w : World) : World :=
  let s := store w in
  match selectedSeries s with
  | None => w
  | Some sel =>
      let s0 := s ▷ with_isLoading true ▷ with_error None in
      match r with
      | ApiOk =>
          let newAnalyzedIds := analyzedSeriesIds s ∖ {[series_uid sel]} in
          let newModelIds := modelSeriesIds s ∖ {[series_uid sel]} in
          mkWorld (s0 ▷ with_analysisResult None ▷ with_modelInfo None
                      ▷ with_analyzedSeriesIds newAnalyzedIds
                      ▷ with_modelSeriesIds newModelIds
                      ▷ with_viewMode "original" ▷ with_isLoading false
                      ▷ with_uploadMessage (Some "Series data cleared!"))
                  (saveViewState (Some (series_uid sel)) "original"
                                 (selectedImageIndex s) (storage w))
      | ApiFail m =>
          mkWorld (s0 ▷ with_error (Some (default "Failed to clear series data" m))
                      ▷ with_isLoading false)
                  (storage w)
      end
  end.

(** The timer both clear actions start: [setTimeout(() => set({ uploadMessage:
    null }), 3000)]. *)
Definition expireUploadMessage (w : World) : World :=
  on_store (with_uploadMessage None) w.

(** The part of the client state that tracks artifacts. *)
Definition artifact_state (s : AppStore)
    : option AnalysisResult * option ModelInfo * gset string * gset string :=
  (analysisResult s, modelInfo s, analyzedSeriesIds s, modelSeriesIds s).

(** ** [ViewModeToggle] and [ActionButtons] *)

(** The store action a click handler invokes. *)
Inductive Dispatch :=
  | CallSetViewMode (m : ViewMode)
  | CallAnalyzeSeries
  | CallGenerateModel
  | CallClearSeriesResults
  | NoCall.

Record ButtonState := mkButtonState {
  label : string;
  isAction : bool;
  disabled : bool
}.

Definition handleAnalyzedClick (s : AppStore) : Dispatch :=
  if bool_decide (is_Some (analysisResult s)) then CallSetViewMode "analyzed"
  else if bool_decide (is_Some (selectedSeries s)) && negb (isAnalyzing s)
       then CallAnalyzeSeries
       else NoCall.

Definition handle3DClick (s : AppStore) : Dispatch :=
  if bool_decide (is_Some (modelInfo s)) then CallSetViewMode "3d"
  else if bool_decide (is_Some (analysisResult s)) && negb (isGeneratingModel s)
       then CallGenerateModel
       else NoCall.

Definition getAnalyzedButtonState (s : AppStore) : ButtonState :=
  if isAnalyzing s then
    {| label := match analysisProgress s with
                | Some p => pretty (progress p) +:+ "%"
                | None => "Analyzing..."
                end;
       isAction := true; disabled := true |}
  else if negb (bool_decide (is_Some (analysisResult s))) then
    {| label := "Analyze"; isAction := true;
       disabled := negb (bool_decide (is_Some (selectedSeries s))) |}
  else {| label := "Analyzed"; isAction := false; disabled := false |}.

Definition get3DButtonState (s : AppStore) : ButtonState :=
  if isGeneratingModel s then
    {| label := "Generating..."; isAction := true; disabled := true |}
  else if negb (bool_decide (is_Some (modelInfo s))) then
    {| label := "Generate 3D"; isAction := true;
       disabled := negb (bool_decide (is_Some (analysisResult s))) |}
  else {| label := "3D Model"; isAction := false; disabled := false |}.

(** A click on a [<button disabled={d} onClick={h}>]: a disabled button
    does not run its handler. *)
Definition click (b_disabled : bool) (h : Dispatch) : Dispatch :=
  if b_disabled then NoCall else h.

Definition click3D (s : AppStore) : Dispatch :=
  click (disabled (get3DButtonState s)) (handle3DClick s).

(** What [ActionButtons] renders: [None] when the component returns [null]. *)
Record ActionButtonsView := mkActionButtons {
  showReanalyze : bool;
  showRegenerate : bool;
  showClear : bool;
  reanalyze_disabled : bool;
  regenerate_disabled : bool;
  clear_disabled : bool
}.

(** The component on a store typed as declared: [analysisResult] and
    [modelInfo] hold an object or [null], so that [!== null] is [is_Some]. *)
Definition ActionButtons (s : AppStore) : option ActionButtonsView :=
  match selectedSeries s with
  | None => None
  | Some _ =>
      let showReanalyze := bool_decide (is_Some (analysisResult s)) in
      let showRegenerate := bool_decide (is_Some (modelInfo s)) in
      let showClear := bool_decide (is_Some (analysisResult s))
                       || bool_decide (is_Some (modelInfo s)) in
      if negb showReanalyze && negb showRegenerate && negb showClear then None
      else Some {| showReanalyze := showReanalyze;
                   showRegenerate := showRegenerate;
                   showClear := showClear;
                   reanalyze_disabled := isAnalyzing s;
                   regenerate_disabled := isGeneratingModel s;
                   clear_disabled := isAnalyzing s || isGeneratingModel s || isLoading s |}
  end.

(** A click on the place of the "Regenerate 3D" button. *)
Definition clickRegenerate (s : AppStore) : Dispatch :=
  match ActionButtons s with
  | Some v => if showRegenerate v then click (regenerate_disabled v) CallGenerateModel
              else NoCall
  | None => NoCall
  end.

(** ** The progress-stream reader ([analyzeSeriesWithProgress]) *)

(** The text is modelled after decoding.  The separator and the [data: ]
    marker are ASCII, so cutting at them is the same on bytes and on UTF-16
    units. *)
Definition is_nl (c : ascii) : bool := (nat_of_ascii c =? 10)%nat.

Definition push_front (c : ascii) (l : list string) : list string :=
  match l with
  | h :: t => String c h :: t
  | [] => [String c EmptyString]
  end.

(** [s.split('\n\n')]: cut at the non-overlapping occurrences of two line
    feeds, found left to right.  The result is never empty. *)
Fixpoint split_nn (s : string) : list string :=
  match s with
  | EmptyString => [EmptyString]
  | String c tl =>
      match tl with
      | String c2 rest =>
          if is_nl c && is_nl c2 then EmptyString :: split_nn rest
          else push_front c (split_nn tl)
      | EmptyString => [String c EmptyString]
      end
  end.

(** [line.slice(n)] for [0 <= n]. *)
Fixpoint slice_from (n : nat) (s : string) : string :=
  match n, s with
  | O, _ => s
  | S n', String _ rest => slice_from n' rest
  | S _, EmptyString => EmptyString
  end.

Section StreamReader.

(** [JSON.parse] followed by the cast to [AnalysisProgress]; [None] when
    it throws. *)
Variable JSON_parse : string -> option AnalysisProgress.

(** The body of the [for] loop: the callbacks one piece gives rise to. *)
Definition handle_line (line : string) : option AnalysisProgress :=
  if String.prefix "data: " line then JSON_parse (slice_from 6 line) else None.

(** The [while (true)] loop over the chunks [reader.read()] yields, from
    the current [buffer] until [done]; the result is the sequence of
    [onProgress] calls. *)
Fixpoint read_loop (buffer : string) (chunks : list string) : list AnalysisProgress :=
  match chunks with
  | [] => []
  | value :: rest =>
      let buffer := buffer +:+ value in
      let lines := split_nn buffer in
      let buffer := List.last lines EmptyString in
      let lines := removelast lines in
      omap handle_line lines ++ read_loop buffer rest
  end.

(** How the response ends: the reader reports [done], or a read rejects
    with an error of the given name and message. *)
Inductive StreamEnd := EndDone | EndThrows (name msg : string).

Definition error_event (msg : string) : AnalysisProgress :=
  {| ptype := PError; message := msg; progress := 0;
     total_images := None; current_image := None; step := None; data := None |}.

Definition fetchStream (chunks : list string) (e : StreamEnd) : list AnalysisProgress :=
  read_loop EmptyString chunks ++
  match e with
  | EndDone => []
  | EndThrows name msg =>
      if str_eqb name "AbortError" then [] else [error_event msg]
  end.

(** The complete frames of a text: every piece of [split('\n\n')] but the
    last, which is not yet terminated. *)
Definition complete_frames (text : string) : list string :=
  removelast (split_nn text).

End StreamReader.

Definition concat_chunks (chunks : list string) : string :=
  fold_right String.append EmptyString chunks.

(** ** The opacity effect of [Model] ([ThreeDViewer.tsx]) *)

Record StandardMaterial := mkMaterial {
  mat_color : Z;
  mat_opacity : Q;
  mat_transparent : bool;
  mat_depthWrite : bool
}.

(** A mesh keeps the material it was loaded with until the effect replaces
    it. *)
Inductive Material := GlbMaterial | Replaced (m : StandardMaterial).

Record Mesh := mkMesh {
  mesh_name : string;
  mesh_visible : bool;
  mesh_material : Material
}.

Definition tissueOrder : list string := ["body"; "visceral_fat"; "organs"].

Definition tissueColors : gmap string Z :=
  {[ "body" := 0xC8C8C8; "visceral_fat" := 0xFFA500;
     "subcutaneous_fat" := 0xFFFF00; "organs" := 0x0080FF ]}.

Definition Qgtb (a b : Q) : bool := negb (Qle_bool a b).
Definition Qgeb (a b : Q) : bool := Qle_bool b a.

(** The tissue key the effect gives the mesh found at [index]. *)
Definition tissueKey_at (index : nat) : option string := tissueOrder !! index.

(** The body of [meshes.forEach((mesh, index) => ...)]. *)
Definition restyle (tissueOpacity : gmap string Q) (index : nat) (mesh : Mesh) : Mesh :=
  match tissueKey_at index with
  | None => mesh
  | Some tissueKey =>
      match tissueOpacity !! tissueKey with
      | None => mesh
      | Some opacity =>
          {| mesh_name := mesh_name mesh;
             mesh_visible := Qgtb opacity 0;
             mesh_material :=
               Replaced {| mat_color := default 0 (tissueColors !! tissueKey);
                           mat_opacity := opacity;
                           mat_transparent := true;
                           mat_depthWrite := Qgeb opacity (99 # 100) |} |}
      end
  end.

Definition Model_applyOpacity (tissueOpacity : gmap string Q) (meshes : list Mesh)
    : list Mesh :=
  imap (restyle tissueOpacity) meshes.

(** The tissue a mesh is shown as: the color of its replaced material. *)
Definition shown_color (m : Mesh) : option Z :=
  match mesh_material m with
  | Replaced sm => Some (mat_color sm)
  | GlbMaterial => None
  end.

Definition DEFAULT_OPACITY : gmap string Q :=
  {[ "body" := 35 # 100; "visceral_fat" := 1%Q;
     "subcutaneous_fat" := 1%Q; "organs" := 1%Q ]}.

(** ** Statistics aggregation *)

Module StatsAggregator.

Open Scope Q_scope.

(** Spacing of the volume, in millimetres. *)
Record Spacing := mkSpacing {
  pixel_spacing_x : Q;
  pixel_spacing_y : Q;
  slice_thickness : Q
}.

(** The fat voxels counted on one slice. *)
Record SliceMask := mkSliceMask {
  visceral_count : Z;
  subcutaneous_count : Z
}.

(** Modelled from the spec: the per-slice area of the back end's
    statistics aggregator (the Python service is not part of the sources):
    voxel count times the in-plane spacing, from square millimetres to
    square centimetres. *)
Definition area_cm2 (sp : Spacing) (count : Z) : Q :=
  inject_Z count * pixel_spacing_x sp * pixel_spacing_y sp / 100.

(** Modelled from the spec: the per-slice volume contribution of the back
    end's statistics aggregator, area times the slice thickness in
    centimetres. *)
Definition volume_cm3 (sp : Spacing) (count : Z) : Q :=
  area_cm2 sp count * (slice_thickness sp / 10).

(** Modelled from the spec: aggregate volumes of the back end's statistics
    aggregator are sums over the slices. *)
Definition total_volume (sp : Spacing) (counts : list Z) : Q :=
  fold_right (fun c acc => volume_cm3 sp c + acc) 0 counts.

(** Modelled from the spec: the fat-distribution percentage of the back
    end's statistics aggregator, with its guard on a zero denominator. *)
Definition fat_percentage (visceral subcutaneous : Q) : Q :=
  if Qeq_bool (visceral + subcutaneous) 0 then 0
  else visceral / (visceral + subcutaneous) * 100.

(** Modelled from the spec: the per-slice record the back end's
    aggregator reports. *)
Definition slice_stat (sp : Spacing) (i : nat) (m : SliceMask) : SliceStats :=
  {| ss_index := Z.of_nat i;
     visceral_fat_pixels := visceral_count m;
     subcutaneous_fat_pixels := subcutaneous_count m;
     visceral_fat_area_cm2 := area_cm2 sp (visceral_count m) |}.

(** Modelled from the spec: the [tissue_stats] the back end's aggregator
    puts into an AnalysisResult. *)
Definition aggregate (sp : Spacing) (slices : list SliceMask) : TissueStats :=
  let v := total_volume sp (map visceral_count slices) in
  let s := total_volume sp (map subcutaneous_count slices) in
  {| total_visceral_fat_volume := v;
     total_subcutaneous_fat_volume := s;
     visceral_fat_percentage := fat_percentage v s;
     slice_stats := imap (slice_stat sp) slices |}.

(** The synthetic volume of the worked example: three slices, spacing
    (1mm, 1mm, 2mm), a 10x10 region of visceral fat on each. *)
Definition example_spacing : Spacing := mkSpacing 1 1 2.
Definition example_slices : list SliceMask :=
  [mkSliceMask 100 0; mkSliceMask 100 0; mkSliceMask 100 0].

End StatsAggregator.

(** *** Frames of the event stream *)

Definition blank_line : string := String "010" (String "010" EmptyString).


(** A text in which no frame has been terminated yet. *)
Fixpoint no_sep (s : string) : bool :=
  match s with
  | EmptyString => true
  | String c tl =>
      match tl with
      | EmptyString => true
      | String c2 _ => negb (is_nl c && is_nl c2) && no_sep tl
      end
  end.


(** ** Predicates and sample data used in the statements *)

(** Nothing is cached for the selected series: no result, no model, and the
    series is in neither tracking set. *)
Definition no_cached_artifacts (s : AppStore) : Prop :=
  analysisResult s = None /\ modelInfo s = None /\
  forall sel, selectedSeries s = Some sel ->
    (series_uid sel ∉ analyzedSeriesIds s) /\ (series_uid sel ∉ modelSeriesIds s).

(** Fields a run of non-terminal events leaves alone. *)
Definition same_but_progress (w w' : World) : Prop :=
  storage w' = storage w /\
  with_analysisProgress None (store w') = with_analysisProgress None (store w).

(** Sample data for the concrete evaluations. *)
Definition sample_series : DicomSeries :=
  mkSeries "S1" "abdomen" "CT" 3 None None None None None None.
Definition sample_stats : TissueStats := mkTissueStats (6 # 10) 0 100 [].
Definition sample_result : AnalysisResult := mkAnalysisResult "S1" 3 [] sample_stats.
Definition sample_model : ModelInfo := mkModelInfo "S1" [] 3 [] [] None None.
Definition sample_images : list DicomImage :=
  [mkImage 0 1 None; mkImage 1 2 None; mkImage 2 3 None].

Definition ev_complete (d : AnalysisResult) : AnalysisProgress :=
  mkProgress PComplete "done" 100 (Some 3) (Some 3) None (Some d).
Definition ev_progress (i : Z) : AnalysisProgress :=
  mkProgress PProgress "slice" (i * 33) (Some 3) (Some i) None None.

(** A store in which [sample_series] is selected and nothing else has
    happened. *)
Definition selected_store : AppStore :=
  initial_store ▷ with_selectedSeries (Some sample_series).

(** A store with a selected series, a cached result and a cached model. *)
Definition analyzed_store : AppStore :=
  selected_store ▷ with_analysisResult (Some sample_result)
                 ▷ with_modelInfo (Some sample_model)
                 ▷ with_analyzedSeriesIds {[ "S1" ]} ▷ with_modelSeriesIds {[ "S1" ]}
                 ▷ with_images sample_images ▷ with_series [sample_series].

(** The state [selectSeries] leaves when the back end has a model for the
    series but no analysis result. *)
Definition model_only_env : SelectEnv :=
  mkSelectEnv (Some sample_images) None None (Some sample_model).
Definition model_only_store : AppStore :=
  store (selectSeries model_only_env sample_series (mkWorld initial_store None)).

Definition st_queued : ModelStatus := mkModelStatus "queued" 0 "Queued" None None.
Definition st_generating : ModelStatus := mkModelStatus "generating" 40 "Meshing" None None.
Definition st_complete (d : ModelInfo) : ModelStatus :=
  mkModelStatus "complete" 100 "Done" (Some d) None.

(** For every mesh, the tissue shown is a function of the mesh's own name. *)
Definition identity_from_metadata : Prop :=
  exists f : string -> option Z,
    forall (tissueOpacity : gmap string Q) (meshes : list Mesh) (i : nat) (m m' : Mesh),
      meshes !! i = Some m ->
      Model_applyOpacity tissueOpacity meshes !! i = Some m' ->
      shown_color m' = f (mesh_name m).

Definition mesh_organs : Mesh := mkMesh "organs" true GlbMaterial.
Definition mesh_body : Mesh := mkMesh "body" true GlbMaterial.

(** A parser that reads the payload [done] as the complete event. *)
Definition complete_parse (s : string) : option AnalysisProgress :=
  if str_eqb s "done" then Some (ev_complete sample_result) else None.

(** A parser that accepts the one payload [ok]. *)
Definition sample_parse (s : string) : option AnalysisProgress :=
  if str_eqb s "ok" then Some (ev_progress 1) else None.


(** The text of these four frames and an unterminated rest, cut in the
    middle of a marker, of a separator and of a payload. *)
Definition sample_chunks : list string :=
  ["da"; "ta: ok" +:+ String "010" EmptyString;
   String "010" "data: {bad" +:+ blank_line +:+ "event: x" +:+ blank_line +:+ "data: o";
   "k" +:+ blank_line +:+ "data: o"].

(** What the back end and the storage hold in the concrete runs: the
    series [S1] with three images and an analysis result but no model; the
    saved view is the 3D one at slice 7. *)
Definition sample_env : InitEnv :=
  mkInitEnv (Some (mkInitResult (Some [sample_series]) (Some ["S1"]) None))
            (fun _ => Some sample_images)
            (fun _ => Some sample_result)
            (fun _ => None).

Definition sample_storage : Storage :=
  Some (<[key_selectedSeriesUid := "S1"]>
          (<[key_viewMode := "3d"]> (<[key_selectedImageIndex := "7"]> ∅))).

(** A storage whose saved view mode is none of the three modes, as a user
    or another page of the same origin can leave it. *)
Definition bogus_storage : Storage :=
  Some (<[key_selectedSeriesUid := "S1"]>
          (<[key_viewMode := "bogus"]> (<[key_selectedImageIndex := "1"]> ∅))).

(** * Further code of the front end and of the desktop shell *)

(** ** The remaining store actions *)

Definition setError (e : option string) (w : World) : World :=
  on_store (with_error e) w.

(** The outcome of an awaited request whose body is read: the body, or the
    thrown value's message when it is an [Error]. *)
Inductive Fetched (A : Type) : Type :=
  | Got (a : A)
  | Threw (msg : option string).
Arguments Got {A} a.
Arguments Threw {A} msg.

(** The body of the two loading requests. *)
Record LoadResult := mkLoadResult {
  series_loaded : Z;
  lr_data : list DicomSeries
}.

Definition loadDirectory (r : Fetched LoadResult) (w : World) : World :=
  let s0 := store w ▷ with_isLoading true ▷ with_error None in
  match r with
  | Got result => mkWorld (s0 ▷ with_series (lr_data result) ▷ with_isLoading false) (storage w)
  | Threw m =>
      mkWorld (s0 ▷ with_error (Some (default "Failed to load directory" m))
                  ▷ with_isLoading false) (storage w)
  end.

Definition uploadZipFile (r : Fetched LoadResult) (w : World) : World :=
  let ls := saveViewState None "original" 0 (storage w) in
  let s0 := store w ▷ with_isLoading true ▷ with_error None
                    ▷ with_uploadMessage (Some "Uploading file...")
                    ▷ with_series [] ▷ with_selectedSeries None
                    ▷ with_images [] ▷ with_selectedImageIndex 0
                    ▷ with_analysisResult None ▷ with_analysisProgress None
                    ▷ with_modelInfo None ▷ with_viewMode "original"
                    ▷ with_analyzedSeriesIds ∅ ▷ with_modelSeriesIds ∅ in
  let s1 := s0 ▷ with_uploadMessage (Some "Processing DICOM files...") in
  match r with
  | Got result =>
      mkWorld (s1 ▷ with_series (lr_data result) ▷ with_isLoading false
                  ▷ with_uploadMessage
                      (Some ("Loaded " +:+ pretty (series_loaded result)
                             +:+ " series successfully!")))
              ls
  | Threw m =>
      mkWorld (s1 ▷ with_error (Some (default "Failed to upload zip file" m))
                  ▷ with_isLoading false ▷ with_uploadMessage None)
              ls
  end.

(** [uploadZipFile] in its two synchronous parts: what runs before the
    upload request is awaited, and what runs when it has been answered.
    Callbacks of earlier jobs can run in between. *)
Definition uploadZipFile_begin (w : World) : World :=
  let ls := saveViewState None "original" 0 (storage w) in
  let s0 := store w ▷ with_isLoading true ▷ with_error None
                    ▷ with_uploadMessage (Some "Uploading file...")
                    ▷ with_series [] ▷ with_selectedSeries None
                    ▷ with_images [] ▷ with_selectedImageIndex 0
                    ▷ with_analysisResult None ▷ with_analysisProgress None
                    ▷ with_modelInfo None ▷ with_viewMode "original"
                    ▷ with_analyzedSeriesIds ∅ ▷ with_modelSeriesIds ∅ in
  mkWorld (s0 ▷ with_uploadMessage (Some "Processing DICOM files...")) ls.

Definition uploadZipFile_end (r : Fetched LoadResult) (w : World) : World :=
  match r with
  | Got result =>
      mkWorld (store w ▷ with_series (lr_data result) ▷ with_isLoading false
                  ▷ with_uploadMessage
                      (Some ("Loaded " +:+ pretty (series_loaded result)
                             +:+ " series successfully!")))
              (storage w)
  | Threw m =>
      mkWorld (store w ▷ with_error (Some (default "Failed to upload zip file" m))
                  ▷ with_isLoading false ▷ with_uploadMessage None)
              (storage w)
  end.

Definition refreshSeries (r : Fetched (list DicomSeries)) (w : World) : World :=
  let s0 := store w ▷ with_isLoading true ▷ with_error None in
  match r with
  | Got l => mkWorld (s0 ▷ with_series l ▷ with_isLoading false) (storage w)
  | Threw m =>
      mkWorld (s0 ▷ with_error (Some (default "Failed to refresh series" m))
                  ▷ with_isLoading false) (storage w)
  end.

(** ** The saved view state *)

(** The series uid [saveViewState] leaves in the storage: none for [null]
    and for the empty uid. *)
Definition saved_uid (u : option string) : option string :=
  match u with
  | Some s => if str_truthy s then Some s else None
  | None => None
  end.

(** ** Runs of store actions *)

(** One call of a store action, with what the back end answered to it. *)
Inductive Action :=
  | ASetViewMode (m : ViewMode)
  | ASetSelectedImageIndex (i : Z)
  | ASetError (e : option string)
  | AInitialize (env : InitEnv)
  | ALoadDirectory (r : Fetched LoadResult)
  | AUploadZipFile (r : Fetched LoadResult)
  | ARefreshSeries (r : Fetched (list DicomSeries))
  | ASelectSeries (env : SelectEnv) (sel : DicomSeries)
  | AAnalyzeSeries (evs : list AnalysisProgress)
  | AGenerateModel (start : ApiResult) (rs : list PollResp)
  | AClearAnalysisAndModels (r : ApiResult)
  | AClearSeriesResults (r : ApiResult)
  | AExpireUploadMessage.

Definition perform (a : Action) (w : World) : World :=
  match a with
  | ASetViewMode m => setViewMode m w
  | ASetSelectedImageIndex i => setSelectedImageIndex i w
  | ASetError e => setError e w
  | AInitialize env => initialize env w
  | ALoadDirectory r => loadDirectory r w
  | AUploadZipFile r => uploadZipFile r w
  | ARefreshSeries r => refreshSeries r w
  | ASelectSeries env sel => selectSeries env sel w
  | AAnalyzeSeries evs => fst (analyzeSeries evs w)
  | AGenerateModel start rs => fst (generateModel start rs w)
  | AClearAnalysisAndModels r => clearAnalysisAndModels r w
  | AClearSeriesResults r => clearSeriesResults r w
  | AExpireUploadMessage => expireUploadMessage w
  end.

(** The three values of the type [ViewMode]. *)
Definition valid_mode (m : ViewMode) : Prop :=
  m = "original" \/ m = "analyzed" \/ m = "3d".

(** The arguments the components pass: [setViewMode] gets one of the three
    modes, [setSelectedImageIndex] a position of a range input whose bounds
    are [0] and [images.length - 1] (the sliders of [ImageSlider],
    [ImageViewer] and [ThreeDViewer], rendered only when there are images). *)
Definition allowed (a : Action) (w : World) : Prop :=
  match a with
  | ASetViewMode m => valid_mode m
  | ASetSelectedImageIndex i => 0 <= i < Z.of_nat (length (images (store w)))
  | _ => True
  end.

(** The worlds the application reaches from its initial store and the
    storage [ls0] it finds. *)
Inductive reachable (ls0 : Storage) : World -> Prop :=
  | reach_init : reachable ls0 (mkWorld initial_store ls0)
  | reach_step (w : World) (a : Action) :
      reachable ls0 w -> allowed a w -> reachable ls0 (perform a w).

(** The storage holds no view mode but the three. *)
Definition storage_modes_valid (ls : Storage) : Prop :=
  forall m v, ls = Some m -> m !! key_viewMode = Some v -> valid_mode v.

(** The slice index points into the image stack. *)
Definition index_ok (s : AppStore) : Prop :=
  (images s = [] -> selectedImageIndex s = 0) /\
  (images s <> [] -> 0 <= selectedImageIndex s <= Z.of_nat (length (images s)) - 1).

(** ** [Sidebar]: the status dot of a series *)

Inductive SeriesStatus := StatusNone | StatusAnalyzed | StatusModeled.

Definition getSeriesStatus (s : AppStore) (seriesUid : string) : SeriesStatus :=
  if bool_decide (seriesUid ∈ modelSeriesIds s) then StatusModeled
  else if bool_decide (seriesUid ∈ analyzedSeriesIds s) then StatusAnalyzed
  else StatusNone.

(** ** Clicks on the remaining buttons *)

Definition clickAnalyzed (s : AppStore) : Dispatch :=
  click (disabled (getAnalyzedButtonState s)) (handleAnalyzedClick s).

(** [ActionButtons] for any outcome of its two [!== null] tests.  The store
    types both fields as an object or [null], and [ActionButtons] above is
    the component on such a store.  [selectSeries] and [initialize] store
    what the artifact requests return, so an answer without a [data] field
    leaves [undefined] there: falsy, a [None] for every truthiness test of
    the other components, and yet [!== null].  [hasAnalysis] and [hasModel]
    are the outcomes of the two tests, whatever the fields hold. *)
Definition ActionButtons_of (hasAnalysis hasModel : bool) (s : AppStore)
    : option ActionButtonsView :=
  match selectedSeries s with
  | None => None
  | Some _ =>
      let showReanalyze := hasAnalysis in
      let showRegenerate := hasModel in
      let showClear := hasAnalysis || hasModel in
      if negb showReanalyze && negb showRegenerate && negb showClear then None
      else Some {| showReanalyze := showReanalyze;
                   showRegenerate := showRegenerate;
                   showClear := showClear;
                   reanalyze_disabled := isAnalyzing s;
                   regenerate_disabled := isGeneratingModel s;
                   clear_disabled := isAnalyzing s || isGeneratingModel s || isLoading s |}
  end.

(** Clicks on the places of the three buttons of a rendered view. *)
Definition view_clickReanalyze (v : option ActionButtonsView) : Dispatch :=
  match v with
  | Some v => if showReanalyze v then click (reanalyze_disabled v) CallAnalyzeSeries
              else NoCall
  | None => NoCall
  end.

Definition view_clickRegenerate (v : option ActionButtonsView) : Dispatch :=
  match v with
  | Some v => if showRegenerate v then click (regenerate_disabled v) CallGenerateModel
              else NoCall
  | None => NoCall
  end.

(** [handleClear] behind the "Clear" button; [confirmed] is the answer of
    [window.confirm]. *)
Definition view_clickClear (confirmed : bool) (v : option ActionButtonsView) : Dispatch :=
  match v with
  | Some v => if showClear v
              then click (clear_disabled v)
                         (if confirmed then CallClearSeriesResults else NoCall)
              else NoCall
  | None => NoCall
  end.

(** ** [Sidebar]: the upload button and the clear-all button *)

Inductive SidebarDispatch :=
  | CallUploadZipFile
  | CallClearAnalysisAndModels
  | SidebarNoCall.

(** "Upload & Process" with its handler [handleUpload]; [hasFile] tells
    whether a file has been chosen ([selectedFile] of the component). *)
Definition clickUpload (hasFile : bool) (s : AppStore) : SidebarDispatch :=
  if isLoading s || negb hasFile then SidebarNoCall
  else if hasFile then CallUploadZipFile else SidebarNoCall.

(** "Clear Analysis & Models", rendered when a tracking set is not empty. *)
Definition clickClearAll (s : AppStore) : SidebarDispatch :=
  if (0 <? size (analyzedSeriesIds s))%nat || (0 <? size (modelSeriesIds s))%nat
  then (if isLoading s then SidebarNoCall else CallClearAnalysisAndModels)
  else SidebarNoCall.

(** ** [ImageViewer]: zoom *)

(** Every zoom value is a multiple of a quarter between 0.25 and 4, so the
    double arithmetic of the source is exact and rationals model it. *)
Definition Math_min (a b : Q) : Q := if Qle_bool a b then a else b.
Definition Math_max (a b : Q) : Q := if Qle_bool a b then b else a.

Definition handleZoomIn (z : Q) : Q := Math_min (z + (1 # 4)) 4.
Definition handleZoomOut (z : Q) : Q := Math_max (z - (1 # 4)) (1 # 4).
Definition handleReset (z : Q) : Q := 1.

Inductive ZoomClick := ZoomIn | ZoomOut | ZoomReset.

Definition zoom_click (c : ZoomClick) (z : Q) : Q :=
  match c with
  | ZoomIn => handleZoomIn z
  | ZoomOut => handleZoomOut z
  | ZoomReset => handleReset z
  end.

(** The zoom after a run of clicks, starting from [useState(1)]. *)
Definition zoom_after (cs : list ZoomClick) : Q :=
  fold_left (fun z c => zoom_click c z) cs 1%Q.

(** ** [ThreeDViewer]: the opacity panel and the slice plane *)

(** The value the range input of a tissue hands to [handleOpacityChange]:
    [parseInt(e.target.value) / 100]. *)
Definition slider_opacity (k : Z) : Q := inject_Z k / 100.

Definition handleOpacityChange (tissue : string) (opacity : Q) (prev : gmap string Q)
    : gmap string Q :=
  <[tissue := opacity]> prev.

Definition resetOpacityToDefaults (prev : gmap string Q) : gmap string Q :=
  DEFAULT_OPACITY.

(** [sliceRatio] of [SlicePlane]; [None] when the component returns
    [null].  The rational is the exact quotient of the two integers; the
    double of the source is that quotient rounded, which keeps 0, 1 and the
    order. *)
Definition sliceRatio (visible hasBox : bool) (sliceIndex totalSlices : Z) : option Q :=
  if negb visible || negb hasBox || (totalSlices =? 0) then None
  else Some (inject_Z sliceIndex / inject_Z (Z.max (totalSlices - 1) 1))%Q.

(** ** [split] and [join] *)

(** [pieces.join('\n\n')]. *)
Fixpoint join_nn (l : list string) : string :=
  match l with
  | [] => EmptyString
  | x :: rest =>
      match rest with
      | [] => x
      | _ :: _ => x +:+ blank_line +:+ join_nn rest
      end
  end.

(** ** The desktop shell ([electron_app/main.js]) *)

Module Shell.

(** [CONFIG.maxRestarts]. *)
Definition maxRestarts : Z := 3.

(** The two globals [handleBackendCrash] reads and writes. *)
Record Supervisor := mkSupervisor {
  restartCount : Z;
  isQuitting : bool
}.

(** What a crash leads to: a restart after [restartDelay], the error box,
    or nothing. *)
Inductive CrashEffect := RestartScheduled | ErrorBox | NoEffect.

Definition handleBackendCrash (st : Supervisor) : Supervisor * CrashEffect :=
  if isQuitting st then (st, NoEffect)
  else
    let st' := mkSupervisor (restartCount st + 1) (isQuitting st) in
    if restartCount st' <=? maxRestarts then (st', RestartScheduled)
    else (st', ErrorBox).

(** [n] crashes in a row. *)
Fixpoint crashes (n : nat) (st : Supervisor) : Supervisor * list CrashEffect :=
  match n with
  | O => (st, [])
  | S n' =>
      let '(st1, e) := handleBackendCrash st in
      let '(st2, es) := crashes n' st1 in
      (st2, e :: es)
  end.

End Shell.

(** ** Sample data of the further concrete runs *)

(** The back end serves the images, the analysis result and no model. *)
Definition analyzed_env : SelectEnv :=
  mkSelectEnv (Some sample_images) None (Some sample_result) None.

(** A complete event that carries a payload. *)
Definition is_complete (p : AnalysisProgress) : bool :=
  match ptype p, data p with
  | PComplete, Some _ => true
  | _, _ => false
  end.

(** An answer on which the store's poll re-arms its timer. *)
Definition poll_continues (r : PollResp) : Prop :=
  match r with
  | PollOk st => status st = "generating"
  | PollThrow _ => True
  end.

(** An answer on which the legacy loop polls again. *)
Definition legacy_continues (r : PollResp) : Prop :=
  match r with
  | PollOk st => status st <> "error" /\ (status st = "complete" -> ms_data st = None)
  | PollThrow _ => False
  end.

(** The view mode of the store and of the storage are among the three. *)
Definition mode_inv (w : World) : Prop :=
  valid_mode (viewMode (store w)) /\ storage_modes_valid (storage w).

(** ** Callbacks that outlive the action that started them *)

(** [analyzeSeries] and [generateModel] hand out closures that run after
    other store actions have come and gone: [onProgress], which captured the
    series [sel] the analysis was started for, and the poll timer, whose
    firing reads the answer [r] of the status request.  No store action
    cancels either of them. *)
Inductive Callback :=
  | OnProgress (sel : DicomSeries) (p : AnalysisProgress)
  | PollTimer (r : PollResp).

Definition run_callback (c : Callback) (w : World) : World :=
  match c with
  | OnProgress sel p => fst (analyze_onProgress sel p w)
  | PollTimer r => fst (pollStatus_once r w)
  end.

Definition run_callbacks (cs : list Callback) (w : World) : World :=
  fold_left (fun w c => run_callback c w) cs w.

(** Any callback but a complete event that carries a payload. *)
Definition not_completing (c : Callback) : Prop :=
  match c with
  | OnProgress _ p => is_complete p = false
  | PollTimer _ => True
  end.

(** The complete event, with its payload, of the analysis started for
    [sel]. *)
Definition completes (sel : DicomSeries) (c : Callback) : Prop :=
  match c with
  | OnProgress sel' p => sel' = sel /\ is_complete p = true
  | PollTimer _ => False
  end.

(** * Proofs *)

(** ** Evaluating store updates *)

(** Store updates are evaluated innermost first, on a store that has been
    taken apart into its fields. *)
Ltac store_simpl :=
  cbv beta iota delta
    [with_series with_selectedSeries with_analyzedSeriesIds with_modelSeriesIds
     with_images with_selectedImageIndex with_analysisResult with_isAnalyzing
     with_analysisProgress with_modelInfo with_isGeneratingModel with_viewMode
     with_isLoading with_uploadMessage with_error on_store
     series selectedSeries analyzedSeriesIds modelSeriesIds images selectedImageIndex
     analysisResult isAnalyzing analysisProgress modelInfo isGeneratingModel viewMode
     isLoading uploadMessage error store storage selected_uid artifact_state] in *.

Ltac destruct_world w :=
  let s := fresh "s" in
  let ls := fresh "ls" in
  destruct w as [s ls]; destruct s; store_simpl.

(** The branches of [initialize], started from the initial store. *)
Ltac init_cases env ls :=
  unfold initialize;
  cbn [store storage];
  destruct (env_init env) as [result|];
  [ destruct (vs_seriesUid (loadViewState ls)) as [uid|];
    [ destruct (str_truthy uid && (0 <? Z.of_nat (length (default [] (ir_series result)))));
      [ destruct (find (fun s => str_eqb (series_uid s) uid) (default [] (ir_series result)))
          as [savedSeries|];
        [ destruct (env_images env (series_uid savedSeries)) as [imgs|] | ] | ] | ] | ];
  unfold initial_store; store_simpl.

(** ** Browser storage *)

Lemma insert3_twice (m : gmap string string) k1 k2 k3 a b c :
  <[k3:=c]> (<[k2:=b]> (<[k1:=a]> (<[k3:=c]> (<[k2:=b]> (<[k1:=a]> m)))))
  = <[k3:=c]> (<[k2:=b]> (<[k1:=a]> m)).
Proof.
  apply map_eq; intros k.
  destruct (decide (k3 = k)) as [->|H3]; [by rewrite !lookup_insert_eq|].
  rewrite !(lookup_insert_ne _ k3) by done.
  destruct (decide (k2 = k)) as [->|H2]; [by rewrite !lookup_insert_eq|].
  rewrite !(lookup_insert_ne _ k2) by done.
  destruct (decide (k1 = k)) as [->|H1]; [by rewrite !lookup_insert_eq|].
  rewrite !(lookup_insert_ne _ k1) by done.
  rewrite !(lookup_insert_ne _ k3) by done.
  rewrite !(lookup_insert_ne _ k2) by done.
  by rewrite !(lookup_insert_ne _ k1) by done.
Qed.

Lemma insert2_delete_twice (m : gmap string string) k1 k2 k3 b c :
  <[k3:=c]> (<[k2:=b]> (delete k1 (<[k3:=c]> (<[k2:=b]> (delete k1 m)))))
  = <[k3:=c]> (<[k2:=b]> (delete k1 m)).
Proof.
  apply map_eq; intros k.
  destruct (decide (k3 = k)) as [->|H3]; [by rewrite !lookup_insert_eq|].
  rewrite !(lookup_insert_ne _ k3) by done.
  destruct (decide (k2 = k)) as [->|H2]; [by rewrite !lookup_insert_eq|].
  rewrite !(lookup_insert_ne _ k2) by done.
  destruct (decide (k1 = k)) as [->|H1]; [by rewrite !lookup_delete_eq|].
  rewrite !(lookup_delete_ne _ k1) by done.
  rewrite !(lookup_insert_ne _ k3) by done.
  rewrite !(lookup_insert_ne _ k2) by done.
  by rewrite !(lookup_delete_ne _ k1) by done.
Qed.

(** Saving the same view state again changes nothing. *)
Lemma saveViewState_twice u mode i ls :
  saveViewState u mode i (saveViewState u mode i ls) = saveViewState u mode i ls.
Proof.
  destruct ls as [m|]; [|reflexivity].
  unfold saveViewState. f_equal.
  destruct u as [u|]; [destruct (str_truthy u)|].
  - apply insert3_twice.
  - apply insert2_delete_twice.
  - apply insert2_delete_twice.
Qed.

Lemma difference_twice (X : gset string) (u : string) : X ∖ {[u]} ∖ {[u]} = X ∖ {[u]}.
Proof. set_solver. Qed.

Lemma difference_absent (X : gset string) (u : string) : u ∉ X -> X ∖ {[u]} = X.
Proof. set_solver. Qed.

(** ** Clearing cached artifacts *)

Lemma clearSeriesResults_twice (r : ApiResult) (w : World) :
  clearSeriesResults r (clearSeriesResults r w) = clearSeriesResults r w.
Proof.
  unfold clearSeriesResults.
  destruct (selectedSeries (store w)) as [sel|] eqn:Hsel; [|by rewrite Hsel].
  destruct_world w. subst.
  destruct r as [|m]; store_simpl; [|reflexivity].
  by rewrite saveViewState_twice, !difference_twice.
Qed.

Lemma clearSeriesResults_absent (r : ApiResult) (w : World) :
  no_cached_artifacts (store w) ->
  artifact_state (store (clearSeriesResults r w)) = artifact_state (store w).
Proof.
  unfold no_cached_artifacts, clearSeriesResults.
  intros (Hres & Hmod & Hs).
  destruct (selectedSeries (store w)) as [sel|] eqn:Hsel; [|reflexivity].
  destruct (Hs sel eq_refl) as [H1 H2]. clear Hs.
  destruct_world w. subst.
  destruct r; store_simpl; [|reflexivity].
  by rewrite !difference_absent.
Qed.

(** Whether the action records an error is decided by the answer of the
    request alone, never by what is cached for the key. *)
Lemma clearSeriesResults_error (r : ApiResult) (w : World) sel :
  selectedSeries (store w) = Some sel ->
  error (store (clearSeriesResults r w))
  = match r with
    | ApiOk => None
    | ApiFail m => Some (default "Failed to clear series data" m)
    end.
Proof.
  unfold clearSeriesResults. destruct_world w. intros ->.
  by destruct r.
Qed.

(** C6: clearing the selected series' results twice gives the state one
    clear gives, for every client state and every answer of the back end; a
    clear for a series with nothing cached leaves the analysis result, the
    model and both tracking sets as they were, and records no error when the
    request is acknowledged. *)
Theorem C6_clear_series_idempotent (r : ApiResult) (w : World) :
  clearSeriesResults r (clearSeriesResults r w) = clearSeriesResults r w /\
  (no_cached_artifacts (store w) ->
     artifact_state (store (clearSeriesResults r w)) = artifact_state (store w) /\
     (r = ApiOk -> error (store (clearSeriesResults r w)) =
                   match selectedSeries (store w) with
                   | Some _ => None
                   | None => error (store w)
                   end)).
Proof.
  split; [apply clearSeriesResults_twice|].
  intros Hno. split; [by apply clearSeriesResults_absent|].
  intros ->. destruct (selectedSeries (store w)) as [sel|] eqn:Hsel.
  - by rewrite (clearSeriesResults_error _ _ sel).
  - unfold clearSeriesResults. by rewrite Hsel.
Qed.

Lemma C6_clear_series_idempotent_witness :
  artifact_state (store (clearSeriesResults ApiOk (mkWorld selected_store None)))
  = artifact_state selected_store.
Proof.
  refine (proj1 (proj2 (C6_clear_series_idempotent ApiOk (mkWorld selected_store None)) _)).
  split; [reflexivity|]. split; [reflexivity|].
  intros sel _. split; apply not_elem_of_empty.
Defined.

(** ** The analysis progress consumer *)

Lemma analyze_events_app sel (a b : list AnalysisProgress) (w : World) :
  analyze_events sel (a ++ b) w =
  (fst (analyze_events sel b (fst (analyze_events sel a w))),
   (snd (analyze_events sel a w) + snd (analyze_events sel b (fst (analyze_events sel a w))))%nat).
Proof.
  revert w. induction a as [|p a IH]; intros w; simpl.
  - by destruct (analyze_events sel b w).
  - destruct (analyze_onProgress sel p w) as [w1 fired].
    rewrite IH.
    destruct (analyze_events sel a w1) as [w2 n]; simpl.
    destruct (analyze_events sel b w2) as [w3 k]; simpl.
    f_equal. lia.
Qed.

(** An event that is not terminal only replaces [analysisProgress]; a
    payload it may carry is not stored as the analysis result. *)
Lemma analyze_onProgress_nonterminal sel p w :
  is_terminal p = false ->
  analyze_onProgress sel p w = (on_store (with_analysisProgress (Some p)) w, false).
Proof.
  unfold is_terminal, analyze_onProgress, on_store.
  destruct (ptype p), (data p); intros Hnt; try discriminate; reflexivity.
Qed.

Lemma same_but_progress_refl w : same_but_progress w w.
Proof. by split. Qed.

Lemma analyze_events_nonterminal sel pre w :
  Forall (fun p => is_terminal p = false) pre ->
  snd (analyze_events sel pre w) = 0%nat /\
  same_but_progress w (fst (analyze_events sel pre w)).
Proof.
  intros Hpre. revert w. induction Hpre as [|p pre Hp _ IH]; intros w; simpl.
  - split; [done|apply same_but_progress_refl].
  - rewrite (analyze_onProgress_nonterminal _ _ _ Hp).
    specialize (IH (on_store (with_analysisProgress (Some p)) w)).
    destruct (analyze_events sel pre _) as [w2 n]; simpl in *.
    destruct IH as [-> [Hst Hs]]. split; [done|].
    split; [by rewrite Hst|].
    rewrite Hs. by destruct_world w.
Qed.

Lemma same_but_progress_fields w w' :
  same_but_progress w w' ->
  analysisResult (store w') = analysisResult (store w) /\
  viewMode (store w') = viewMode (store w) /\
  error (store w') = error (store w) /\
  analyzedSeriesIds (store w') = analyzedSeriesIds (store w) /\
  selectedImageIndex (store w') = selectedImageIndex (store w) /\
  modelInfo (store w') = modelInfo (store w) /\
  isAnalyzing (store w') = isAnalyzing (store w).
Proof.
  intros [_ Hs]. destruct_world w. destruct_world w'.
  by inversion Hs.
Qed.

(** C4 (amended): when the events delivered are non-terminal events
    followed by one terminal event (a complete event with a payload, or an
    error event), the callback clears the analyzing flag exactly once; on
    complete the payload is the new analysis result, the view is the
    analyzed one, the series is tracked as analyzed and the view state is
    saved; on error the message is recorded and result and view stay as they
    were.  *)
Theorem C4_single_terminal_event (w : World) (sel : DicomSeries)
    (pre : list AnalysisProgress) (t : AnalysisProgress)
    (Hsel : selectedSeries (store w) = Some sel)
    (Hpre : Forall (fun p => is_terminal p = false) pre)
    (Ht : is_terminal t = true) :
  let w' := fst (analyzeSeries (pre ++ [t]) w) in
  snd (analyzeSeries (pre ++ [t]) w) = 1%nat /\
  isAnalyzing (store w') = false /\
  analysisProgress (store w') = None /\
  match ptype t, data t with
  | PComplete, Some d =>
      analysisResult (store w') = Some d /\
      viewMode (store w') = "analyzed" /\
      series_uid sel ∈ analyzedSeriesIds (store w') /\
      error (store w') = None /\
      storage w' = saveViewState (Some (series_uid sel)) "analyzed"
                     (selectedImageIndex (store w)) (storage w)
  | _, _ =>
      error (store w') = Some (message t) /\
      analysisResult (store w') = analysisResult (store w) /\
      viewMode (store w') = viewMode (store w) /\
      storage w' = storage w
  end.
Proof.
  unfold analyzeSeries, analyzeSeries_begin. rewrite Hsel.
  set (w0 := mkWorld _ (storage w)).
  assert (Hw0 : analysisResult (store w0) = analysisResult (store w) /\
                viewMode (store w0) = viewMode (store w) /\
                selectedImageIndex (store w0) = selectedImageIndex (store w) /\
                error (store w0) = None /\ storage w0 = storage w).
  { subst w0. clear. by destruct_world w. }
  clearbody w0. destruct Hw0 as (Har & Hvm & Hidx & Herr & Hst).
  rewrite analyze_events_app.
  destruct (analyze_events_nonterminal sel pre w0 Hpre) as [Hn Hsame].
  destruct (same_but_progress_fields _ _ Hsame) as (Far & Fvm & Ferr & _ & Fidx & _ & _).
  destruct Hsame as [Fst _].
  destruct (analyze_events sel pre w0) as [w1 n]; simpl in Hn, Far, Fvm, Ferr, Fidx, Fst.
  subst n. cbn [fst snd analyze_events].
  rewrite <- Har, <- Hvm, <- Hidx, <- Hst, <- Far, <- Fvm, <- Fidx, <- Fst.
  rewrite Herr in Ferr.
  unfold is_terminal in Ht. unfold analyze_onProgress.
  clear Hsel Har Hvm Hidx Herr Hst Far Fvm Fidx Fst.
  destruct (ptype t), (data t) as [d|]; try discriminate Ht; cbn [fst snd];
    destruct_world w1; subst; repeat split; try done.
  set_solver.
Qed.

(** The hypotheses of C4 hold on a run of two progress events and a
    complete event. *)
Lemma C4_single_terminal_event_witness :
  snd (analyzeSeries ([ev_progress 1; ev_progress 2] ++ [ev_complete sample_result])
         (mkWorld selected_store None)) = 1%nat.
Proof.
  refine (proj1 (C4_single_terminal_event (mkWorld selected_store None) sample_series
           [ev_progress 1; ev_progress 2] (ev_complete sample_result) _ _ _)).
  - reflexivity.
  - repeat constructor.
  - reflexivity.
Defined.

(** C4 as stated fails: the callback has no notion of being finished.  An
    error event delivered after the complete event (the reader emits one
    when a read rejects after the last frame) is acted upon as well: the
    flag is cleared a second time and the state is no longer the one the
    first terminal event left. *)
Lemma C4_counterexample :
  let w0 := mkWorld selected_store None in
  let first := [ev_complete sample_result] in
  let evs := (first ++ [error_event "network error"])%list in
  fetchStream complete_parse ["data: done" +:+ blank_line]
              (EndThrows "TypeError" "network error") = evs /\
  snd (analyzeSeries evs w0) = 2%nat /\
  fst (analyzeSeries evs w0) <> fst (analyzeSeries first w0) /\
  error (store (fst (analyzeSeries first w0))) = None /\
  error (store (fst (analyzeSeries evs w0))) = Some "network error".
Proof.
  cbv zeta. split; [reflexivity|]. split; [reflexivity|]. split; [|split; reflexivity].
  intros Heq. apply (f_equal (fun w => error (store w))) in Heq.
  discriminate Heq.
Qed.

(** ** The frame of the clear actions *)

(** C7 (amended): a clear whose request the back end acknowledges, and for
    the per-series form with a series selected, leaves no analysis result
    and no model and removes the affected keys from both tracking sets (the
    selected key, or every key for the global form); whatever the back end
    answers, the series list, the image stack, the selection and the slice
    index are left as they were.  When the request is rejected, either
    action records the error (the thrown message, or its own default) and
    clears nothing: the analysis result, the model, both tracking sets, the
    view mode and the storage are as before.  Without a selected series the
    per-series action returns at once and the world is the one it found. *)
Theorem C7_clear_removes_only_artifacts (w : World) :
  (forall sel, selectedSeries (store w) = Some sel ->
     let s1 := store (clearSeriesResults ApiOk w) in
     analysisResult s1 = None /\ modelInfo s1 = None /\
     analyzedSeriesIds s1 = analyzedSeriesIds (store w) ∖ {[series_uid sel]} /\
     modelSeriesIds s1 = modelSeriesIds (store w) ∖ {[series_uid sel]} /\
     (series_uid sel ∉ analyzedSeriesIds s1) /\ (series_uid sel ∉ modelSeriesIds s1)) /\
  (let s2 := store (clearAnalysisAndModels ApiOk w) in
   analysisResult s2 = None /\ modelInfo s2 = None /\
   analyzedSeriesIds s2 = ∅ /\ modelSeriesIds s2 = ∅) /\
  (forall r s', s' = store (clearSeriesResults r w) \/ s' = store (clearAnalysisAndModels r w) ->
     series s' = series (store w) /\ images s' = images (store w) /\
     selectedSeries s' = selectedSeries (store w) /\
     selectedImageIndex s' = selectedImageIndex (store w)) /\
  (forall m sel, selectedSeries (store w) = Some sel ->
     let w3 := clearSeriesResults (ApiFail m) w in
     error (store w3) = Some (default "Failed to clear series data" m) /\
     artifact_state (store w3) = artifact_state (store w) /\
     viewMode (store w3) = viewMode (store w) /\ storage w3 = storage w) /\
  (forall m,
     let w4 := clearAnalysisAndModels (ApiFail m) w in
     error (store w4) = Some (default "Failed to clear data" m) /\
     artifact_state (store w4) = artifact_state (store w) /\
     viewMode (store w4) = viewMode (store w) /\ storage w4 = storage w) /\
  (selectedSeries (store w) = None -> forall r, clearSeriesResults r w = w).
Proof.
  unfold clearSeriesResults, clearAnalysisAndModels.
  destruct (selectedSeries (store w)) as [sel0|] eqn:Hsel;
    destruct_world w; subst; (split; [|split; [|split; [|split; [|split]]]]).
  - intros sel [= <-]. repeat split; try done; set_solver.
  - by repeat split.
  - intros r s' [->| ->]; destruct r; by repeat split.
  - intros m sel _. by repeat split.
  - intros m. by repeat split.
  - discriminate.
  - intros sel [=].
  - by repeat split.
  - intros r s' [->| ->]; destruct r; by repeat split.
  - intros m sel [=].
  - intros m. by repeat split.
  - reflexivity.
Qed.

Lemma C7_clear_removes_only_artifacts_witness :
  analysisResult (store (clearSeriesResults ApiOk (mkWorld analyzed_store None))) = None /\
  images (store (clearSeriesResults ApiOk (mkWorld analyzed_store None))) = sample_images.
Proof.
  destruct (C7_clear_removes_only_artifacts (mkWorld analyzed_store None))
    as (Hsel & _ & Hframe & _).
  split.
  - exact (proj1 (Hsel sample_series eq_refl)).
  - exact (proj1 (proj2 (Hframe ApiOk _ (or_introl eq_refl)))).
Defined.

(** C7 as stated fails: when the request is rejected the action records the
    error and clears nothing, and without a selected series the per-series
    action returns at once. *)
Lemma C7_counterexample :
  analysisResult
    (store (clearSeriesResults (ApiFail (Some "Network Error")) (mkWorld analyzed_store None)))
  = Some sample_result /\
  modelInfo
    (store (clearAnalysisAndModels (ApiFail (Some "Network Error")) (mkWorld analyzed_store None)))
  = Some sample_model /\
  analysisResult
    (store (clearSeriesResults ApiOk
              (mkWorld (analyzed_store ▷ with_selectedSeries None) None)))
  = Some sample_result.
Proof. repeat split. Qed.

(** ** The 3D tab and the generate action *)

(** C3 (amended): with no analysis result in the store, the 3D tab of the
    view-mode toggle never invokes [generateModel]: its handler switches to
    the 3D view when a model is present and does nothing otherwise, and the
    tab is disabled when the model is absent as well. *)
Theorem C3_toggle_never_generates_without_analysis (s : AppStore)
    (Hnone : analysisResult s = None) :
  handle3DClick s = match modelInfo s with
                    | Some _ => CallSetViewMode "3d"
                    | None => NoCall
                    end /\
  handle3DClick s <> CallGenerateModel /\
  click3D s <> CallGenerateModel /\
  (modelInfo s = None -> disabled (get3DButtonState s) = true /\ click3D s = NoCall).
Proof.
  unfold click3D, click, handle3DClick, get3DButtonState. rewrite Hnone.
  destruct (modelInfo s) as [m|], (isGeneratingModel s); simpl;
    repeat split; try discriminate; try reflexivity.
Qed.

Lemma C3_toggle_never_generates_without_analysis_witness :
  click3D selected_store <> CallGenerateModel.
Proof.
  exact (proj1 (proj2 (proj2
    (C3_toggle_never_generates_without_analysis selected_store eq_refl)))).
Defined.

(** C3 as stated fails: in a reachable state without an analysis result the
    3D tab is enabled, the "Regenerate 3D" button invokes [generateModel],
    and the store action, which only checks that a series is selected,
    starts the job and a poll without recording an error. *)
Lemma C3_counterexample :
  analysisResult model_only_store = None /\
  disabled (get3DButtonState model_only_store) = false /\
  clickRegenerate model_only_store = CallGenerateModel /\
  snd (generateModel ApiOk [] (mkWorld model_only_store None)) = PollScheduled /\
  isGeneratingModel (store (fst (generateModel ApiOk [] (mkWorld model_only_store None)))) = true /\
  error (store (fst (generateModel ApiOk [] (mkWorld model_only_store None)))) = None.
Proof. repeat split. Qed.

(** ** Polling the model-generation status *)

(** While the status is [generating], or the request throws, the store's
    poll re-arms its timer and changes nothing. *)
Lemma pollStatus_once_continues (w : World) (r : PollResp) sel :
  selectedSeries (store w) = Some sel ->
  isGeneratingModel (store w) = true ->
  match r with
  | PollOk st => status st = "generating"
  | PollThrow _ => True
  end ->
  pollStatus_once r w = (w, PollScheduled).
Proof.
  unfold pollStatus_once. intros -> -> Hr. simpl.
  destruct r as [st|msg]; [|reflexivity].
  rewrite Hr. reflexivity.
Qed.

(** On [complete] with a payload the store's poll stores the model and
    shows the 3D view; on [error] it records the message; both stop. *)
Lemma pollStatus_once_concludes (w : World) (st : ModelStatus) sel :
  selectedSeries (store w) = Some sel ->
  isGeneratingModel (store w) = true ->
  (status st = "complete" ->
   forall d, ms_data st = Some d ->
     snd (pollStatus_once (PollOk st) w) = PollStopped /\
     modelInfo (store (fst (pollStatus_once (PollOk st) w))) = Some d /\
     viewMode (store (fst (pollStatus_once (PollOk st) w))) = "3d" /\
     isGeneratingModel (store (fst (pollStatus_once (PollOk st) w))) = false) /\
  (status st = "error" ->
     snd (pollStatus_once (PollOk st) w) = PollStopped /\
     error (store (fst (pollStatus_once (PollOk st) w)))
       = Some (if str_truthy (ms_message st) then ms_message st
               else "Model generation failed") /\
     isGeneratingModel (store (fst (pollStatus_once (PollOk st) w))) = false).
Proof.
  unfold pollStatus_once. intros -> ->. simpl. split.
  - intros -> d ->. by repeat split.
  - intros ->. by repeat split.
Qed.

(** On [queued] the store's poll neither concludes nor re-arms its timer:
    the generating flag stays set and no later status is ever read. *)
Lemma pollStatus_once_queued (w : World) (st : ModelStatus) sel :
  selectedSeries (store w) = Some sel ->
  isGeneratingModel (store w) = true ->
  status st = "queued" ->
  pollStatus_once (PollOk st) w = (w, PollStopped).
Proof.
  unfold pollStatus_once. intros -> -> Hq. simpl. by rewrite Hq.
Qed.

(** The legacy loop of the API service polls again on every status that is
    neither a complete one with a payload nor an error. *)
Lemma api_generateModel_loop_continues (st : ModelStatus) (rest : list PollResp) :
  status st <> "error" ->
  (status st = "complete" -> ms_data st = None) ->
  api_generateModel_loop (PollOk st :: rest) = api_generateModel_loop rest.
Proof.
  intros Herr Hc. simpl. unfold str_eqb.
  case_bool_decide as Hs.
  - rewrite (Hc Hs). by case_bool_decide.
  - case_bool_decide; [done|]. by destruct (ms_data st).
Qed.

(** C5 at the failing input: the status sequence [queued; generating;
    complete].  The store's poll reads [queued] and stops: the model is
    never stored, the view never switches and the generating flag stays
    set.  The legacy loop of the API service, given the same statuses, polls
    on and returns the model. *)
Theorem C5_store_poll_stops_on_queued :
  let rs := [PollOk st_queued; PollOk st_generating; PollOk (st_complete sample_model)] in
  let w0 := mkWorld (analyzed_store ▷ with_modelInfo None) None in
  let out := generateModel ApiOk rs w0 in
  snd out = PollStopped /\
  modelInfo (store (fst out)) = None /\
  isGeneratingModel (store (fst out)) = true /\
  viewMode (store (fst out)) = "original" /\
  error (store (fst out)) = None /\
  api_generateModel ApiOk rs = LReturned sample_model /\
  modelInfo (store (fst (generateModel ApiOk (tail rs) w0))) = Some sample_model.
Proof. repeat split. Qed.

(** ** Tissue identity in the 3D viewer *)

Lemma Model_applyOpacity_lookup (tissueOpacity : gmap string Q) (meshes : list Mesh) (i : nat) :
  Model_applyOpacity tissueOpacity meshes !! i = restyle tissueOpacity i <$> meshes !! i.
Proof. unfold Model_applyOpacity. apply list_lookup_imap. Qed.

(** C1 (amended): the tissue of the mesh at position [i] of the traversal
    is [tissueOrder[i]], whatever the mesh is named: with an opacity entry
    for that key the mesh gets that tissue's color, that opacity and the
    visibility it implies; a mesh at a position past the table, or whose key
    has no opacity entry, is left as loaded. *)
Theorem C1_tissue_identity_by_position (tissueOpacity : gmap string Q)
    (meshes : list Mesh) (i : nat) (m : Mesh)
    (Hm : meshes !! i = Some m) :
  Model_applyOpacity tissueOpacity meshes !! i = Some (restyle tissueOpacity i m) /\
  mesh_name (restyle tissueOpacity i m) = mesh_name m /\
  match tissueOrder !! i with
  | Some key =>
      match tissueOpacity !! key with
      | Some opacity =>
          mesh_visible (restyle tissueOpacity i m) = Qgtb opacity 0 /\
          mesh_material (restyle tissueOpacity i m)
          = Replaced (mkMaterial (default 0 (tissueColors !! key)) opacity true
                                 (Qgeb opacity (99 # 100)))
      | None => restyle tissueOpacity i m = m
      end
  | None => restyle tissueOpacity i m = m
  end.
Proof.
  rewrite Model_applyOpacity_lookup, Hm. split; [reflexivity|].
  unfold restyle, tissueKey_at.
  destruct (tissueOrder !! i) as [key|]; [|done].
  destruct (tissueOpacity !! key) as [opacity|]; done.
Qed.

Lemma C1_tissue_identity_by_position_witness :
  Model_applyOpacity DEFAULT_OPACITY [mesh_organs; mesh_body] !! 0%nat
  = Some (restyle DEFAULT_OPACITY 0 mesh_organs).
Proof.
  exact (proj1 (C1_tissue_identity_by_position DEFAULT_OPACITY [mesh_organs; mesh_body]
                  0 mesh_organs eq_refl)).
Defined.

(** C1 as stated fails: one and the same mesh, met at two positions of the
    traversal, is shown as two different tissues, so no function of the
    mesh's metadata gives the tissue. *)
Lemma C1_counterexample : ~ identity_from_metadata.
Proof.
  intros [f Hf].
  pose proof (Hf DEFAULT_OPACITY [mesh_organs; mesh_organs] 0%nat mesh_organs
                 (restyle DEFAULT_OPACITY 0 mesh_organs) eq_refl eq_refl) as H0.
  pose proof (Hf DEFAULT_OPACITY [mesh_organs; mesh_organs] 1%nat mesh_organs
                 (restyle DEFAULT_OPACITY 1 mesh_organs) eq_refl eq_refl) as H1.
  rewrite <- H0 in H1. vm_compute in H1. discriminate H1.
Qed.

(** ** The progress-stream reader *)

(** Induction on strings two characters at a time, as [split_nn] recurses. *)
Lemma string_pair_ind (P : string -> Prop) :
  P EmptyString ->
  (forall c, P (String c EmptyString)) ->
  (forall c c2 rest, P rest -> P (String c2 rest) -> P (String c (String c2 rest))) ->
  forall s, P s.
Proof.
  intros H0 H1 H2.
  assert (Hboth : forall s, P s /\ forall c, P (String c s)).
  { induction s as [|c2 rest [IH1 IH2]].
    - split; [exact H0 | exact H1].
    - split; [apply IH2|]. intros c. apply H2; [exact IH1 | apply IH2]. }
  intros s. apply Hboth.
Qed.

Lemma split_nn_cons2 c c2 rest :
  split_nn (String c (String c2 rest))
  = if is_nl c && is_nl c2 then EmptyString :: split_nn rest
    else push_front c (split_nn (String c2 rest)).
Proof. reflexivity. Qed.

Lemma split_nn_nonempty s : split_nn s <> [].
Proof.
  induction s as [|c|c c2 rest IH1 IH2] using string_pair_ind; try done.
  rewrite split_nn_cons2.
  destruct (is_nl c && is_nl c2); [done|].
  unfold push_front. by destruct (split_nn (String c2 rest)).
Qed.

(** A text without separator is its own single piece. *)
Lemma split_nn_singleton s x : split_nn s = [x] -> x = s.
Proof.
  revert x.
  induction s as [|c|c c2 rest IH1 IH2] using string_pair_ind; intros x.
  - by intros [= <-].
  - by intros [= <-].
  - rewrite split_nn_cons2. destruct (is_nl c && is_nl c2).
    + intros [= <- Hrest]. by destruct (split_nn_nonempty rest).
    + destruct (split_nn (String c2 rest)) as [|h [|h2 t]] eqn:Hs; unfold push_front.
      * by destruct (split_nn_nonempty (String c2 rest)).
      * intros [= <-]. by rewrite (IH2 h eq_refl).
      * done.
Qed.

Lemma removelast_cons {A} (x : A) (l : list A) :
  l <> [] -> removelast (x :: l) = x :: removelast l.
Proof. by destruct l. Qed.

Lemma last_cons {A} (x d : A) (l : list A) :
  l <> [] -> List.last (x :: l) d = List.last l d.
Proof. by destruct l. Qed.

Lemma removelast_app_nonempty {A} (l1 l2 : list A) :
  l2 <> [] -> removelast (l1 ++ l2)%list = (l1 ++ removelast l2)%list.
Proof. intros H. by apply removelast_app. Qed.

(** Appending text only affects the last, unterminated piece. *)
Lemma split_nn_app (a b : string) :
  split_nn (a +:+ b)
  = (removelast (split_nn a) ++ split_nn (List.last (split_nn a) EmptyString +:+ b))%list.
Proof.
  induction a as [|c|c c2 rest IH1 IH2] using string_pair_ind.
  - reflexivity.
  - reflexivity.
  - change (String c (String c2 rest) +:+ b) with (String c (String c2 (rest +:+ b))).
    rewrite !split_nn_cons2. destruct (is_nl c && is_nl c2) eqn:Hnl.
    + rewrite IH1.
      rewrite removelast_cons, last_cons by apply split_nn_nonempty.
      reflexivity.
    + change (String c2 (rest +:+ b)) with (String c2 rest +:+ b).
      rewrite IH2.
      destruct (split_nn (String c2 rest)) as [|h [|h2 t]] eqn:Hs.
      * by destruct (split_nn_nonempty (String c2 rest)).
      * apply split_nn_singleton in Hs. subst h.
        cbn [push_front removelast List.last app].
        change (String c (String c2 rest) +:+ b) with (String c (String c2 (rest +:+ b))).
        rewrite split_nn_cons2. by rewrite Hnl.
      * reflexivity.
Qed.

Lemma append_empty_r (s : string) : s +:+ EmptyString = s.
Proof.
  induction s as [|c s IH]; [done|].
  change (String c s +:+ EmptyString) with (String c (s +:+ EmptyString)).
  by rewrite IH.
Qed.

Lemma append_assoc (a b c : string) : (a +:+ b) +:+ c = a +:+ (b +:+ c).
Proof.
  induction a as [|x a IH]; [done|].
  change (String x ((a +:+ b) +:+ c) = String x (a +:+ (b +:+ c))).
  by rewrite IH.
Qed.

Section StreamReaderProofs.

Variable JSON_parse : string -> option AnalysisProgress.

Lemma read_loop_cons (buffer value : string) (rest : list string) :
  read_loop JSON_parse buffer (value :: rest)
  = omap (handle_line JSON_parse)
      (complete_frames (buffer +:+ value +:+ concat_chunks rest)).
Proof.
  unfold complete_frames.
  revert buffer value. induction rest as [|v rest IH]; intros buffer value.
  - change (read_loop JSON_parse buffer [value])
      with (omap (handle_line JSON_parse) (removelast (split_nn (buffer +:+ value)))
            ++ [])%list.
    change (concat_chunks []) with EmptyString.
    by rewrite app_nil_r, append_empty_r.
  - change (read_loop JSON_parse buffer (value :: v :: rest))
      with (omap (handle_line JSON_parse) (removelast (split_nn (buffer +:+ value)))
            ++ read_loop JSON_parse (List.last (split_nn (buffer +:+ value)) EmptyString)
                 (v :: rest))%list.
    rewrite IH.
    change (concat_chunks (v :: rest)) with (v +:+ concat_chunks rest).
    rewrite <- (append_assoc buffer value).
    rewrite (split_nn_app (buffer +:+ value)).
    rewrite removelast_app_nonempty by apply split_nn_nonempty.
    by rewrite omap_app.
Qed.

(** The callbacks are those of the complete frames of the whole text. *)
Lemma read_loop_whole (chunks : list string) :
  read_loop JSON_parse EmptyString chunks
  = omap (handle_line JSON_parse) (complete_frames (concat_chunks chunks)).
Proof.
  destruct chunks as [|value rest]; [reflexivity|].
  by rewrite read_loop_cons.
Qed.

End StreamReaderProofs.

Lemma split_nn_no_sep (s : string) : no_sep s = true -> split_nn s = [s].
Proof.
  induction s as [|c|c c2 rest IH1 IH2] using string_pair_ind; try done.
  change (no_sep (String c (String c2 rest)))
    with (negb (is_nl c && is_nl c2) && no_sep (String c2 rest)).
  rewrite split_nn_cons2. intros [Hnl Hrest]%andb_prop.
  apply negb_true_iff in Hnl. rewrite Hnl, (IH2 Hrest). reflexivity.
Qed.





(** ** Session restore *)

Lemma restoredViewMode_3d saved a m :
  restoredViewMode saved a m = "3d" -> is_Some m.
Proof.
  unfold restoredViewMode, str_eqb.
  repeat case_bool_decide; simpl; intros Heq; subst; done.
Qed.

Lemma restoredViewMode_analyzed saved a m :
  restoredViewMode saved a m = "analyzed" -> is_Some a.
Proof.
  unfold restoredViewMode, str_eqb.
  repeat case_bool_decide; simpl; intros Heq; subst; done.
Qed.

(** The restored mode is the saved one or a fall-back. *)
Lemma restoredViewMode_cases saved a m :
  restoredViewMode saved a m = saved \/
  restoredViewMode saved a m = "analyzed" \/
  restoredViewMode saved a m = "original".
Proof.
  unfold restoredViewMode, str_eqb.
  repeat case_bool_decide; simpl; auto.
Qed.

(** A saved mode that is none of the three modes is kept as it is. *)
Lemma restoredViewMode_unknown saved a m :
  saved <> "analyzed" -> saved <> "3d" -> restoredViewMode saved a m = saved.
Proof.
  unfold restoredViewMode, str_eqb. intros H1 H2.
  repeat case_bool_decide; simpl; done.
Qed.

Lemma restoredImageIndex_bounds saved (imgs : list DicomImage) :
  (imgs = [] -> restoredImageIndex saved imgs = 0) /\
  (imgs <> [] -> 0 <= restoredImageIndex saved imgs <= Z.of_nat (length imgs) - 1).
Proof.
  unfold restoredImageIndex, js_min, js_max, js_ge0.
  split.
  - intros ->. destruct saved as [z|]; simpl; [|done].
    destruct (0 <=? _) eqn:Hc; [|done].
    apply Z.leb_le in Hc. lia.
  - intros Hne. assert (0 < length imgs)%nat by (destruct imgs; simpl; [done|lia]).
    destruct saved as [z|]; simpl; [|lia].
    destruct (0 <=? _) eqn:Hc; [|lia].
    apply Z.leb_le in Hc. lia.
Qed.

(** C9 (amended): after [initialize], started from the initial store, a
    view mode ['3d'] comes with a model and a view mode ['analyzed'] comes
    with an analysis result, whatever the storage held and the back end
    answered; the mode is the saved one or ['analyzed'] or ['original'], and
    it is one of the three modes when the saved one is.  When the saved
    series is restored, a saved ['3d'] without a model falls back to
    ['analyzed'] if there is an analysis result and to ['original'] if
    there is none, a saved ['analyzed'] without a result falls back to
    ['original'], and a saved string that is neither of the two is taken
    over as it is: the cast in [loadViewState] checks nothing, so a string
    that is no view mode at all is restored without any fallback. *)
Theorem C9_restored_view_mode_consistent (env : InitEnv) (ls : Storage) :
  let s := store (initialize env (mkWorld initial_store ls)) in
  (viewMode s = "3d" -> is_Some (modelInfo s)) /\
  (viewMode s = "analyzed" -> is_Some (analysisResult s)) /\
  (viewMode s = vs_viewMode (loadViewState ls) \/
   viewMode s = "analyzed" \/ viewMode s = "original") /\
  (valid_mode (vs_viewMode (loadViewState ls)) -> valid_mode (viewMode s)) /\
  (forall result uid sel imgs,
     env_init env = Some result ->
     vs_seriesUid (loadViewState ls) = Some uid -> str_truthy uid = true ->
     List.find (fun x => str_eqb (series_uid x) uid) (default [] (ir_series result))
     = Some sel ->
     env_images env (series_uid sel) = Some imgs ->
     (vs_viewMode (loadViewState ls) = "3d" -> env_model env (series_uid sel) = None ->
      viewMode s = match env_analysis env (series_uid sel) with
                   | Some _ => "analyzed"
                   | None => "original"
                   end) /\
     (vs_viewMode (loadViewState ls) = "analyzed" ->
      env_analysis env (series_uid sel) = None -> viewMode s = "original") /\
     (vs_viewMode (loadViewState ls) <> "3d" ->
      vs_viewMode (loadViewState ls) <> "analyzed" ->
      viewMode s = vs_viewMode (loadViewState ls))).
Proof.
  cbv zeta. split; [|split; [|split; [|split]]].
  - init_cases env ls; try discriminate. apply restoredViewMode_3d.
  - init_cases env ls; try discriminate. apply restoredViewMode_analyzed.
  - init_cases env ls; auto. apply restoredViewMode_cases.
  - intros Hv.
    assert (Ho : valid_mode "original") by (by left).
    assert (Ha : valid_mode "analyzed") by (right; by left).
    init_cases env ls; try exact Ho.
    destruct (restoredViewMode_cases (vs_viewMode (loadViewState ls))
                (env_analysis env (series_uid savedSeries))
                (env_model env (series_uid savedSeries))) as [->|[->| ->]]; done.
  - intros result uid sel imgs Hinit Huid Htr Hfind Himgs.
    assert (Hlen : (0 <? Z.of_nat (length (default [] (ir_series result)))) = true).
    { destruct (default [] (ir_series result)); [discriminate Hfind|reflexivity]. }
    unfold initialize. cbn [store storage].
    rewrite Hinit, Huid, Htr, Hlen, Hfind, Himgs. cbn [andb].
    unfold initial_store. store_simpl.
    unfold restoredViewMode, str_eqb.
    split; [|split].
    + intros -> ->.
      rewrite (bool_decide_eq_false_2 ("3d" = "analyzed")) by discriminate.
      rewrite (bool_decide_eq_true_2 ("3d" = "3d")) by reflexivity.
      rewrite (bool_decide_eq_false_2 (is_Some None)) by (by intros [? ?]).
      cbn [andb negb].
      destruct (env_analysis env (series_uid sel)) as [a|].
      * by rewrite bool_decide_eq_true_2 by (by eexists).
      * by rewrite bool_decide_eq_false_2 by (by intros [? ?]).
    + intros -> ->.
      rewrite (bool_decide_eq_true_2 ("analyzed" = "analyzed")) by reflexivity.
      rewrite (bool_decide_eq_false_2 (is_Some None)) by (by intros [? ?]).
      cbn [andb negb].
      by rewrite (bool_decide_eq_false_2 ("original" = "3d")) by discriminate.
    + intros H3 Ha. rewrite (bool_decide_eq_false_2 _ Ha). cbn [andb].
      by rewrite (bool_decide_eq_false_2 _ H3).
Qed.

Lemma C9_restored_view_mode_consistent_witness :
  viewMode (store (initialize sample_env (mkWorld initial_store sample_storage))) = "analyzed" /\
  is_Some (analysisResult (store (initialize sample_env (mkWorld initial_store sample_storage)))).
Proof.
  assert (Hvm : viewMode (store (initialize sample_env (mkWorld initial_store sample_storage)))
                = "analyzed") by (vm_compute; reflexivity).
  split; [exact Hvm|].
  exact (proj1 (proj2
    (C9_restored_view_mode_consistent sample_env sample_storage)) Hvm).
Defined.

(** C9 as stated fails: with a stored view mode that is none of the three
    modes, [initialize] restores the saved series and takes the string over
    as the view mode; there is no fallback to ['analyzed'] or ['original']. *)
Lemma C9_counterexample :
  vs_viewMode (loadViewState bogus_storage) = "bogus" /\
  ~ valid_mode (vs_viewMode (loadViewState bogus_storage)) /\
  selectedSeries (store (initialize sample_env (mkWorld initial_store bogus_storage)))
  = Some sample_series /\
  viewMode (store (initialize sample_env (mkWorld initial_store bogus_storage))) = "bogus" /\
  viewMode (store (initialize sample_env (mkWorld initial_store bogus_storage))) <> "analyzed" /\
  viewMode (store (initialize sample_env (mkWorld initial_store bogus_storage))) <> "original".
Proof.
  assert (Hvm : viewMode (store (initialize sample_env (mkWorld initial_store bogus_storage)))
                = "bogus") by (vm_compute; reflexivity).
  rewrite Hvm.
  split; [vm_compute; reflexivity|].
  split; [intros [H|[H|H]]; vm_compute in H; discriminate H|].
  split; [vm_compute; reflexivity|].
  repeat split; discriminate.
Qed.

(** C10: after [initialize], started from the initial store, the slice
    index is 0 when there are no images and lies between 0 and the last
    image otherwise, whatever the storage held for it. *)
Theorem C10_restored_index_in_bounds (env : InitEnv) (ls : Storage) :
  let s := store (initialize env (mkWorld initial_store ls)) in
  (images s = [] -> selectedImageIndex s = 0) /\
  (images s <> [] -> 0 <= selectedImageIndex s <= Z.of_nat (length (images s)) - 1).
Proof.
  init_cases env ls; try (split; [reflexivity | congruence]).
  apply restoredImageIndex_bounds.
Qed.

Lemma C10_restored_index_in_bounds_witness :
  images (store (initialize sample_env (mkWorld initial_store sample_storage))) = sample_images /\
  0 <= selectedImageIndex (store (initialize sample_env (mkWorld initial_store sample_storage)))
    <= 2.
Proof.
  assert (Himg : images (store (initialize sample_env (mkWorld initial_store sample_storage)))
                 = sample_images) by (vm_compute; reflexivity).
  split; [exact Himg|].
  pose proof (proj2 (C10_restored_index_in_bounds sample_env sample_storage)) as Hb.
  cbv zeta in Hb. rewrite Himg in Hb. apply Hb. discriminate.
Defined.

(** The saved index 7 is clamped to the last of the three images; a saved
    index that is not a number, or is negative, gives 0. *)
Example restoredImageIndex_examples :
  restoredImageIndex (parseInt10 "7") sample_images = 2 /\
  restoredImageIndex (parseInt10 "abc") sample_images = 0 /\
  restoredImageIndex (parseInt10 "-4") sample_images = 0 /\
  restoredImageIndex (parseInt10 "1") sample_images = 1 /\
  restoredImageIndex (parseInt10 "5") [] = 0.
Proof. repeat split. Qed.

(** ** Statistics *)

Section Stats.
Import StatsAggregator.
Open Scope Q_scope.

Lemma fat_percentage_zero (v s : Q) : v + s == 0 -> fat_percentage v s == 0.
Proof.
  intros Hz. unfold fat_percentage.
  apply Qeq_bool_iff in Hz. by rewrite Hz.
Qed.

Lemma fat_percentage_nonzero (v s : Q) :
  ~ v + s == 0 -> fat_percentage v s == v / (v + s) * 100.
Proof.
  intros Hnz. unfold fat_percentage.
  destruct (Qeq_bool (v + s) 0) eqn:Hb; [|reflexivity].
  apply Qeq_bool_iff in Hb. contradiction.
Qed.

(** C2: the percentage the aggregator reports is the visceral volume
    over the sum of both volumes, times 100, and 0 when that sum is zero;
    on the three-slice example the visceral area is 1 cm2 on every slice,
    the visceral volume 0.6 cm3, the subcutaneous volume 0 and the
    percentage 100. *)
Theorem C2_fat_percentage (sp : Spacing) (slices : list SliceMask) :
  let r := aggregate sp slices in
  let v := total_visceral_fat_volume r in
  let s := total_subcutaneous_fat_volume r in
  (v + s == 0 -> visceral_fat_percentage r == 0) /\
  (~ v + s == 0 -> visceral_fat_percentage r == v / (v + s) * 100) /\
  (let e := aggregate example_spacing example_slices in
   total_visceral_fat_volume e == 6 # 10 /\
   total_subcutaneous_fat_volume e == 0 /\
   visceral_fat_percentage e == 100 /\
   Forall (fun st => visceral_fat_area_cm2 st == 1) (slice_stats e)).
Proof.
  cbv zeta. split; [|split].
  - apply fat_percentage_zero.
  - apply fat_percentage_nonzero.
  - repeat split. repeat constructor.
Qed.

Lemma C2_fat_percentage_witness :
  visceral_fat_percentage (aggregate example_spacing example_slices)
  == (6 # 10) / ((6 # 10) + 0) * 100.
Proof.
  pose proof (proj1 (proj2 (C2_fat_percentage example_spacing example_slices))) as H.
  cbv zeta in H. rewrite H; [reflexivity|]. vm_compute. discriminate.
Defined.

End Stats.

(** * Further properties *)

(** ** The saved view state *)

Lemma digit_of_pretty_N_char (d : N) :
  (d < 10)%N -> digit_of (pretty_N_char d) = Some (Z.of_N d).
Proof.
  intros Hd.
  assert (d = 0 \/ d = 1 \/ d = 2 \/ d = 3 \/ d = 4 \/ d = 5 \/ d = 6 \/ d = 7
          \/ d = 8 \/ d = 9)%N as Hc by lia.
  repeat (destruct Hc as [->|Hc]; [reflexivity|]). by subst.
Qed.

(** Reading back the digits of a positive number, whatever was read before
    them and whatever follows. *)
Lemma read_digits_pretty_N_go (x : N) :
  (0 < x)%N ->
  forall (acc : option Z) (s : string),
    exists k : Z, 0 <= k /\
      read_digits acc (pretty_N_go x s)
      = read_digits (Some (default 0 acc * 10 ^ k + Z.of_N x)) s.
Proof.
  induction (N.lt_wf_0 x) as [x _ IH]. intros Hx acc s.
  rewrite pretty_N_go_step by done.
  assert (Hd : (x `mod` 10 < 10)%N) by (apply N.mod_lt; lia).
  assert (Hx10 : Z.of_N x = 10 * Z.of_N (x `div` 10) + Z.of_N (x `mod` 10)).
  { rewrite (N.div_mod x 10) at 1 by lia. lia. }
  destruct (decide (x `div` 10 = 0)%N) as [Hz|Hnz].
  - rewrite Hz, pretty_N_go_0. exists 1. split; [lia|].
    cbn [read_digits]. rewrite digit_of_pretty_N_char by done.
    f_equal. f_equal. rewrite Hx10, Hz. change (10 ^ 1) with 10. unfold id. ring.
  - destruct (IH (x `div` 10)%N) with (acc := acc)
        (s := String (pretty_N_char (x `mod` 10)) s) as (k & Hk & ->).
    { apply N.div_lt; lia. }
    { lia. }
    exists (k + 1). split; [lia|].
    cbn [read_digits]. rewrite digit_of_pretty_N_char by done.
    cbn [default]. f_equal. f_equal.
    rewrite Z.pow_add_r by lia. rewrite Hx10. change (10 ^ 1) with 10. unfold id. ring.
Qed.

(** The text of a positive number starts with a digit. *)
Lemma pretty_N_go_head (x : N) :
  (0 < x)%N ->
  forall s, exists c rest, pretty_N_go x s = String c rest /\ is_Some (digit_of c).
Proof.
  induction (N.lt_wf_0 x) as [x _ IH]. intros Hx s.
  rewrite pretty_N_go_step by done.
  assert (Hd : (x `mod` 10 < 10)%N) by (apply N.mod_lt; lia).
  destruct (decide (x `div` 10 = 0)%N) as [Hz|Hnz].
  - rewrite Hz, pretty_N_go_0. eexists _, _. split; [reflexivity|].
    rewrite digit_of_pretty_N_char by done. eauto.
  - apply IH; [apply N.div_lt; lia | by apply N.neq_0_lt_0].
Qed.

Lemma parseInt10_digits (c : ascii) (rest : string) :
  is_Some (digit_of c) -> parseInt10 (String c rest) = read_digits None (String c rest).
Proof.
  intros [d Hd]. unfold parseInt10.
  assert (Hsp : is_js_space c = false).
  { revert Hd. unfold digit_of, is_js_space.
    destruct (_ && _) eqn:Hr; [|done]. intros _.
    apply andb_prop in Hr as [H1%Z.leb_le H2%Z.leb_le].
    apply orb_false_intro; [apply andb_false_intro2|]; apply Nat.leb_gt || apply Nat.eqb_neq; lia. }
  cbn [skip_space]. rewrite Hsp.
  destruct (decide (c = "-"%char)) as [->|Hm]; [by vm_compute in Hd|].
  destruct (decide (c = "+"%char)) as [->|Hp]; [by vm_compute in Hd|].
  destruct c as [[] [] [] [] [] [] [] []]; try done.
Qed.

Lemma parseInt10_pretty_pos (p : positive) : parseInt10 (pretty (Zpos p)) = Some (Zpos p).
Proof.
  change (pretty (Zpos p)) with (pretty_N_go (Npos p) EmptyString).
  destruct (pretty_N_go_head (Npos p)) with (s := EmptyString) as (c & rest & Heq & Hc); [lia|].
  rewrite Heq, parseInt10_digits by done. rewrite <- Heq.
  destruct (read_digits_pretty_N_go (Npos p)) with (acc := @None Z) (s := EmptyString)
    as (k & _ & ->); [lia|].
  cbn [read_digits default]. f_equal.
Qed.

Lemma parseInt10_of_pretty (i : Z) : parseInt10 (pretty i) = Some i.
Proof.
  destruct i as [|p|p].
  - reflexivity.
  - apply parseInt10_pretty_pos.
  - change (pretty (Zneg p)) with (String "-" (pretty_N_go (Npos p) EmptyString)).
    unfold parseInt10. cbn [skip_space].
    change (is_js_space "-") with false. cbv iota.
    destruct (read_digits_pretty_N_go (Npos p)) with (acc := @None Z) (s := EmptyString)
      as (k & _ & Hr); [lia|].
    change (String "-" (pretty_N_go (N.pos p) "")) with
      (String (Ascii true false true true false true false false) (pretty_N_go (N.pos p) "")).
    cbv iota. rewrite Hr. reflexivity.
Qed.

(** X1: [parseInt(String(i), 10)] is [i]: the decimal text [saveViewState]
    writes for an integer (plain decimal, as [String] gives it below 10^21)
    is read back by [loadViewState] as that integer, so two different
    indices are never saved as texts that read alike. *)
Theorem parseInt10_pretty (i j : Z) :
  parseInt10 (pretty i) = Some i /\
  (parseInt10 (pretty i) = parseInt10 (pretty j) -> i = j).
Proof.
  split; [apply parseInt10_of_pretty|].
  rewrite !parseInt10_of_pretty. by intros [= ->].
Qed.

Lemma parseInt10_pretty_witness :
  parseInt10 (pretty (-12)) = Some (-12) /\ 7 = 7.
Proof.
  split.
  - exact (proj1 (parseInt10_pretty (-12) 0)).
  - exact (proj2 (parseInt10_pretty 7 7) eq_refl).
Defined.

Lemma storage_keys_distinct :
  key_selectedSeriesUid <> key_viewMode /\
  key_selectedSeriesUid <> key_selectedImageIndex /\
  key_viewMode <> key_selectedImageIndex.
Proof. repeat split; discriminate. Qed.

Lemma str_or_truthy (s d : string) : str_truthy s = true -> str_or (Some s) d = s.
Proof. unfold str_or. by intros ->. Qed.

Lemma str_truthy_pretty (i : Z) : str_truthy (pretty i) = true.
Proof.
  destruct (pretty i) eqn:Hp; [|done].
  pose proof (parseInt10_of_pretty i) as H. rewrite Hp in H. discriminate H.
Qed.

Lemma loadViewState_after_save (m : gmap string string) (u : option string)
    (mode : ViewMode) (i : Z) :
  str_truthy mode = true ->
  loadViewState (saveViewState u mode i (Some m))
  = {| vs_seriesUid := saved_uid u; vs_viewMode := mode; vs_imageIndex := Some i |}.
Proof.
  intros Hmode. destruct storage_keys_distinct as (H12 & H13 & H23).
  unfold saveViewState, loadViewState, saved_uid.
  rewrite lookup_insert_eq.
  rewrite (lookup_insert_ne _ key_selectedImageIndex key_viewMode) by done.
  rewrite lookup_insert_eq.
  rewrite (lookup_insert_ne _ key_selectedImageIndex key_selectedSeriesUid) by done.
  rewrite (lookup_insert_ne _ key_viewMode key_selectedSeriesUid) by done.
  rewrite (str_or_truthy mode) by done.
  rewrite (str_or_truthy (pretty i)) by apply str_truthy_pretty.
  rewrite parseInt10_of_pretty.
  f_equal.
  destruct u as [s|]; [destruct (str_truthy s)|].
  - apply lookup_insert_eq.
  - apply lookup_delete_eq.
  - apply lookup_delete_eq.
Qed.

(** X2: what [saveViewState] writes into an available storage is what
    [loadViewState] reads back: the uid (none for a null or empty uid), the
    view mode and the slice index, whatever the storage held before; an
    unavailable storage stays unavailable and reads as the defaults. *)
Theorem loadViewState_saveViewState (m : gmap string string) (u : option string)
    (mode : ViewMode) (i : Z) :
  str_truthy mode = true ->
  loadViewState (saveViewState u mode i (Some m))
  = {| vs_seriesUid := saved_uid u; vs_viewMode := mode; vs_imageIndex := Some i |} /\
  loadViewState (saveViewState u mode i None)
  = {| vs_seriesUid := None; vs_viewMode := "original"; vs_imageIndex := Some 0 |}.
Proof. intros Hmode. split; [by apply loadViewState_after_save|reflexivity]. Qed.

Lemma loadViewState_saveViewState_witness :
  loadViewState (saveViewState (Some "S1") "3d" 7 (Some ∅))
  = {| vs_seriesUid := Some "S1"; vs_viewMode := "3d"; vs_imageIndex := Some 7 |}.
Proof. exact (proj1 (loadViewState_saveViewState ∅ (Some "S1") "3d" 7 eq_refl)). Defined.

(** ** Restarting the application *)

Lemma find_some_nonempty {A} (f : A -> bool) (l : list A) (x : A) :
  List.find f l = Some x -> (0 <? Z.of_nat (length l)) = true.
Proof. destruct l; [done|]. intros _. apply Z.ltb_lt. simpl. lia. Qed.

Lemma restoredImageIndex_in_range (i : Z) (imgs : list DicomImage) :
  0 <= i < Z.of_nat (length imgs) -> restoredImageIndex (Some i) imgs = i.
Proof.
  intros Hi. unfold restoredImageIndex, js_min, js_max, js_ge0.
  rewrite Z.max_r, Z.min_l by lia.
  destruct (0 <=? i) eqn:Hc; [done|]. apply Z.leb_gt in Hc. lia.
Qed.

Lemma restoredViewMode_backed (mode : ViewMode) a m :
  mode = "original" \/ (mode = "analyzed" /\ is_Some a) \/ (mode = "3d" /\ is_Some m) ->
  restoredViewMode mode a m = mode.
Proof.
  unfold restoredViewMode, str_eqb.
  intros [->|[[-> Ha]|[-> Hm]]]; repeat case_bool_decide; simpl; done.
Qed.

(** What [initialize] does when the storage names a series the back end
    still lists and whose images it serves. *)
Lemma initialize_restores (env : InitEnv) (result : InitResult) (w : World)
    (uid : string) (sel : DicomSeries) (imgs : list DicomImage) :
  env_init env = Some result ->
  vs_seriesUid (loadViewState (storage w)) = Some uid ->
  str_truthy uid = true ->
  List.find (fun s => str_eqb (series_uid s) uid) (default [] (ir_series result)) = Some sel ->
  env_images env (series_uid sel) = Some imgs ->
  let s := store (initialize env w) in
  selectedSeries s = Some sel /\ images s = imgs /\
  selectedImageIndex s = restoredImageIndex (vs_imageIndex (loadViewState (storage w))) imgs /\
  analysisResult s = env_analysis env (series_uid sel) /\
  modelInfo s = env_model env (series_uid sel) /\
  viewMode s = restoredViewMode (vs_viewMode (loadViewState (storage w)))
                 (env_analysis env (series_uid sel)) (env_model env (series_uid sel)) /\
  isLoading s = false /\ error s = None.
Proof.
  intros Hinit Huid Htr Hfind Himgs. unfold initialize.
  rewrite Hinit, Huid, Htr, (find_some_nonempty _ _ _ Hfind), Hfind, Himgs.
  cbn [andb]. destruct_world w. by repeat split.
Qed.

(** X3: a restart brings back the view that was left: after a series has
    been selected, a view mode chosen and the slider moved, [initialize] on
    a fresh store with the storage so written selects that series again,
    with its images; the slice index is the saved one when it still points
    into the image stack (clamped otherwise), and the view mode is the saved
    one when the artifact it shows still exists. *)
Theorem restart_restores_view (env : InitEnv) (result : InitResult) (senv : SelectEnv)
    (sel : DicomSeries) (mode : ViewMode) (i : Z) (w : World)
    (m0 : gmap string string) (simgs imgs : list DicomImage)
    (Hstorage : storage w = Some m0)
    (Hsimgs : sel_images senv = Some simgs)
    (Huid : str_truthy (series_uid sel) = true)
    (Hmode : str_truthy mode = true)
    (Hinit : env_init env = Some result)
    (Hfind : List.find (fun s => str_eqb (series_uid s) (series_uid sel))
               (default [] (ir_series result)) = Some sel)
    (Himgs : env_images env (series_uid sel) = Some imgs) :
  let w1 := setSelectedImageIndex i (setViewMode mode (selectSeries senv sel w)) in
  let s := store (initialize env (mkWorld initial_store (storage w1))) in
  selectedSeries s = Some sel /\ images s = imgs /\
  selectedImageIndex s = restoredImageIndex (Some i) imgs /\
  (0 <= i < Z.of_nat (length imgs) -> selectedImageIndex s = i) /\
  viewMode s = restoredViewMode mode (env_analysis env (series_uid sel))
                 (env_model env (series_uid sel)) /\
  (mode = "original" \/
   (mode = "analyzed" /\ is_Some (env_analysis env (series_uid sel))) \/
   (mode = "3d" /\ is_Some (env_model env (series_uid sel))) ->
   viewMode s = mode).
Proof.
  cbv zeta.
  assert (Hst : exists m1, storage (setSelectedImageIndex i
                  (setViewMode mode (selectSeries senv sel w)))
                = saveViewState (Some (series_uid sel)) mode i (Some m1)).
  { unfold setSelectedImageIndex, setViewMode, selectSeries.
    rewrite Hsimgs, Hstorage. destruct_world w.
    unfold saveViewState at 2 3. eexists. reflexivity. }
  destruct Hst as [m1 Hst]. rewrite Hst.
  pose proof (loadViewState_after_save m1 (Some (series_uid sel)) mode i Hmode) as Hload.
  unfold saved_uid in Hload. rewrite Huid in Hload.
  destruct (initialize_restores env result
              (mkWorld initial_store (saveViewState (Some (series_uid sel)) mode i (Some m1)))
              (series_uid sel) sel imgs) as (H1 & H2 & H3 & H4 & H5 & H6 & _); try done.
  { cbn [storage]. by rewrite Hload. }
  cbn [storage] in H3, H6. rewrite Hload in H3, H6. cbn [vs_imageIndex vs_viewMode] in H3, H6.
  split; [done|]. split; [done|]. split; [done|].
  split; [intros Hi; rewrite H3; by apply restoredImageIndex_in_range|].
  split; [done|].
  intros Hb. rewrite H6. by apply restoredViewMode_backed.
Qed.

Lemma restart_restores_view_witness :
  let w1 := setSelectedImageIndex 1
              (setViewMode "analyzed"
                 (selectSeries analyzed_env sample_series (mkWorld initial_store (Some ∅)))) in
  let s := store (initialize sample_env (mkWorld initial_store (storage w1))) in
  selectedSeries s = Some sample_series /\ selectedImageIndex s = 1 /\ viewMode s = "analyzed".
Proof.
  cbv zeta.
  destruct (restart_restores_view sample_env
              (mkInitResult (Some [sample_series]) (Some ["S1"]) None)
              analyzed_env sample_series "analyzed" 1 (mkWorld initial_store (Some ∅)) ∅
              sample_images sample_images)
    as (H1 & _ & _ & H4 & _ & H6); try reflexivity.
  split; [exact H1|]. split.
  - apply H4. simpl. lia.
  - apply H6. right. left. split; [reflexivity|]. by eexists.
Defined.

(** A callback that arrives when no series is selected and is not a
    complete event with a payload leaves the storage, the selection, the
    images, the artifacts and the view mode alone. *)
Lemma run_callback_unselected (c : Callback) (w : World) :
  not_completing c -> selectedSeries (store w) = None ->
  let w' := run_callback c w in
  storage w' = storage w /\ selectedSeries (store w') = None /\
  analysisResult (store w') = analysisResult (store w) /\
  modelInfo (store w') = modelInfo (store w) /\ images (store w') = images (store w) /\
  analyzedSeriesIds (store w') = analyzedSeriesIds (store w) /\
  modelSeriesIds (store w') = modelSeriesIds (store w) /\
  viewMode (store w') = viewMode (store w).
Proof.
  destruct c as [sel p|r]; cbn [not_completing run_callback].
  - unfold is_complete, analyze_onProgress. destruct_world w.
    intros Hc ->. destruct (ptype p), (data p); try discriminate Hc; by repeat split.
  - intros _ Hsel. unfold pollStatus_once. rewrite Hsel. by repeat split.
Qed.

Lemma run_callbacks_unselected (cs : list Callback) (w : World) :
  Forall not_completing cs -> selectedSeries (store w) = None ->
  let w' := run_callbacks cs w in
  storage w' = storage w /\ selectedSeries (store w') = None /\
  analysisResult (store w') = analysisResult (store w) /\
  modelInfo (store w') = modelInfo (store w) /\ images (store w') = images (store w) /\
  analyzedSeriesIds (store w') = analyzedSeriesIds (store w) /\
  modelSeriesIds (store w') = modelSeriesIds (store w) /\
  viewMode (store w') = viewMode (store w).
Proof.
  intros Hall. revert w. induction Hall as [|c cs Hc _ IH]; intros w Hsel.
  - by repeat split.
  - cbn [run_callbacks fold_left].
    destruct (run_callback_unselected c w Hc Hsel) as (H1 & H2 & H3 & H4 & H5 & H6 & H7 & H8).
    destruct (IH _ H2) as (I1 & I2 & I3 & I4 & I5 & I6 & I7 & I8).
    unfold run_callbacks in *.
    rewrite I1, I3, I4, I5, I6, I7, I8, H1, H3, H4, H5, H6, H7, H8. by repeat split.
Qed.

Lemma uploadZipFile_parts (r : Fetched LoadResult) (w : World) :
  uploadZipFile r w = uploadZipFile_end r (uploadZipFile_begin w).
Proof. unfold uploadZipFile, uploadZipFile_end, uploadZipFile_begin. by destruct r. Qed.

Lemma uploadZipFile_begin_resets (w : World) :
  let w' := uploadZipFile_begin w in
  storage w' = saveViewState None "original" 0 (storage w) /\
  selectedSeries (store w') = None /\ analysisResult (store w') = None /\
  modelInfo (store w') = None /\ images (store w') = [] /\
  analyzedSeriesIds (store w') = ∅ /\ modelSeriesIds (store w') = ∅ /\
  viewMode (store w') = "original".
Proof. unfold uploadZipFile_begin. destruct_world w. by repeat split. Qed.

Lemma uploadZipFile_end_frame (r : Fetched LoadResult) (w : World) :
  let w' := uploadZipFile_end r w in
  storage w' = storage w /\ selectedSeries (store w') = selectedSeries (store w) /\
  analysisResult (store w') = analysisResult (store w) /\
  modelInfo (store w') = modelInfo (store w) /\ images (store w') = images (store w) /\
  analyzedSeriesIds (store w') = analyzedSeriesIds (store w) /\
  modelSeriesIds (store w') = modelSeriesIds (store w) /\
  viewMode (store w') = viewMode (store w).
Proof. unfold uploadZipFile_end. destruct_world w. destruct r; by repeat split. Qed.

(** X4: [uploadZipFile] resets the session and removes the saved uid,
    whatever the upload answered and whatever the storage held, and the
    session stays reset under every callback of an earlier job that runs
    while the upload is awaited or after it, except a complete event: a
    restart then selects no series and restores nothing.  The upload does
    not cancel a running analysis: when its complete event arrives after
    the upload, the result is stored, the view switches to the analyzed one
    and the uid of the series the analysis was started for is saved again,
    with no series selected. *)
Theorem upload_resets_until_late_complete (r : Fetched LoadResult) (w : World)
    (env : InitEnv) (during after : list Callback) :
  uploadZipFile r w = uploadZipFile_end r (uploadZipFile_begin w) /\
  (Forall not_completing during -> Forall not_completing after ->
   let w1 := run_callbacks after
               (uploadZipFile_end r (run_callbacks during (uploadZipFile_begin w))) in
   let s := store (initialize env (mkWorld initial_store (storage w1))) in
   vs_seriesUid (loadViewState (storage w1)) = None /\
   selectedSeries (store w1) = None /\ analysisResult (store w1) = None /\
   modelInfo (store w1) = None /\ images (store w1) = [] /\
   analyzedSeriesIds (store w1) = ∅ /\ modelSeriesIds (store w1) = ∅ /\
   viewMode (store w1) = "original" /\
   selectedSeries s = None /\ images s = [] /\ analysisResult s = None /\
   modelInfo s = None /\ viewMode s = "original") /\
  (forall sel p d m,
     storage w = Some m -> str_truthy (series_uid sel) = true ->
     ptype p = PComplete -> data p = Some d ->
     let w2 := run_callback (OnProgress sel p) (uploadZipFile r w) in
     vs_seriesUid (loadViewState (storage w2)) = Some (series_uid sel) /\
     analysisResult (store w2) = Some d /\ viewMode (store w2) = "analyzed" /\
     series_uid sel ∈ analyzedSeriesIds (store w2) /\
     selectedSeries (store w2) = None /\ images (store w2) = []).
Proof.
  split; [apply uploadZipFile_parts|]. split.
  - intros Hd Ha. cbv zeta.
    destruct (uploadZipFile_begin_resets w) as (B1 & B2 & B3 & B4 & B5 & B6 & B7 & B8).
    destruct (run_callbacks_unselected during _ Hd B2)
      as (D1 & D2 & D3 & D4 & D5 & D6 & D7 & D8).
    destruct (uploadZipFile_end_frame r (run_callbacks during (uploadZipFile_begin w)))
      as (E1 & E2 & E3 & E4 & E5 & E6 & E7 & E8).
    rewrite D2 in E2.
    destruct (run_callbacks_unselected after _ Ha E2)
      as (R1 & R2 & R3 & R4 & R5 & R6 & R7 & R8).
    rewrite R1, R3, R4, R5, R6, R7, R8, E1, E3, E4, E5, E6, E7, E8,
      D1, D3, D4, D5, D6, D7, D8, B1, B3, B4, B5, B6, B7, B8.
    assert (Hload : vs_seriesUid (loadViewState (saveViewState None "original" 0 (storage w)))
                    = None).
    { destruct (storage w) as [m|]; [|reflexivity].
      rewrite (loadViewState_after_save m None "original" 0 eq_refl); reflexivity. }
    assert (Hst : forall ls, vs_seriesUid (loadViewState ls) = None ->
              let s := store (initialize env (mkWorld initial_store ls)) in
              selectedSeries s = None /\ images s = [] /\ analysisResult s = None /\
              modelInfo s = None /\ viewMode s = "original").
    { intros ls Hls. unfold initialize. cbn [storage]. rewrite Hls.
      destruct (env_init env); by repeat split. }
    specialize (Hst _ Hload). cbv zeta in Hst.
    repeat split; try done; apply Hst.
  - intros sel p d m Hm Huid Hp Hd. cbv zeta.
    unfold run_callback, analyze_onProgress. rewrite Hp, Hd. cbn [fst].
    assert (Hls : exists m', storage (uploadZipFile r w) = Some m').
    { unfold uploadZipFile. destruct r; cbn [storage]; rewrite Hm;
        unfold saveViewState; by eexists. }
    destruct Hls as [m' Hls]. cbn [storage]. rewrite Hls.
    rewrite (loadViewState_after_save m' (Some (series_uid sel)) "analyzed" _ eq_refl).
    unfold saved_uid. rewrite Huid. clear Hls.
    unfold uploadZipFile. destruct_world w.
    destruct r; repeat split; try done; set_solver.
Qed.

Lemma upload_resets_until_late_complete_witness :
  selectedSeries
    (store (run_callbacks
              [PollTimer (PollOk (st_complete sample_model))]
              (uploadZipFile_end (Threw None)
                 (run_callbacks [OnProgress sample_series (ev_progress 2)]
                    (uploadZipFile_begin (mkWorld analyzed_store (Some ∅)))))))
  = None /\
  vs_seriesUid
    (loadViewState
       (storage (run_callback (OnProgress sample_series (ev_complete sample_result))
                   (uploadZipFile (Threw None) (mkWorld analyzed_store (Some ∅))))))
  = Some "S1".
Proof.
  pose proof (upload_resets_until_late_complete (Threw None)
                (mkWorld analyzed_store (Some ∅)) sample_env
                [OnProgress sample_series (ev_progress 2)]
                [PollTimer (PollOk (st_complete sample_model))]) as (_ & H1 & H2).
  split.
  - refine (proj1 (proj2 (H1 _ _))); repeat constructor.
  - exact (proj1 (H2 sample_series (ev_complete sample_result) sample_result ∅
                    eq_refl eq_refl eq_refl eq_refl)).
Defined.

(** ** Selecting a series *)

(** X5: when the images of the series arrive, [selectSeries] leaves the
    store consistent with what the back end has for the series: the view is
    the analyzed one exactly when there is an analysis result (never the 3D
    one), the slider is at the first slice, the series is tracked as
    analyzed or modelled when the artifact was found, and nothing is removed
    from the tracking sets. *)
Theorem selectSeries_loaded (env : SelectEnv) (sel : DicomSeries) (w : World)
    (imgs : list DicomImage) :
  sel_images env = Some imgs ->
  let s := store (selectSeries env sel w) in
  selectedSeries s = Some sel /\ images s = imgs /\ selectedImageIndex s = 0 /\
  analysisResult s = sel_analysis env /\ modelInfo s = sel_model env /\
  (viewMode s = "analyzed" <-> is_Some (sel_analysis env)) /\
  (viewMode s = "original" <-> sel_analysis env = None) /\
  (is_Some (sel_analysis env) -> series_uid sel ∈ analyzedSeriesIds s) /\
  (is_Some (sel_model env) -> series_uid sel ∈ modelSeriesIds s) /\
  analyzedSeriesIds (store w) ⊆ analyzedSeriesIds s /\
  modelSeriesIds (store w) ⊆ modelSeriesIds s /\
  isLoading s = false /\ error s = None.
Proof.
  intros Himgs. unfold selectSeries. rewrite Himgs. destruct_world w.
  destruct (sel_analysis env) as [a|], (sel_model env) as [m|];
    repeat case_bool_decide; try (exfalso; naive_solver);
    repeat split; try done; try (intros [? ?]; done); try set_solver.
Qed.

Lemma selectSeries_loaded_witness :
  viewMode (store (selectSeries analyzed_env sample_series (mkWorld initial_store None)))
  = "analyzed".
Proof.
  apply (proj1 (proj2 (proj2 (proj2 (proj2 (proj2
    (selectSeries_loaded analyzed_env sample_series (mkWorld initial_store None)
       sample_images eq_refl))))))).
  by eexists.
Defined.

(** X6: when the images request fails, [selectSeries] records the error and
    changes the selection only: the image stack, the slice index, the
    analysis result, the model and the view mode are still those of the
    series selected before, and nothing is written to the storage. *)
Theorem selectSeries_failed (env : SelectEnv) (sel : DicomSeries) (w : World) :
  sel_images env = None ->
  let w' := selectSeries env sel w in
  selectedSeries (store w') = Some sel /\
  error (store w') = Some (default "Failed to load series" (sel_images_error env)) /\
  isLoading (store w') = false /\
  images (store w') = images (store w) /\
  selectedImageIndex (store w') = selectedImageIndex (store w) /\
  analysisResult (store w') = analysisResult (store w) /\
  modelInfo (store w') = modelInfo (store w) /\
  viewMode (store w') = viewMode (store w) /\
  storage w' = storage w.
Proof.
  intros Himgs. unfold selectSeries. rewrite Himgs. destruct_world w. by repeat split.
Qed.

Lemma selectSeries_failed_witness :
  analysisResult
    (store (selectSeries (mkSelectEnv None (Some "Network Error") None None)
              (mkSeries "S2" "thorax" "CT" 5 None None None None None None)
              (mkWorld analyzed_store None)))
  = Some sample_result.
Proof.
  exact (proj1 (proj2 (proj2 (proj2 (proj2 (proj2
    (selectSeries_failed (mkSelectEnv None (Some "Network Error") None None)
       (mkSeries "S2" "thorax" "CT" 5 None None None None None None)
       (mkWorld analyzed_store None) eq_refl))))))).
Defined.

(** ** Running an analysis *)

(** What no progress event touches, and how the analyzed set may change. *)
Lemma analyze_onProgress_frame sel p w :
  let w' := fst (analyze_onProgress sel p w) in
  modelInfo (store w') = modelInfo (store w) /\
  modelSeriesIds (store w') = modelSeriesIds (store w) /\
  images (store w') = images (store w) /\
  selectedImageIndex (store w') = selectedImageIndex (store w) /\
  selectedSeries (store w') = selectedSeries (store w) /\
  analyzedSeriesIds (store w) ⊆ analyzedSeriesIds (store w') /\
  analyzedSeriesIds (store w') ⊆ analyzedSeriesIds (store w) ∪ {[series_uid sel]}.
Proof.
  unfold analyze_onProgress. destruct_world w.
  destruct (ptype p), (data p); cbn [fst]; store_simpl; repeat split; try done; set_solver.
Qed.

Lemma analyze_events_frame sel evs w :
  let w' := fst (analyze_events sel evs w) in
  modelInfo (store w') = modelInfo (store w) /\
  modelSeriesIds (store w') = modelSeriesIds (store w) /\
  images (store w') = images (store w) /\
  selectedImageIndex (store w') = selectedImageIndex (store w) /\
  selectedSeries (store w') = selectedSeries (store w) /\
  analyzedSeriesIds (store w) ⊆ analyzedSeriesIds (store w') /\
  analyzedSeriesIds (store w') ⊆ analyzedSeriesIds (store w) ∪ {[series_uid sel]}.
Proof.
  revert w. induction evs as [|p evs IH]; intros w.
  - cbn. repeat split; try done; set_solver.
  - cbn [analyze_events].
    pose proof (analyze_onProgress_frame sel p w) as Hp.
    destruct (analyze_onProgress sel p w) as [w1 fired]. cbn [fst] in Hp.
    specialize (IH w1). destruct (analyze_events sel evs w1) as [w2 n]. cbn [fst] in *.
    destruct Hp as (P1 & P2 & P3 & P4 & P5 & Hp1 & Hp2).
    destruct IH as (I1 & I2 & I3 & I4 & I5 & IH1 & IH2).
    rewrite I1, I2, I3, I4, I5, P1, P2, P3, P4, P5.
    repeat split; try done; set_solver.
Qed.

Lemma analyze_onProgress_complete sel p w :
  is_complete p = true ->
  series_uid sel ∈ analyzedSeriesIds (store (fst (analyze_onProgress sel p w))) /\
  is_Some (analysisResult (store (fst (analyze_onProgress sel p w)))).
Proof.
  unfold is_complete, analyze_onProgress. destruct_world w.
  destruct (ptype p), (data p); intros Hc; try discriminate Hc.
  cbn [fst]; store_simpl. split; [set_solver|by eexists].
Qed.

(** The callback of an analysis is the only thing [analyzeSeries] runs
    after its synchronous prefix. *)
Lemma run_callbacks_progress sel evs w :
  run_callbacks (map (OnProgress sel) evs) w = fst (analyze_events sel evs w).
Proof.
  revert w. induction evs as [|p evs IH]; intros w; [reflexivity|].
  cbn [map run_callbacks fold_left analyze_events run_callback].
  unfold run_callbacks in IH. rewrite IH.
  destruct (analyze_onProgress sel p w) as [w1 fired]. cbn [fst].
  by destruct (analyze_events sel evs w1).
Qed.

(** With no generation in progress, a callback leaves the model and its
    tracking set alone and removes neither a result nor a mark. *)
Lemma run_callback_idle (c : Callback) (w : World) :
  isGeneratingModel (store w) = false ->
  let w' := run_callback c w in
  isGeneratingModel (store w') = false /\
  modelInfo (store w') = modelInfo (store w) /\
  modelSeriesIds (store w') = modelSeriesIds (store w) /\
  analyzedSeriesIds (store w) ⊆ analyzedSeriesIds (store w') /\
  (is_Some (analysisResult (store w)) -> is_Some (analysisResult (store w'))).
Proof.
  destruct c as [sel p|r]; cbn [run_callback].
  - unfold analyze_onProgress. destruct_world w. intros ->.
    destruct (ptype p), (data p); cbn [fst]; store_simpl;
      repeat split; try done; try set_solver; by eexists.
  - intros Hgen. unfold pollStatus_once.
    destruct (selectedSeries (store w)); rewrite ?Hgen; by repeat split.
Qed.

Lemma run_callbacks_idle (cs : list Callback) (w : World) :
  isGeneratingModel (store w) = false ->
  let w' := run_callbacks cs w in
  isGeneratingModel (store w') = false /\
  modelInfo (store w') = modelInfo (store w) /\
  modelSeriesIds (store w') = modelSeriesIds (store w) /\
  analyzedSeriesIds (store w) ⊆ analyzedSeriesIds (store w') /\
  (is_Some (analysisResult (store w)) -> is_Some (analysisResult (store w'))).
Proof.
  revert w. induction cs as [|c cs IH]; intros w Hgen.
  - by repeat split.
  - cbn [run_callbacks fold_left].
    destruct (run_callback_idle c w Hgen) as (H1 & H2 & H3 & H4 & H5).
    destruct (IH _ H1) as (I1 & I2 & I3 & I4 & I5). unfold run_callbacks in *.
    rewrite I2, I3, H2, H3. repeat split; try done; [set_solver|auto].
Qed.

Lemma run_callbacks_completes (sel : DicomSeries) (cs : list Callback) (w : World) :
  isGeneratingModel (store w) = false ->
  Exists (completes sel) cs ->
  series_uid sel ∈ analyzedSeriesIds (store (run_callbacks cs w)) /\
  is_Some (analysisResult (store (run_callbacks cs w))).
Proof.
  intros Hgen Hex. revert w Hgen.
  induction Hex as [c cs Hc|c cs _ IH]; intros w Hgen; cbn [run_callbacks fold_left].
  - destruct c as [sel' p|r]; [|destruct Hc]. destruct Hc as [-> Hp].
    pose proof (analyze_onProgress_complete sel p w Hp) as [Hin Hres].
    destruct (run_callback_idle (OnProgress sel p) w Hgen) as (H1 & _).
    destruct (run_callbacks_idle cs _ H1) as (_ & _ & _ & I4 & I5).
    cbn [run_callback] in *. unfold run_callbacks in *. split; [set_solver|auto].
  - destruct (run_callback_idle c w Hgen) as (H1 & _). apply (IH _ H1).
Qed.

(** X7: a re-analysis discards the model of the series, and with no model
    generation in progress when it starts the model stays discarded under
    every run of callbacks that follows (progress events of this or an
    earlier analysis, stale poll timers): there is no model in the store,
    the series is not tracked as modelled while the other series keep their
    mark, and once the complete event of this analysis has arrived a result
    is stored and the status dot is the "analyzed" one.  The progress events
    alone give what [analyzeSeries] gives.  The re-analysis does not cancel
    a generation in progress: a poll of it that is answered [complete]
    during the re-analysis stores the model again, marks the series as
    modelled and shows the 3D view while the analysis is still running. *)
Theorem reanalysis_discards_model (cs : list Callback) (w : World) (sel : DicomSeries) :
  selectedSeries (store w) = Some sel ->
  (isGeneratingModel (store w) = false ->
   let s' := store (run_callbacks cs (fst (analyzeSeries_begin w))) in
   modelInfo s' = None /\
   modelSeriesIds s' = modelSeriesIds (store w) ∖ {[series_uid sel]} /\
   getSeriesStatus s' (series_uid sel) <> StatusModeled /\
   (Exists (completes sel) cs ->
    is_Some (analysisResult s') /\ getSeriesStatus s' (series_uid sel) = StatusAnalyzed)) /\
  (forall evs,
     run_callbacks (map (OnProgress sel) evs) (fst (analyzeSeries_begin w))
     = fst (analyzeSeries evs w)) /\
  (isGeneratingModel (store w) = true ->
   forall st d, status st = "complete" -> ms_data st = Some d ->
     let s' := store (run_callback (PollTimer (PollOk st)) (fst (analyzeSeries_begin w))) in
     modelInfo s' = Some d /\ getSeriesStatus s' (series_uid sel) = StatusModeled /\
     viewMode s' = "3d" /\ isAnalyzing s' = true).
Proof.
  intros Hsel. split; [|split].
  - intros Hgen. cbv zeta.
    unfold analyzeSeries_begin. rewrite Hsel. cbn [fst].
    set (w0 := mkWorld _ (storage w)).
    assert (Hw0 : isGeneratingModel (store w0) = false /\ modelInfo (store w0) = None /\
                  modelSeriesIds (store w0) = modelSeriesIds (store w) ∖ {[series_uid sel]}).
    { subst w0. revert Hgen. clear. by destruct_world w. }
    clearbody w0. destruct Hw0 as (Hg & Hm & Hids).
    destruct (run_callbacks_idle cs w0 Hg) as (_ & I2 & I3 & _).
    pose proof (run_callbacks_completes sel cs w0 Hg) as Hc.
    rewrite I2, I3, Hm, Hids.
    assert (Hnot : series_uid sel ∉ modelSeriesIds (store (run_callbacks cs w0))).
    { rewrite I3, Hids. set_solver. }
    split; [done|]. split; [done|].
    unfold getSeriesStatus. rewrite (bool_decide_eq_false_2 _ Hnot).
    split; [by destruct (bool_decide _)|].
    intros Hex. destruct (Hc Hex) as [Hin Hres]. split; [done|].
    by rewrite (bool_decide_eq_true_2 _ Hin).
  - intros evs. unfold analyzeSeries, analyzeSeries_begin. rewrite Hsel. cbn [fst].
    apply run_callbacks_progress.
  - intros Hgen st d Hst Hd. cbv zeta.
    unfold analyzeSeries_begin, run_callback, pollStatus_once. rewrite Hsel. cbn [fst].
    destruct_world w. subst. rewrite Hst, Hd.
    cbn [negb]. change (str_eqb "complete" "complete") with true. cbn [fst].
    unfold getSeriesStatus. store_simpl.
    rewrite bool_decide_eq_true_2 by set_solver. by repeat split.
Qed.

Lemma reanalysis_discards_model_witness :
  getSeriesStatus
    (store (run_callbacks
              [PollTimer (PollOk (st_complete sample_model));
               OnProgress sample_series (ev_progress 1);
               OnProgress sample_series (ev_complete sample_result)]
              (fst (analyzeSeries_begin (mkWorld analyzed_store None)))))
    "S1" = StatusAnalyzed /\
  getSeriesStatus
    (store (run_callback (PollTimer (PollOk (st_complete sample_model)))
              (fst (analyzeSeries_begin
                      (mkWorld (analyzed_store ▷ with_isGeneratingModel true) None)))))
    "S1" = StatusModeled.
Proof.
  split.
  - refine (proj2 (proj2 (proj2 (proj2 (proj1
      (reanalysis_discards_model
         [PollTimer (PollOk (st_complete sample_model));
          OnProgress sample_series (ev_progress 1);
          OnProgress sample_series (ev_complete sample_result)]
         (mkWorld analyzed_store None) sample_series eq_refl) eq_refl))) _)).
    apply Exists_cons_tl, Exists_cons_tl, Exists_cons_hd. split; reflexivity.
  - exact (proj1 (proj2 (proj2 (proj2
      (reanalysis_discards_model []
         (mkWorld (analyzed_store ▷ with_isGeneratingModel true) None)
         sample_series eq_refl)) eq_refl (st_complete sample_model) sample_model
      eq_refl eq_refl))).
Defined.

Lemma analyze_onProgress_flag sel p w :
  (is_terminal p = true -> isAnalyzing (store (fst (analyze_onProgress sel p w))) = false) /\
  (isAnalyzing (store w) = false ->
   isAnalyzing (store (fst (analyze_onProgress sel p w))) = false) /\
  (is_terminal p = true -> snd (analyze_onProgress sel p w) = true).
Proof.
  unfold is_terminal, analyze_onProgress. destruct_world w.
  destruct (ptype p), (data p); cbn [fst snd]; store_simpl; repeat split; done.
Qed.

Lemma analyze_events_flag_stays sel evs w :
  isAnalyzing (store w) = false ->
  isAnalyzing (store (fst (analyze_events sel evs w))) = false.
Proof.
  revert w. induction evs as [|p evs IH]; intros w Hw; [done|].
  cbn [analyze_events].
  pose proof (proj1 (proj2 (analyze_onProgress_flag sel p w)) Hw) as H1.
  destruct (analyze_onProgress sel p w) as [w1 fired]. cbn [fst] in H1.
  specialize (IH w1 H1). by destruct (analyze_events sel evs w1).
Qed.

Lemma analyze_events_terminal sel evs w :
  Exists (fun p => is_terminal p = true) evs ->
  isAnalyzing (store (fst (analyze_events sel evs w))) = false /\
  (1 <= snd (analyze_events sel evs w))%nat.
Proof.
  intros Hex. revert w. induction Hex as [p evs Hp|p evs _ IH]; intros w;
    cbn [analyze_events].
  - destruct (analyze_onProgress_flag sel p w) as (H1 & _ & H3).
    specialize (H1 Hp). specialize (H3 Hp).
    destruct (analyze_onProgress sel p w) as [w1 fired]. cbn [fst snd] in H1, H3. subst fired.
    pose proof (analyze_events_flag_stays sel evs w1 H1) as H2.
    destruct (analyze_events sel evs w1). cbn [fst snd] in *. split; [done|lia].
  - destruct (analyze_onProgress sel p w) as [w1 fired].
    specialize (IH w1). destruct (analyze_events sel evs w1). cbn [fst snd] in *.
    split; [apply IH|]. destruct IH as [_ IH]. destruct fired; lia.
Qed.

(** X8: the analyzing flag after a run of events: as soon as one complete
    event with a payload or one error event is among them the flag is
    cleared, whatever follows; when none is (the stream ended without one)
    the callback never clears the flag, so the store stays analyzing, with
    no error and the result it had. *)
Theorem analyzing_flag_after_events (evs : list AnalysisProgress) (w : World)
    (sel : DicomSeries) :
  selectedSeries (store w) = Some sel ->
  (Exists (fun p => is_terminal p = true) evs ->
   isAnalyzing (store (fst (analyzeSeries evs w))) = false /\
   (1 <= snd (analyzeSeries evs w))%nat) /\
  (Forall (fun p => is_terminal p = false) evs ->
   isAnalyzing (store (fst (analyzeSeries evs w))) = true /\
   snd (analyzeSeries evs w) = 0%nat /\
   error (store (fst (analyzeSeries evs w))) = None /\
   analysisResult (store (fst (analyzeSeries evs w))) = analysisResult (store w)).
Proof.
  intros Hsel. unfold analyzeSeries, analyzeSeries_begin. rewrite Hsel.
  set (w0 := mkWorld _ (storage w)).
  assert (Hw0 : isAnalyzing (store w0) = true /\ error (store w0) = None /\
                analysisResult (store w0) = analysisResult (store w)).
  { subst w0. clear. by destruct_world w. }
  clearbody w0. destruct Hw0 as (Hf & He & Hr). split.
  - intros Hex. by apply analyze_events_terminal.
  - intros Hall. destruct (analyze_events_nonterminal sel evs w0 Hall) as [Hn Hsame].
    destruct (same_but_progress_fields _ _ Hsame) as (Far & _ & Ferr & _ & _ & _ & Fan).
    by rewrite Fan, Ferr, Far.
Qed.

Lemma analyzing_flag_after_events_witness :
  isAnalyzing (store (fst (analyzeSeries [ev_progress 1; ev_progress 2]
                             (mkWorld selected_store None)))) = true.
Proof.
  apply (proj2 (analyzing_flag_after_events [ev_progress 1; ev_progress 2]
                  (mkWorld selected_store None) sample_series eq_refl)).
  repeat constructor.
Defined.

Lemma analyze_events_last_error sel pre t w :
  ptype t = PError ->
  let w' := fst (analyze_events sel (pre ++ [t])%list w) in
  isAnalyzing (store w') = false /\ error (store w') = Some (message t) /\
  analysisProgress (store w') = None.
Proof.
  intros Ht. rewrite analyze_events_app. cbn [fst].
  generalize (fst (analyze_events sel pre w)). intros w1.
  cbn [analyze_events]. unfold analyze_onProgress. rewrite Ht.
  destruct_world w1. by destruct (data t).
Qed.

(** X9: a read that fails ends the analysis: when the stream reader's
    [fetch] or [read] rejects with anything but an abort, the error event it
    emits is the last one delivered, so after [analyzeSeries] the analyzing
    flag is cleared, the progress is gone and the failure's message is the
    recorded error, whatever chunks came before; after an abort the events
    are those of the chunks alone. *)
Theorem stream_failure_ends_analysis (JSON_parse : string -> option AnalysisProgress)
    (chunks : list string) (name msg : string) (w : World) (sel : DicomSeries) :
  selectedSeries (store w) = Some sel ->
  (name <> "AbortError" ->
   let w' := fst (analyzeSeries (fetchStream JSON_parse chunks (EndThrows name msg)) w) in
   isAnalyzing (store w') = false /\ error (store w') = Some msg /\
   analysisProgress (store w') = None) /\
  (name = "AbortError" ->
   fetchStream JSON_parse chunks (EndThrows name msg)
   = (fetchStream JSON_parse chunks EndDone)).
Proof.
  intros Hsel. split.
  - intros Hname. unfold analyzeSeries, analyzeSeries_begin. rewrite Hsel.
    unfold fetchStream, str_eqb. rewrite bool_decide_eq_false_2 by done.
    apply (analyze_events_last_error sel _ (error_event msg)). reflexivity.
  - intros ->. reflexivity.
Qed.

Lemma stream_failure_ends_analysis_witness :
  error (store (fst (analyzeSeries
           (fetchStream sample_parse sample_chunks (EndThrows "TypeError" "Failed to fetch"))
           (mkWorld selected_store None))))
  = Some "Failed to fetch".
Proof.
  refine (proj1 (proj2 (proj1
    (stream_failure_ends_analysis sample_parse sample_chunks "TypeError" "Failed to fetch"
       (mkWorld selected_store None) sample_series eq_refl) _))).
  discriminate.
Defined.

(** X10: a stream without a blank line delivers nothing: when the text the
    server sent never contains two line feeds in a row (for instance a final
    event that lacks its terminator), the reader makes no callback at all,
    and when the stream then ends normally the store is left analyzing. *)
Theorem unterminated_stream_never_finishes (JSON_parse : string -> option AnalysisProgress)
    (chunks : list string) (w : World) (sel : DicomSeries) :
  selectedSeries (store w) = Some sel ->
  no_sep (concat_chunks chunks) = true ->
  fetchStream JSON_parse chunks EndDone = [] /\
  isAnalyzing (store (fst (analyzeSeries (fetchStream JSON_parse chunks EndDone) w))) = true /\
  snd (analyzeSeries (fetchStream JSON_parse chunks EndDone) w) = 0%nat.
Proof.
  intros Hsel Hno.
  assert (Hnil : fetchStream JSON_parse chunks EndDone = []).
  { unfold fetchStream. rewrite app_nil_r, read_loop_whole.
    unfold complete_frames. by rewrite (split_nn_no_sep _ Hno). }
  rewrite Hnil. split; [done|].
  unfold analyzeSeries, analyzeSeries_begin. rewrite Hsel. cbn [analyze_events fst snd].
  split; [|done]. by destruct_world w.
Qed.

Lemma unterminated_stream_never_finishes_witness :
  fetchStream complete_parse ["data: "; "done" +:+ String "010" EmptyString] EndDone = [].
Proof.
  exact (proj1 (unterminated_stream_never_finishes complete_parse
                  ["data: "; "done" +:+ String "010" EmptyString]
                  (mkWorld selected_store None) sample_series eq_refl eq_refl)).
Defined.

(** ** Polling for the model *)

Lemma pollStatus_skip (rs rest : list PollResp) (w : World) (sel : DicomSeries) :
  selectedSeries (store w) = Some sel ->
  isGeneratingModel (store w) = true ->
  Forall poll_continues rs ->
  pollStatus (rs ++ rest)%list w = pollStatus rest w.
Proof.
  intros Hsel Hgen Hall. induction Hall as [|r rs Hr _ IH]; [done|].
  cbn [app pollStatus].
  rewrite (pollStatus_once_continues w r sel Hsel Hgen); [exact IH|].
  destruct r; exact Hr.
Qed.

(** The world in which the polls of [generateModel] run. *)
Lemma generateModel_started (rs : list PollResp) (w : World) (sel : DicomSeries) :
  selectedSeries (store w) = Some sel ->
  exists w0,
    generateModel ApiOk rs w = pollStatus rs w0 /\
    selectedSeries (store w0) = Some sel /\ isGeneratingModel (store w0) = true /\
    error (store w0) = None /\ storage w0 = storage w /\
    with_isGeneratingModel false (with_error None (store w0))
    = with_isGeneratingModel false (with_error None (store w)).
Proof.
  intros Hsel. unfold generateModel. rewrite Hsel. eexists. split; [reflexivity|].
  destruct_world w. by repeat split.
Qed.

(** X11: the store's poll, given [generating] answers and failed requests
    and then a [complete] answer with a payload, stores the model, shows the
    3D view, tracks the series as modelled, clears the generating flag,
    saves the view state, and stops: answers after that one are never
    read. *)
Theorem generateModel_completes (rs later : list PollResp) (st : ModelStatus)
    (d : ModelInfo) (w : World) (sel : DicomSeries) :
  selectedSeries (store w) = Some sel ->
  Forall poll_continues rs ->
  status st = "complete" -> ms_data st = Some d ->
  let out := generateModel ApiOk (rs ++ PollOk st :: later)%list w in
  snd out = PollStopped /\
  modelInfo (store (fst out)) = Some d /\
  viewMode (store (fst out)) = "3d" /\
  isGeneratingModel (store (fst out)) = false /\
  error (store (fst out)) = None /\
  getSeriesStatus (store (fst out)) (series_uid sel) = StatusModeled /\
  analysisResult (store (fst out)) = analysisResult (store w) /\
  storage (fst out)
  = saveViewState (Some (series_uid sel)) "3d" (selectedImageIndex (store w)) (storage w).
Proof.
  intros Hsel Hall Hst Hd. cbv zeta.
  destruct (generateModel_started (rs ++ PollOk st :: later)%list w sel Hsel)
    as (w0 & -> & Hs0 & Hg0 & He0 & Hls & Hsame).
  rewrite (pollStatus_skip rs _ w0 sel Hs0 Hg0 Hall).
  cbn [pollStatus]. unfold pollStatus_once. rewrite Hs0, Hg0, Hst, Hd.
  cbn [negb]. change (str_eqb "complete" "complete") with true. cbn [fst snd].
  rewrite Hls. clear Hls Hs0 Hg0.
  destruct w0 as [s0 ls0]. destruct s0. destruct w as [s ls]. destruct s.
  store_simpl. inversion Hsame; subst.
  unfold getSeriesStatus. store_simpl.
  rewrite bool_decide_eq_true_2 by set_solver. by repeat split.
Qed.

Lemma generateModel_completes_witness :
  modelInfo (store (fst (generateModel ApiOk
     ([PollOk st_generating; PollThrow "timeout"; PollOk st_generating]
      ++ PollOk (st_complete sample_model) :: [PollOk st_queued])%list
     (mkWorld (analyzed_store ▷ with_modelInfo None) None))))
  = Some sample_model.
Proof.
  refine (proj1 (proj2 (generateModel_completes
    [PollOk st_generating; PollThrow "timeout"; PollOk st_generating] [PollOk st_queued]
    (st_complete sample_model) sample_model
    (mkWorld (analyzed_store ▷ with_modelInfo None) None) sample_series
    eq_refl _ eq_refl eq_refl))).
  repeat constructor.
Defined.

(** X12: the store's poll, given [generating] answers and failed requests
    and then an [error] answer, records the answer's message (or "Model
    generation failed" when it is empty), clears the generating flag and
    stops; the model, the analysis result, the view mode and the storage are
    left as they were. *)
Theorem generateModel_fails (rs later : list PollResp) (st : ModelStatus)
    (w : World) (sel : DicomSeries) :
  selectedSeries (store w) = Some sel ->
  Forall poll_continues rs ->
  status st = "error" ->
  let out := generateModel ApiOk (rs ++ PollOk st :: later)%list w in
  snd out = PollStopped /\
  error (store (fst out))
  = Some (if str_truthy (ms_message st) then ms_message st else "Model generation failed") /\
  isGeneratingModel (store (fst out)) = false /\
  modelInfo (store (fst out)) = modelInfo (store w) /\
  analysisResult (store (fst out)) = analysisResult (store w) /\
  viewMode (store (fst out)) = viewMode (store w) /\
  modelSeriesIds (store (fst out)) = modelSeriesIds (store w) /\
  storage (fst out) = storage w.
Proof.
  intros Hsel Hall Hst. cbv zeta.
  destruct (generateModel_started (rs ++ PollOk st :: later)%list w sel Hsel)
    as (w0 & -> & Hs0 & Hg0 & He0 & Hls & Hsame).
  rewrite (pollStatus_skip rs _ w0 sel Hs0 Hg0 Hall).
  cbn [pollStatus]. unfold pollStatus_once. rewrite Hs0, Hg0, Hst.
  cbn [negb]. change (str_eqb "error" "complete") with false.
  change (str_eqb "error" "error") with true. cbn [fst snd].
  rewrite <- Hls. clear Hls Hs0 Hg0.
  destruct w0 as [s0 ls0]. destruct s0. destruct w as [s ls]. destruct s.
  store_simpl. inversion Hsame; subst. by repeat split.
Qed.

Lemma generateModel_fails_witness :
  error (store (fst (generateModel ApiOk
     ([PollOk st_generating] ++ PollOk (mkModelStatus "error" 0 "" None None) :: [])%list
     (mkWorld (analyzed_store ▷ with_modelInfo None) None))))
  = Some "Model generation failed".
Proof.
  refine (proj1 (proj2 (generateModel_fails [PollOk st_generating] []
    (mkModelStatus "error" 0 "" None None)
    (mkWorld (analyzed_store ▷ with_modelInfo None) None) sample_series
    eq_refl _ eq_refl))).
  repeat constructor.
Defined.

(** X13: the store's poll has no retry limit: as long as every answer is
    [generating] or a failed request, a next poll is scheduled and the store
    is the one [generateModel] started with (generating flag set, error
    cleared, everything else untouched). *)
Theorem generateModel_keeps_polling (rs : list PollResp) (w : World) (sel : DicomSeries) :
  selectedSeries (store w) = Some sel ->
  Forall poll_continues rs ->
  generateModel ApiOk rs w
  = (mkWorld (store w ▷ with_isGeneratingModel true ▷ with_error None) (storage w),
     PollScheduled).
Proof.
  intros Hsel Hall. unfold generateModel. rewrite Hsel.
  rewrite <- (app_nil_r rs).
  erewrite pollStatus_skip; [reflexivity| |by destruct_world w|done].
  destruct_world w. exact Hsel.
Qed.

Lemma generateModel_keeps_polling_witness :
  snd (generateModel ApiOk [PollThrow "timeout"; PollOk st_generating; PollThrow "timeout"]
         (mkWorld selected_store None)) = PollScheduled.
Proof.
  rewrite (generateModel_keeps_polling
             [PollThrow "timeout"; PollOk st_generating; PollThrow "timeout"]
             (mkWorld selected_store None) sample_series eq_refl).
  - reflexivity.
  - repeat constructor.
Defined.

(** X14: a poll that fires when no series is selected, or when no
    generation is in progress, reads no answer and changes nothing. *)
Theorem pollStatus_guard (r : PollResp) (rs : list PollResp) (w : World) :
  selectedSeries (store w) = None \/ isGeneratingModel (store w) = false ->
  pollStatus (r :: rs) w = (w, PollStopped).
Proof.
  intros Hg. cbn [pollStatus]. unfold pollStatus_once.
  destruct (selectedSeries (store w)); [|done].
  destruct Hg as [?| ->]; done.
Qed.

Lemma pollStatus_guard_witness :
  pollStatus [PollOk (st_complete sample_model)] (mkWorld initial_store None)
  = (mkWorld initial_store None, PollStopped).
Proof.
  exact (pollStatus_guard (PollOk (st_complete sample_model)) []
           (mkWorld initial_store None) (or_introl eq_refl)).
Defined.

(** ** The legacy polling loop *)

Lemma api_generateModel_loop_skip (rs rest : list PollResp) :
  Forall legacy_continues rs ->
  api_generateModel_loop (rs ++ rest)%list = api_generateModel_loop rest.
Proof.
  intros Hall. induction Hall as [|r rs Hr _ IH]; [done|].
  destruct r as [st|msg]; [|destruct Hr].
  destruct Hr as [Herr Hc].
  change ((PollOk st :: rs) ++ rest)%list with (PollOk st :: (rs ++ rest))%list.
  by rewrite api_generateModel_loop_continues.
Qed.

(** X15: the legacy loop of the API service polls on through every answer
    that is neither an error nor a complete one with a payload ([queued]
    included) and is decided by the first answer that is: a complete answer
    returns its payload, an error answer throws its message (or "Model
    generation failed"), a failed request throws; none of the answers after
    that is read. *)
Theorem api_generateModel_first_terminal (rs later : list PollResp) :
  Forall legacy_continues rs ->
  api_generateModel ApiOk rs = LPolling /\
  (forall st d, status st = "complete" -> ms_data st = Some d ->
     api_generateModel ApiOk (rs ++ PollOk st :: later)%list = LReturned d) /\
  (forall st, status st = "error" ->
     api_generateModel ApiOk (rs ++ PollOk st :: later)%list
     = LThrown (if str_truthy (ms_message st) then ms_message st
                else "Model generation failed")) /\
  (forall msg, api_generateModel ApiOk (rs ++ PollThrow msg :: later)%list = LThrown msg).
Proof.
  intros Hall. unfold api_generateModel. repeat split.
  - rewrite <- (app_nil_r rs). by rewrite api_generateModel_loop_skip.
  - intros st d Hst Hd. rewrite api_generateModel_loop_skip by done.
    cbn [api_generateModel_loop]. by rewrite Hst, Hd.
  - intros st Hst. rewrite api_generateModel_loop_skip by done.
    cbn [api_generateModel_loop]. by rewrite Hst.
  - intros msg. by rewrite api_generateModel_loop_skip.
Qed.

Lemma api_generateModel_first_terminal_witness :
  api_generateModel ApiOk
    ([PollOk st_queued; PollOk st_generating]
     ++ PollOk (st_complete sample_model) :: [PollThrow "late"])%list
  = LReturned sample_model.
Proof.
  refine (proj1 (proj2 (api_generateModel_first_terminal
            [PollOk st_queued; PollOk st_generating] [PollThrow "late"] _))
          (st_complete sample_model) sample_model eq_refl eq_refl).
  repeat constructor; discriminate.
Defined.

(** ** What every run of actions keeps *)

Lemma valid_mode_original : valid_mode "original".
Proof. by left. Qed.
Lemma valid_mode_analyzed : valid_mode "analyzed".
Proof. right. by left. Qed.
Lemma valid_mode_3d : valid_mode "3d".
Proof. right. by right. Qed.

Lemma saveViewState_modes_valid u mode i ls :
  valid_mode mode -> storage_modes_valid (saveViewState u mode i ls).
Proof.
  intros Hm m v Hs Hv. destruct ls as [m0|]; [|discriminate Hs].
  destruct storage_keys_distinct as (_ & _ & H23).
  unfold saveViewState in Hs. injection Hs as <-.
  rewrite (lookup_insert_ne _ key_selectedImageIndex key_viewMode) in Hv by done.
  rewrite lookup_insert_eq in Hv. by injection Hv as <-.
Qed.

Lemma loadViewState_mode_valid ls :
  storage_modes_valid ls -> valid_mode (vs_viewMode (loadViewState ls)).
Proof.
  intros Hls. destruct ls as [m|]; [|apply valid_mode_original].
  cbn [loadViewState vs_viewMode]. unfold str_or.
  destruct (m !! key_viewMode) as [v|] eqn:Hv; [|apply valid_mode_original].
  destruct (str_truthy v); [by apply (Hls m v)|apply valid_mode_original].
Qed.

Lemma restoredViewMode_valid saved a m :
  valid_mode saved -> valid_mode (restoredViewMode saved a m).
Proof.
  intros Hs. destruct (restoredViewMode_cases saved a m) as [->|[->| ->]];
    [done|apply valid_mode_analyzed|apply valid_mode_original].
Qed.

Lemma initialize_mode_inv env w : mode_inv w -> mode_inv (initialize env w).
Proof.
  intros [Hv Hs]. unfold mode_inv.
  pose proof (loadViewState_mode_valid _ Hs) as Hl.
  unfold initialize.
  destruct (env_init env) as [result|]; [|by destruct_world w].
  destruct (vs_seriesUid (loadViewState (storage w))) as [uid|]; [|by destruct_world w].
  destruct (_ && _); [|by destruct_world w].
  destruct (find _ _) as [savedSeries|]; [|by destruct_world w].
  destruct (env_images env _) as [imgs|]; [|by destruct_world w].
  pose proof (restoredViewMode_valid _ (env_analysis env (series_uid savedSeries))
                (env_model env (series_uid savedSeries)) Hl) as Hr.
  revert Hr. generalize (restoredViewMode (vs_viewMode (loadViewState (storage w)))
                 (env_analysis env (series_uid savedSeries))
                 (env_model env (series_uid savedSeries))).
  intros vm Hvm. by destruct_world w.
Qed.

Lemma analyze_events_mode_inv sel evs w :
  mode_inv w -> mode_inv (fst (analyze_events sel evs w)).
Proof.
  revert w. induction evs as [|p evs IH]; intros w Hw; [done|].
  cbn [analyze_events].
  assert (H1 : mode_inv (fst (analyze_onProgress sel p w))).
  { destruct Hw as [Hv Hs]. unfold analyze_onProgress, mode_inv. destruct_world w.
    destruct (ptype p), (data p); cbn [fst]; store_simpl;
      (split; [done || apply valid_mode_analyzed
              | done || (apply saveViewState_modes_valid, valid_mode_analyzed)]). }
  destruct (analyze_onProgress sel p w) as [w1 fired]. cbn [fst] in H1.
  specialize (IH w1 H1). by destruct (analyze_events sel evs w1).
Qed.

Lemma pollStatus_mode_inv rs w : mode_inv w -> mode_inv (fst (pollStatus rs w)).
Proof.
  revert w. induction rs as [|r rs IH]; intros w Hw; [done|].
  cbn [pollStatus].
  assert (H1 : mode_inv (fst (pollStatus_once r w))).
  { destruct Hw as [Hv Hs]. unfold pollStatus_once.
    destruct (selectedSeries (store w)) as [cur|]; [|done].
    destruct (isGeneratingModel (store w)); [|done].
    destruct r as [st|]; [|done]. cbn [negb].
    unfold mode_inv.
    destruct (str_eqb (status st) "complete"), (ms_data st);
      try (destruct (str_eqb (status st) "error");
           [by destruct_world w|];
           destruct (str_eqb (status st) "generating"); by split).
    destruct_world w.
    split; [apply valid_mode_3d | apply saveViewState_modes_valid, valid_mode_3d]. }
  destruct (pollStatus_once r w) as [w1 [|]]; cbn [fst] in *; [by apply IH|done].
Qed.

Lemma perform_mode_inv (a : Action) (w : World) :
  allowed a w -> mode_inv w -> mode_inv (perform a w).
Proof.
  intros Ha Hw. destruct a; cbn [perform allowed] in *.
  - destruct Hw as [_ Hs]. unfold setViewMode, mode_inv. destruct_world w.
    split; [done|by apply saveViewState_modes_valid].
  - destruct Hw as [Hv Hs]. unfold setSelectedImageIndex, mode_inv. destruct_world w.
    split; [done|by apply saveViewState_modes_valid].
  - unfold setError, mode_inv in *. by destruct_world w.
  - by apply initialize_mode_inv.
  - unfold loadDirectory, mode_inv in *. destruct r; by destruct_world w.
  - unfold uploadZipFile, mode_inv. destruct r; destruct_world w;
      (split; [apply valid_mode_original
              |apply saveViewState_modes_valid, valid_mode_original]).
  - unfold refreshSeries, mode_inv in *. destruct r; by destruct_world w.
  - destruct Hw as [Hv Hs]. unfold selectSeries, mode_inv.
    destruct (sel_images env); [|by destruct_world w].
    destruct (sel_analysis env); destruct_world w;
      rewrite ?bool_decide_eq_true_2 by (by eexists);
      rewrite ?bool_decide_eq_false_2 by (by intros [? ?]);
      (split; [|apply saveViewState_modes_valid]);
      apply valid_mode_analyzed || apply valid_mode_original.
  - unfold analyzeSeries, analyzeSeries_begin.
    destruct (selectedSeries (store w)) as [sel|]; [|done].
    apply analyze_events_mode_inv. unfold mode_inv in *. by destruct_world w.
  - unfold generateModel.
    destruct (selectedSeries (store w)) as [sel|]; [|done].
    destruct start as [|m].
    + apply pollStatus_mode_inv. unfold mode_inv in *. by destruct_world w.
    + unfold mode_inv in *. by destruct_world w.
  - destruct Hw as [Hv Hs]. unfold clearAnalysisAndModels, mode_inv.
    destruct r; destruct_world w; (split; [apply valid_mode_original || done|done]).
  - destruct Hw as [Hv Hs]. unfold clearSeriesResults, mode_inv.
    destruct (selectedSeries (store w)) as [sel|]; [|done].
    destruct r; destruct_world w; [|done].
    split; [apply valid_mode_original
           |apply saveViewState_modes_valid, valid_mode_original].
  - unfold expireUploadMessage, mode_inv in *. by destruct_world w.
Qed.

(** X16: the view mode is always one of ['original'], ['analyzed'] and
    ['3d']: when the storage the application starts with holds no other
    view mode, then after every run of store actions, with every answer of
    the back end, the view mode of the store and the one saved in the
    storage are among the three.  The string that the unchecked cast in
    [loadViewState] would let through is never written by the application
    itself. *)
Theorem view_mode_always_valid (ls0 : Storage) (w : World) :
  storage_modes_valid ls0 ->
  reachable ls0 w ->
  valid_mode (viewMode (store w)) /\ storage_modes_valid (storage w).
Proof.
  intros Hls Hr. change (mode_inv w).
  induction Hr as [|w a _ IH Ha].
  - split; [apply valid_mode_original|exact Hls].
  - by apply perform_mode_inv.
Qed.

(** A run of five actions from an empty storage. *)
Lemma sample_run_reachable :
  reachable (Some ∅)
    (perform (ASetViewMode "original")
       (perform (ASetSelectedImageIndex 2)
          (perform (AAnalyzeSeries [ev_progress 1; ev_complete sample_result])
             (perform (ASelectSeries model_only_env sample_series)
                (perform (AInitialize sample_env) (mkWorld initial_store (Some ∅))))))).
Proof.
  repeat (apply reach_step); try apply reach_init; try exact I.
  - cbn. lia.
  - apply valid_mode_original.
Qed.

Lemma view_mode_always_valid_witness :
  valid_mode (viewMode (store
    (perform (ASetViewMode "original")
       (perform (ASetSelectedImageIndex 2)
          (perform (AAnalyzeSeries [ev_progress 1; ev_complete sample_result])
             (perform (ASelectSeries model_only_env sample_series)
                (perform (AInitialize sample_env) (mkWorld initial_store (Some ∅))))))))).
Proof.
  refine (proj1 (view_mode_always_valid (Some ∅) _ _ sample_run_reachable)).
  intros m v [= <-] Hv. rewrite lookup_empty in Hv. discriminate Hv.
Defined.

Lemma index_ok_same (s s' : AppStore) :
  images s' = images s -> selectedImageIndex s' = selectedImageIndex s ->
  index_ok s -> index_ok s'.
Proof. unfold index_ok. by intros -> ->. Qed.

Lemma index_ok_first (s : AppStore) : selectedImageIndex s = 0 -> index_ok s.
Proof.
  unfold index_ok. intros ->. split; [done|].
  destruct (images s); [done|]. intros _. simpl. lia.
Qed.

Lemma pollStatus_once_images r w :
  images (store (fst (pollStatus_once r w))) = images (store w) /\
  selectedImageIndex (store (fst (pollStatus_once r w))) = selectedImageIndex (store w).
Proof.
  unfold pollStatus_once.
  destruct (selectedSeries (store w)) as [cur|]; [|done].
  destruct (isGeneratingModel (store w)); [|done].
  destruct r as [st|]; [|done]. cbn [negb].
  destruct (str_eqb (status st) "complete"), (ms_data st);
    try (destruct (str_eqb (status st) "error"); [by destruct_world w|];
         destruct (str_eqb (status st) "generating"); by split).
Qed.

Lemma pollStatus_images rs w :
  images (store (fst (pollStatus rs w))) = images (store w) /\
  selectedImageIndex (store (fst (pollStatus rs w))) = selectedImageIndex (store w).
Proof.
  revert w. induction rs as [|r rs IH]; intros w; [done|].
  cbn [pollStatus]. pose proof (pollStatus_once_images r w) as [H1 H2].
  destruct (pollStatus_once r w) as [w1 [|]]; cbn [fst] in *; [|done].
  destruct (IH w1) as [I1 I2]. by rewrite I1, I2.
Qed.

Lemma initialize_index_ok env w : index_ok (store w) -> index_ok (store (initialize env w)).
Proof.
  intros Hw. unfold initialize.
  destruct (env_init env) as [result|];
    [|apply (index_ok_same (store w)); by destruct_world w].
  destruct (vs_seriesUid (loadViewState (storage w))) as [uid|];
    [|apply (index_ok_same (store w)); by destruct_world w].
  destruct (_ && _); [|apply (index_ok_same (store w)); by destruct_world w].
  destruct (find _ _) as [savedSeries|];
    [|apply (index_ok_same (store w)); by destruct_world w].
  destruct (env_images env _) as [imgs|];
    [|apply (index_ok_same (store w)); by destruct_world w].
  pose proof (restoredImageIndex_bounds (vs_imageIndex (loadViewState (storage w))) imgs) as Hb.
  revert Hb. generalize (restoredImageIndex (vs_imageIndex (loadViewState (storage w))) imgs).
  intros z Hb. unfold index_ok. clear Hw. by destruct_world w.
Qed.

Lemma perform_index_ok (a : Action) (w : World) :
  allowed a w -> index_ok (store w) -> index_ok (store (perform a w)).
Proof.
  intros Ha Hw. destruct a; cbn [perform allowed] in *.
  - apply (index_ok_same (store w)); try done; unfold setViewMode; by destruct_world w.
  - unfold setSelectedImageIndex, index_ok in *. clear Hw. destruct_world w.
    split; [intros ->; simpl in Ha; lia | intros _; lia].
  - apply (index_ok_same (store w)); try done; unfold setError; by destruct_world w.
  - by apply initialize_index_ok.
  - apply (index_ok_same (store w)); try done; unfold loadDirectory;
      destruct r; by destruct_world w.
  - apply index_ok_first. unfold uploadZipFile. destruct r; by destruct_world w.
  - apply (index_ok_same (store w)); try done; unfold refreshSeries;
      destruct r; by destruct_world w.
  - unfold selectSeries. destruct (sel_images env).
    + apply index_ok_first. by destruct_world w.
    + apply (index_ok_same (store w)); try done; by destruct_world w.
  - unfold analyzeSeries, analyzeSeries_begin.
    destruct (selectedSeries (store w)) as [sel|]; [|done].
    match goal with |- index_ok (store (fst (analyze_events sel evs ?w0))) =>
      pose proof (analyze_events_frame sel evs w0) as (_ & _ & F3 & F4 & _) end.
    eapply index_ok_same; [exact F3|exact F4|].
    apply (index_ok_same (store w)); try done; by destruct_world w.
  - unfold generateModel.
    destruct (selectedSeries (store w)) as [sel|]; [|done].
    destruct start as [|m].
    + match goal with |- index_ok (store (fst (pollStatus rs ?w0))) =>
        pose proof (pollStatus_images rs w0) as [F3 F4] end.
      eapply index_ok_same; [exact F3|exact F4|].
      apply (index_ok_same (store w)); try done; by destruct_world w.
    + apply (index_ok_same (store w)); try done; by destruct_world w.
  - apply (index_ok_same (store w)); try done; unfold clearAnalysisAndModels;
      destruct r; by destruct_world w.
  - unfold clearSeriesResults.
    destruct (selectedSeries (store w)) as [sel|]; [|done].
    apply (index_ok_same (store w)); try done; destruct r; by destruct_world w.
  - apply (index_ok_same (store w)); try done; unfold expireUploadMessage;
      by destruct_world w.
Qed.

(** X17: the slice index always points into the image stack: after every
    run of store actions in which the sliders hand over positions of their
    range, with every answer of the back end and whatever the storage held,
    the index is 0 when there are no images and lies between 0 and the last
    image otherwise. *)
Theorem slice_index_always_in_bounds (ls0 : Storage) (w : World) :
  reachable ls0 w ->
  (images (store w) = [] -> selectedImageIndex (store w) = 0) /\
  (images (store w) <> [] ->
   0 <= selectedImageIndex (store w) <= Z.of_nat (length (images (store w))) - 1).
Proof.
  intros Hr. change (index_ok (store w)).
  induction Hr as [|w a _ IH Ha].
  - by apply index_ok_first.
  - by apply perform_index_ok.
Qed.

Lemma slice_index_always_in_bounds_witness :
  0 <= selectedImageIndex (store
    (perform (ASetViewMode "original")
       (perform (ASetSelectedImageIndex 2)
          (perform (AAnalyzeSeries [ev_progress 1; ev_complete sample_result])
             (perform (ASelectSeries model_only_env sample_series)
                (perform (AInitialize sample_env) (mkWorld initial_store (Some ∅))))))))
  <= 2.
Proof.
  refine (proj2 (slice_index_always_in_bounds (Some ∅) _ sample_run_reachable) _).
  discriminate.
Defined.

(** ** Buttons *)

Lemma bool_decide_is_Some_Some {A} (x : A) : bool_decide (is_Some (Some x)) = true.
Proof. apply bool_decide_eq_true_2. by eexists. Qed.

Lemma bool_decide_is_Some_None {A} : bool_decide (is_Some (@None A)) = false.
Proof. apply bool_decide_eq_false_2. by intros [? ?]. Qed.

(** On a store typed as declared, [ActionButtons_of] at the outcomes of the
    two tests is [ActionButtons], and the click on its "Regenerate 3D" is
    [clickRegenerate]. *)
Lemma ActionButtons_of_typed (s : AppStore) :
  ActionButtons_of (bool_decide (is_Some (analysisResult s)))
                   (bool_decide (is_Some (modelInfo s))) s = ActionButtons s /\
  view_clickRegenerate (ActionButtons s) = clickRegenerate s.
Proof. split; reflexivity. Qed.

Lemma size_pos_nonempty (X : gset string) : (0 <? size X)%nat = true <-> X <> ∅.
Proof.
  rewrite Nat.ltb_lt. split.
  - intros Hs ->. rewrite size_empty in Hs. lia.
  - intros Hne. destruct (decide (size X = 0%nat)) as [H0|H0]; [|lia].
    apply size_empty_inv in H0. destruct Hne. by apply leibniz_equiv.
Qed.

(** X18: each button is blocked by its own job, and by that job only.
    While an analysis runs, the "Analyzed" tab and "Re-analyze" dispatch
    nothing; while a model is generated, the 3D tab and "Regenerate 3D"
    dispatch nothing; while either runs or the store is loading, "Clear"
    dispatches nothing; while the store is loading, "Upload & Process" and
    "Clear Analysis & Models" dispatch nothing.  A click that starts an
    analysis finds a selected series and no analysis running, one that
    starts a generation finds no generation running, and one that clears
    the series was confirmed and finds a selected series, a passed
    [!== null] test and nothing running or loading.  The other job does not
    block: the 3D tab starts a generation whenever there is a result, no
    model and no generation in progress, "Re-analyze" starts an analysis
    whenever it is shown with a series selected and no analysis running,
    and the two buttons of the sidebar dispatch whenever the store is not
    loading, in each case also while an analysis or a generation runs.  The
    buttons of [ActionButtons] are taken for every outcome of its two
    [!== null] tests. *)
Theorem buttons_blocked_by_own_job (s : AppStore) (hasAnalysis hasModel : bool) :
  let v := ActionButtons_of hasAnalysis hasModel s in
  (isAnalyzing s = true -> clickAnalyzed s = NoCall /\ view_clickReanalyze v = NoCall) /\
  (isGeneratingModel s = true -> click3D s = NoCall /\ view_clickRegenerate v = NoCall) /\
  (isAnalyzing s = true \/ isGeneratingModel s = true \/ isLoading s = true ->
   forall confirmed, view_clickClear confirmed v = NoCall) /\
  (isLoading s = true ->
   clickClearAll s = SidebarNoCall /\ forall hasFile, clickUpload hasFile s = SidebarNoCall) /\
  (clickAnalyzed s = CallAnalyzeSeries \/ view_clickReanalyze v = CallAnalyzeSeries ->
   is_Some (selectedSeries s) /\ isAnalyzing s = false) /\
  (click3D s = CallGenerateModel \/ view_clickRegenerate v = CallGenerateModel ->
   isGeneratingModel s = false) /\
  (forall confirmed, view_clickClear confirmed v = CallClearSeriesResults ->
   confirmed = true /\ is_Some (selectedSeries s) /\
   (hasAnalysis = true \/ hasModel = true) /\
   isAnalyzing s = false /\ isGeneratingModel s = false /\ isLoading s = false) /\
  (is_Some (analysisResult s) -> modelInfo s = None -> isGeneratingModel s = false ->
   click3D s = CallGenerateModel) /\
  (hasAnalysis = true -> is_Some (selectedSeries s) -> isAnalyzing s = false ->
   view_clickReanalyze v = CallAnalyzeSeries) /\
  (isLoading s = false ->
   clickUpload true s = CallUploadZipFile /\
   (analyzedSeriesIds s <> ∅ \/ modelSeriesIds s <> ∅ ->
    clickClearAll s = CallClearAnalysisAndModels)).
Proof.
  cbv zeta.
  assert (Hside : (isLoading s = true ->
            clickClearAll s = SidebarNoCall /\
            forall hasFile, clickUpload hasFile s = SidebarNoCall) /\
          (isLoading s = false ->
            clickUpload true s = CallUploadZipFile /\
            (analyzedSeriesIds s <> ∅ \/ modelSeriesIds s <> ∅ ->
             clickClearAll s = CallClearAnalysisAndModels))).
  { unfold clickClearAll, clickUpload. split; intros ->.
    - split; [by destruct (_ || _)|reflexivity].
    - split; [reflexivity|]. intros [H|H]; apply size_pos_nonempty in H; rewrite H.
      + reflexivity.
      + by rewrite orb_true_r. }
  destruct Hside as [Hs1 Hs2].
  unfold clickAnalyzed, view_clickReanalyze, click3D, view_clickRegenerate, view_clickClear,
    ActionButtons_of, click, handleAnalyzedClick, handle3DClick, getAnalyzedButtonState,
    get3DButtonState.
  destruct (selectedSeries s) as [sel|], (analysisResult s) as [a|], (modelInfo s) as [m|],
    (isAnalyzing s), (isGeneratingModel s), (isLoading s), hasAnalysis, hasModel;
    rewrite ?bool_decide_is_Some_Some, ?bool_decide_is_Some_None; cbn;
    (split; [|split; [|split; [|split; [|split; [|split; [|split; [|split; [|split]]]]]]]]);
    try exact Hs1; try exact Hs2;
    try (intros _; by split);
    try discriminate;
    try (intros [Hx|[Hx|Hx]]; discriminate Hx);
    try (intros _ [|]; reflexivity);
    try (intros [Hx|Hx]; discriminate Hx);
    try (intros _; split; [by eexists|reflexivity]);
    try (intros _; reflexivity);
    try (intros _ _ _; reflexivity);
    try (intros _ [? Hx]; discriminate Hx);
    try (intros [? Hx]; discriminate Hx);
    try (intros [? Hx] _; discriminate Hx);
    try (intros [|] Hx; try discriminate Hx; split; [reflexivity|];
         split; [by eexists|]; split; [(by left) || (by right)|by repeat split]).
Qed.

Lemma buttons_blocked_by_own_job_witness :
  clickAnalyzed (selected_store ▷ with_isAnalyzing true) = NoCall /\
  click3D (analyzed_store ▷ with_modelInfo None ▷ with_isAnalyzing true) = CallGenerateModel.
Proof.
  split.
  - exact (proj1 (proj1 (buttons_blocked_by_own_job
                           (selected_store ▷ with_isAnalyzing true) false false) eq_refl)).
  - refine (proj1 (proj2 (proj2 (proj2 (proj2 (proj2 (proj2 (proj2
      (buttons_blocked_by_own_job
         (analyzed_store ▷ with_modelInfo None ▷ with_isAnalyzing true) true false))))))))
      _ eq_refl eq_refl).
    by eexists.
Defined.

(** ** Clearing everything *)

Lemma bool_decide_difference_ne (X : gset string) (u v : string) :
  u <> v -> bool_decide (u ∈ X ∖ {[v]}) = bool_decide (u ∈ X).
Proof. intros Hne. apply bool_decide_ext. set_solver. Qed.

(** X19: the global clear is idempotent and subsumes the per-series one:
    clearing everything twice is clearing once; after an acknowledged
    global clear every series shows the status "none", and a per-series
    clear that follows finds nothing left to remove.  After an acknowledged
    per-series clear the selected series shows "none" and every other
    series keeps its status. *)
Theorem clear_all_subsumes_clear_series (r : ApiResult) (w : World) :
  clearAnalysisAndModels r (clearAnalysisAndModels r w) = clearAnalysisAndModels r w /\
  (forall uid, getSeriesStatus (store (clearAnalysisAndModels ApiOk w)) uid = StatusNone) /\
  artifact_state (store (clearSeriesResults ApiOk (clearAnalysisAndModels ApiOk w)))
  = artifact_state (store (clearAnalysisAndModels ApiOk w)) /\
  (forall sel, selectedSeries (store w) = Some sel ->
     getSeriesStatus (store (clearSeriesResults ApiOk w)) (series_uid sel) = StatusNone /\
     forall uid, uid <> series_uid sel ->
       getSeriesStatus (store (clearSeriesResults ApiOk w)) uid
       = getSeriesStatus (store w) uid).
Proof.
  split; [|split; [|split]].
  - unfold clearAnalysisAndModels. destruct r; by destruct_world w.
  - intros uid. unfold clearAnalysisAndModels, getSeriesStatus. destruct_world w.
    by rewrite !bool_decide_eq_false_2 by set_solver.
  - unfold clearSeriesResults, clearAnalysisAndModels, artifact_state.
    destruct (selectedSeries (store w)) as [sel|] eqn:Hsel; destruct_world w; subst;
      store_simpl; [|done].
    repeat f_equal; set_solver.
  - intros sel Hsel. unfold clearSeriesResults, getSeriesStatus. rewrite Hsel.
    destruct_world w. split.
    + by rewrite !bool_decide_eq_false_2 by set_solver.
    + intros uid Hne. by rewrite !bool_decide_difference_ne.
Qed.

Lemma clear_all_subsumes_clear_series_witness :
  getSeriesStatus (store (clearSeriesResults ApiOk (mkWorld analyzed_store None))) "S1"
  = StatusNone.
Proof.
  exact (proj1 (proj2 (proj2 (proj2
    (clear_all_subsumes_clear_series ApiOk (mkWorld analyzed_store None)))) sample_series
    eq_refl)).
Defined.

(** ** Zoom *)

Lemma zoom_click_quarters (c : ZoomClick) (k : Z) :
  1 <= k <= 16 ->
  exists k', 1 <= k' <= 16 /\ (zoom_click c (k # 4) == k' # 4)%Q.
Proof.
  intros Hk. destruct c; cbn [zoom_click].
  - unfold handleZoomIn, Math_min.
    destruct (Qle_bool ((k # 4) + (1 # 4)) 4) eqn:Hc.
    + apply Qle_bool_iff in Hc. exists (k + 1). split.
      * unfold Qle in Hc. simpl in Hc. lia.
      * unfold Qeq. simpl. lia.
    + exists 16. split; [lia|]. unfold Qeq. simpl. lia.
  - unfold handleZoomOut, Math_max.
    destruct (Qle_bool ((k # 4) - (1 # 4)) (1 # 4)) eqn:Hc.
    + exists 1. split; [lia|]. reflexivity.
    + assert (Hn : ~ ((k # 4) - (1 # 4) <= 1 # 4)%Q).
      { intros Hle. apply Qle_bool_iff in Hle. congruence. }
      exists (k - 1). split.
      * unfold Qle in Hn. simpl in Hn. lia.
      * unfold Qeq. simpl. lia.
  - exists 4. split; [lia|]. reflexivity.
Qed.

Lemma zoom_click_proper (c : ZoomClick) (x y : Q) :
  (x == y)%Q -> (zoom_click c x == zoom_click c y)%Q.
Proof.
  intros Hxy. destruct c; cbn [zoom_click]; [| |reflexivity].
  - unfold handleZoomIn, Math_min.
    assert (Hs : (x + (1 # 4) == y + (1 # 4))%Q) by (apply Qplus_comp; [exact Hxy|reflexivity]).
    rewrite (Qleb_comp _ _ Hs 4%Q 4%Q (Qeq_refl 4%Q)).
    destruct (Qle_bool _ _); [exact Hs|reflexivity].
  - unfold handleZoomOut, Math_max.
    assert (Hs : (x - (1 # 4) == y - (1 # 4))%Q) by (apply Qplus_comp; [exact Hxy|reflexivity]).
    rewrite (Qleb_comp _ _ Hs (1 # 4)%Q (1 # 4)%Q (Qeq_refl _)).
    destruct (Qle_bool _ _); [reflexivity|exact Hs].
Qed.

Lemma zoom_fold_quarters (cs : list ZoomClick) (z : Q) (k : Z) :
  1 <= k <= 16 -> (z == k # 4)%Q ->
  exists k', 1 <= k' <= 16 /\ (fold_left (fun z c => zoom_click c z) cs z == k' # 4)%Q.
Proof.
  revert z k. induction cs as [|c cs IH]; intros z k Hk Hz.
  - exists k. by split.
  - cbn [fold_left].
    destruct (zoom_click_quarters c k Hk) as (k1 & Hk1 & Hz1).
    apply (IH _ k1 Hk1). apply (Qeq_trans _ (zoom_click c (k # 4))); [|exact Hz1].
    by apply zoom_click_proper.
Qed.

(** X20: the zoom of the image viewer stays within its limits: after every
    run of zoom-in, zoom-out and reset clicks the zoom is a whole number of
    quarters between 0.25 and 4. *)
Theorem zoom_stays_in_range (cs : list ZoomClick) :
  (exists k : Z, 1 <= k <= 16 /\ (zoom_after cs == k # 4)%Q) /\
  ((1 # 4) <= zoom_after cs)%Q /\ (zoom_after cs <= 4)%Q.
Proof.
  destruct (zoom_fold_quarters cs 1%Q 4) as (k & Hk & Hz); [lia|reflexivity|].
  fold (zoom_after cs) in Hz. split; [by exists k|].
  split.
  - apply (Qle_trans _ (k # 4)); [unfold Qle; simpl; lia|]. apply Qle_lteq. right. by symmetry.
  - apply (Qle_trans _ (k # 4)); [apply Qle_lteq; by right|unfold Qle; simpl; lia].
Qed.

(** ** The opacity panel *)

Lemma slider_opacity_visible (k : Z) : Qgtb (slider_opacity k) 0 = (0 <? k).
Proof.
  unfold Qgtb, slider_opacity, Qle_bool, Qdiv, Qmult, Qinv, inject_Z. cbn.
  change (Z.pos (1 * 100)) with 100.
  destruct (Z.leb_spec (k * 1 * 1) (0 * 100)), (Z.ltb_spec 0 k); cbn; try reflexivity; lia.
Qed.

Lemma slider_opacity_depthWrite (k : Z) :
  Qgeb (slider_opacity k) (99 # 100) = (99 <=? k).
Proof.
  unfold Qgeb, slider_opacity, Qle_bool, Qdiv, Qmult, Qinv, inject_Z. cbn.
  change (Z.pos (1 * 100)) with 100.
  destruct (Z.leb_spec (99 * 100) (k * 1 * 100)), (Z.leb_spec 99 k); try reflexivity; lia.
Qed.

Lemma tissueOrder_NoDup : NoDup tissueOrder.
Proof. unfold tissueOrder. repeat constructor; set_solver. Qed.

Lemma restyle_other_key (prev : gmap string Q) (key : string) (o : Q) (j : nat) (m : Mesh) :
  tissueOrder !! j <> Some key ->
  restyle (handleOpacityChange key o prev) j m = restyle prev j m.
Proof.
  intros Hj. unfold restyle, tissueKey_at, handleOpacityChange.
  destruct (tissueOrder !! j) as [kj|]; [|done].
  rewrite lookup_insert_ne; [done|]. intros ->. by apply Hj.
Qed.

(** X21: moving the slider of a tissue that has a mesh changes that mesh
    and no other: with the slider of the tissue at position [i] of the
    export order set to [k] percent, the mesh at position [i] is visible
    exactly when [k > 0], writes depth exactly when [k >= 99], carries the
    tissue's color and the opacity [k/100], and every other mesh is restyled
    as before the change. *)
Theorem opacity_slider_changes_one_mesh (prev : gmap string Q) (meshes : list Mesh)
    (i : nat) (key : string) (k : Z) (m : Mesh) :
  tissueOrder !! i = Some key ->
  meshes !! i = Some m ->
  let op := handleOpacityChange key (slider_opacity k) prev in
  (exists m', Model_applyOpacity op meshes !! i = Some m' /\
     mesh_visible m' = (0 <? k) /\
     mesh_material m'
     = Replaced (mkMaterial (default 0 (tissueColors !! key)) (slider_opacity k) true
                            (99 <=? k))) /\
  (forall j, j <> i ->
     Model_applyOpacity op meshes !! j = Model_applyOpacity prev meshes !! j).
Proof.
  intros Hkey Hm. cbv zeta. split.
  - exists (restyle (handleOpacityChange key (slider_opacity k) prev) i m).
    rewrite Model_applyOpacity_lookup, Hm. split; [done|].
    unfold restyle, tissueKey_at, handleOpacityChange. rewrite Hkey, lookup_insert_eq.
    cbn [mesh_visible mesh_material].
    by rewrite slider_opacity_visible, slider_opacity_depthWrite.
  - intros j Hj. rewrite !Model_applyOpacity_lookup.
    destruct (meshes !! j) as [mj|]; [|done]. cbn. f_equal.
    apply restyle_other_key. intros Hjk. apply Hj.
    by apply (NoDup_lookup tissueOrder j i key tissueOrder_NoDup).
Qed.

Lemma opacity_slider_changes_one_mesh_witness :
  exists m', Model_applyOpacity (handleOpacityChange "body" (slider_opacity 0) DEFAULT_OPACITY)
               [mesh_body; mesh_organs] !! 0%nat = Some m' /\
             mesh_visible m' = false.
Proof.
  destruct (proj1 (opacity_slider_changes_one_mesh DEFAULT_OPACITY [mesh_body; mesh_organs]
                     0 "body" 0 mesh_body eq_refl eq_refl)) as (m' & H1 & H2 & _).
  exists m'. by split.
Defined.

(** X22: a slider whose tissue is not in the export order moves no mesh:
    changing the opacity of such a key, for instance [subcutaneous_fat],
    leaves the result of the opacity effect as it was, for every list of
    meshes. *)
Theorem opacity_of_unlisted_tissue_has_no_effect (prev : gmap string Q) (key : string)
    (o : Q) (meshes : list Mesh) :
  key ∉ tissueOrder ->
  Model_applyOpacity (handleOpacityChange key o prev) meshes = Model_applyOpacity prev meshes.
Proof.
  intros Hkey. apply list_eq. intros j. rewrite !Model_applyOpacity_lookup.
  destruct (meshes !! j) as [mj|]; [|done]. cbn. f_equal.
  apply restyle_other_key. intros Hj. apply Hkey.
  by apply list_elem_of_lookup_2 in Hj.
Qed.

Lemma opacity_of_unlisted_tissue_has_no_effect_witness :
  Model_applyOpacity (handleOpacityChange "subcutaneous_fat" 0 DEFAULT_OPACITY)
    [mesh_body; mesh_organs; mesh_organs; mesh_body]
  = Model_applyOpacity DEFAULT_OPACITY [mesh_body; mesh_organs; mesh_organs; mesh_body].
Proof.
  apply opacity_of_unlisted_tissue_has_no_effect.
  unfold tissueOrder. set_solver.
Defined.

(** ** The slice plane *)

(** X23: the slice plane stays on the model: with the plane shown, a
    bounding box known and the slice index pointing into a stack of
    [totalSlices] images, the ratio that places the plane lies between 0 and
    1; it is 0 on the first slice and, when there are at least two slices, 1
    on the last; with no images the component renders nothing. *)
Theorem sliceRatio_in_unit_interval (sliceIndex totalSlices : Z) :
  0 <= sliceIndex <= totalSlices - 1 ->
  (exists r, sliceRatio true true sliceIndex totalSlices = Some r /\
     (0 <= r)%Q /\ (r <= 1)%Q /\
     (sliceIndex = 0 -> (r == 0)%Q) /\
     (2 <= totalSlices -> sliceIndex = totalSlices - 1 -> (r == 1)%Q)) /\
  sliceRatio true true sliceIndex 0 = None.
Proof.
  intros Hi. split; [|reflexivity].
  unfold sliceRatio. cbn [negb orb].
  destruct (totalSlices =? 0) eqn:Ht; [apply Z.eqb_eq in Ht; lia|].
  set (d := Z.max (totalSlices - 1) 1).
  assert (Hd : 1 <= d) by (subst d; lia).
  assert (Hle : sliceIndex <= d) by (subst d; lia).
  eexists. split; [reflexivity|].
  assert (Hdq : (0 < inject_Z d)%Q) by (change 0%Q with (inject_Z 0); rewrite <- Zlt_Qlt; lia).
  split; [|split; [|split]].
  - apply Qle_shift_div_l; [done|]. rewrite Qmult_0_l.
    change 0%Q with (inject_Z 0). rewrite <- Zle_Qle. lia.
  - apply Qle_shift_div_r; [done|]. rewrite Qmult_1_l. rewrite <- Zle_Qle. lia.
  - intros ->. unfold Qdiv. apply Qmult_0_l.
  - intros H2 Hlast. assert (sliceIndex = d) as -> by (subst d; lia).
    apply Qmult_inv_r. intros Hz. rewrite Hz in Hdq. by apply Qlt_irrefl in Hdq.
Qed.

Lemma sliceRatio_in_unit_interval_witness :
  exists r, sliceRatio true true 2 3 = Some r /\ (r == 1)%Q.
Proof.
  destruct (proj1 (sliceRatio_in_unit_interval 2 3 ltac:(lia)))
    as (r & Hr & _ & _ & _ & H1).
  exists r. split; [exact Hr|]. apply H1; lia.
Defined.

(** ** Splitting and joining *)

Lemma join_nn_push_front (c : ascii) (l : list string) :
  l <> [] -> join_nn (push_front c l) = String c (join_nn l).
Proof. destruct l as [|x [|y l]]; done. Qed.

(** X24: [split] on blank lines loses nothing: joining the pieces of a text
    with blank lines gives the text back, so the frames the reader hands on
    and the rest it keeps in its buffer are together exactly what has
    arrived. *)
Theorem join_nn_split_nn (s : string) : join_nn (split_nn s) = s.
Proof.
  induction s as [|c|c c2 rest IH1 IH2] using string_pair_ind; try reflexivity.
  rewrite split_nn_cons2. destruct (is_nl c && is_nl c2) eqn:Hnl.
  - apply andb_prop in Hnl as [H1 H2].
    assert (c = "010"%char /\ c2 = "010"%char) as [-> ->].
    { unfold is_nl in H1, H2. apply Nat.eqb_eq in H1, H2.
      split; [rewrite <- (ascii_nat_embedding c), H1
             |rewrite <- (ascii_nat_embedding c2), H2]; reflexivity. }
    pose proof (split_nn_nonempty rest) as Hne.
    destruct (split_nn rest) as [|x l] eqn:Hs; [done|].
    change (join_nn (EmptyString :: x :: l))
      with (String "010" (String "010" (join_nn (x :: l)))).
    by rewrite IH1.
  - rewrite join_nn_push_front by apply split_nn_nonempty. by rewrite IH2.
Qed.

(** ** The desktop shell *)

Lemma crashes_quitting (n : nat) (st : Shell.Supervisor) :
  Shell.isQuitting st = true ->
  Shell.crashes n st = (st, repeat Shell.NoEffect n).
Proof.
  intros Hq. induction n as [|n IH]; [done|].
  cbn [Shell.crashes repeat]. unfold Shell.handleBackendCrash. by rewrite Hq, IH.
Qed.

(** X25: [handleBackendCrash] schedules at most three restarts: with the
    restart counter at [c] and the application not quitting, of [n] calls in
    a row the first [3 - c] schedule a restart and every later one shows the
    error box instead; the counter grows by one per call (only the start-up
    resets it); while the application is quitting a call has no effect at
    all. *)
Theorem restart_budget (n : nat) (st : Shell.Supervisor) :
  0 <= Shell.restartCount st ->
  (Shell.isQuitting st = false ->
   snd (Shell.crashes n st)
   = (repeat Shell.RestartScheduled (Nat.min n (Z.to_nat (3 - Shell.restartCount st)))
      ++ repeat Shell.ErrorBox (n - Z.to_nat (3 - Shell.restartCount st)))%list /\
   Shell.restartCount (fst (Shell.crashes n st)) = Shell.restartCount st + Z.of_nat n) /\
  (Shell.isQuitting st = true ->
   Shell.crashes n st = (st, repeat Shell.NoEffect n)).
Proof.
  intros Hc. split; [|by apply crashes_quitting].
  intros Hq. revert st Hc Hq. induction n as [|n IH]; intros [c q] Hc Hq;
    cbn [Shell.restartCount Shell.isQuitting] in *; subst q.
  - cbn. split; [done|lia].
  - cbn [Shell.crashes]. unfold Shell.handleBackendCrash.
    cbn [Shell.restartCount Shell.isQuitting].
    destruct (IH (Shell.mkSupervisor (c + 1) false)) as [I1 I2]; [cbn; lia|done|].
    cbn [Shell.restartCount] in I1, I2.
    destruct (c + 1 <=? Shell.maxRestarts) eqn:Hle;
      destruct (Shell.crashes n (Shell.mkSupervisor (c + 1) false)) as [st2 es];
      cbn [fst snd] in *; subst es.
    + apply Z.leb_le in Hle. unfold Shell.maxRestarts in Hle.
      split; [|lia].
      replace (Z.to_nat (3 - c)) with (S (Z.to_nat (3 - (c + 1)))) by lia.
      cbn [Nat.min repeat app Nat.sub]. reflexivity.
    + apply Z.leb_gt in Hle. unfold Shell.maxRestarts in Hle.
      split; [|lia].
      replace (Z.to_nat (3 - c)) with 0%nat by lia.
      replace (Z.to_nat (3 - (c + 1))) with 0%nat by lia.
      rewrite !Nat.min_0_r, !Nat.sub_0_r. reflexivity.
Qed.

Lemma restart_budget_witness :
  snd (Shell.crashes 5 (Shell.mkSupervisor 0 false))
  = [Shell.RestartScheduled; Shell.RestartScheduled; Shell.RestartScheduled;
     Shell.ErrorBox; Shell.ErrorBox].
Proof.
  exact (proj1 (proj1 (restart_budget 5 (Shell.mkSupervisor 0 false) ltac:(cbn; lia))
                  eq_refl)).
Defined.
